(** * Kernel process object of the emulator: TLS slots, status, signalling

    A shallow embedding of [Kernel::Process] (process.cpp), followed by
    the properties the design document states about it.

    Conventions.
    - [u64]/[VAddr]/[std::size_t] values are [Z]; every C++ expression
      that can leave the 64-bit range is wrapped with [wrap64].
    - [std::bitset<8>] is a [Z] read and written with [Z.testbit],
      [Z.setbit] and [Z.clearbit]; [std::vector] is a [list] indexed with
      [!!] and updated with [<[i:=x]>].
    - Objects compared by address in the source ([Process*],
      [SharedPtr<Thread>]) carry an object identity.
    - A member function of [Process] is a computation in the monad [M]
      over the [Machine] (the process and the scheduler state it
      reaches through [system]); a failed [ASSERT], a failed [Unwrap]
      and an unchecked out-of-range access end it in [Failed], with the
      machine as it was at that point.

    The applet data broker and the applet manager (applets.cpp) are the
    module [Applets]; the game file lookup and the session sequencing of
    [System::Impl] (core.cpp) are the module [Core]. *)

From Stdlib Require Import ZArith Lia List Bool String.
From stdpp Require Import base list.
Import ListNotations.
Local Open Scope Z_scope.

(** ** Machine integers *)

Definition wrap64 (z : Z) : Z := z mod 2 ^ 64.
Arguments wrap64 : simpl never.

(** ** Constants of core/memory.h

    The header is not part of the sources at hand, so the two constants
    are parameters.  [switch_memory] below gives the values [0x1000] and
    [0x200]. *)
Class MemoryConstants := {
  PAGE_SIZE : Z;
  TLS_ENTRY_SIZE : Z
}.

(** What the allocator relies on: slots are not empty and the eight
    slots of a [std::bitset<8>] page fit into one page of the 64-bit
    address space. *)
Record MemoryConstantsOk `{MemoryConstants} : Prop := {
  tls_entry_size_pos : 0 < TLS_ENTRY_SIZE;
  tls_entries_fit : 8 * TLS_ENTRY_SIZE <= PAGE_SIZE;
  page_size_u64 : PAGE_SIZE < 2 ^ 64
}.

(** ** [std::bitset<8>] *)

Module Bitset8.
Definition t := Z.
Definition size : nat := 8.
Definition empty : t := 0.

(** Unchecked bit read, used once the position is known to be in range. *)
Definition bit (b : t) (pos : nat) : bool := Z.testbit b (Z.of_nat pos).

(** [all()]: every one of the eight bits is set. *)
Definition all (b : t) : bool := forallb (bit b) (seq 0 size).

(** [test], [set] and [reset] throw [std::out_of_range] for a position
    outside the bitset: [None]. *)
Definition test (b : t) (pos : nat) : option bool :=
  if (pos <? size)%nat then Some (bit b pos) else None.
Definition set (b : t) (pos : nat) : option t :=
  if (pos <? size)%nat then Some (Z.setbit b (Z.of_nat pos)) else None.
Definition reset (b : t) (pos : nat) : option t :=
  if (pos <? size)%nat then Some (Z.clearbit b (Z.of_nat pos)) else None.
End Bitset8.

(** ** Result codes *)

(** Modelled from the spec: the result codes of core/hle/kernel/errors.h
    and core/hle/result.h (not part of the sources at hand): success, the
    invalid-state error, the rejection of an overlapping mapping, and any
    other error by its description number. *)
Inductive ResultCode :=
| RESULT_SUCCESS
| ERR_INVALID_STATE
| ERR_INVALID_ADDRESS_STATE
| ERR_OTHER (description : Z).

Definition IsError (rc : ResultCode) : bool :=
  match rc with RESULT_SUCCESS => false | _ => true end.

Inductive ResultVal (A : Type) :=
| RvOk (a : A)
| RvErr (rc : ResultCode).
Arguments RvOk {A} a.
Arguments RvErr {A} rc.

(** ** Enumerations *)

Inductive ProcessStatus := Created | Running | Exiting | Exited.

Definition ProcessStatus_eqb (a b : ProcessStatus) : bool :=
  match a, b with
  | Created, Created | Running, Running
  | Exiting, Exiting | Exited, Exited => true
  | _, _ => false
  end.

(** Modelled from the spec: the thread states of thread.h (not part of
    the sources at hand); the source names [WaitSynch], the spec speaks
    of run, wait and dormant states and of stopped threads. *)
Inductive ThreadStatus :=
| ThreadRunning | ThreadReady | WaitSynch | WaitSleep | Dormant | Dead.

Definition ThreadStatus_eqb (a b : ThreadStatus) : bool :=
  match a, b with
  | ThreadRunning, ThreadRunning | ThreadReady, ThreadReady
  | WaitSynch, WaitSynch | WaitSleep, WaitSleep
  | Dormant, Dormant | Dead, Dead => true
  | _, _ => false
  end.

(** Modelled from the spec: the semantic state tags of a mapping
    (vm_manager.h is not part of the sources at hand). *)
Inductive MemoryState :=
| MsCode | MsCodeData | MsHeap | MsStack | MsThreadLocal.

(** Modelled from the spec: the address-space types a program's metadata
    can declare (program_metadata.h is not part of the sources at hand). *)
Inductive ProgramAddressSpaceType := Is32Bit | Is36Bit | Is32BitNoMap | Is39Bit.

Definition ObjectId := nat.

(** ** Threads *)

(** Modelled from the spec: a thread (thread.h is not part of the sources
    at hand) has an owning process it never changes, a priority, an ideal
    core, a saved register block, a status, and the memory of its TLS
    region, which it shares with the address space that maps it. *)
Record Thread := mkThread {
  thread_id : ObjectId;
  thread_name : string;
  entry_point : Z;
  priority : Z;
  processor_id : Z;
  stack_top : Z;
  owner_process : ObjectId;
  thread_status : ThreadStatus;
  cpu_registers : list Z;
  tls_memory : list Z
}.

Definition set_thread_status (s : ThreadStatus) (t : Thread) : Thread :=
  mkThread (thread_id t) (thread_name t) (entry_point t) (priority t)
    (processor_id t) (stack_top t) (owner_process t) s
    (cpu_registers t) (tls_memory t).

Definition set_cpu_registers (r : list Z) (t : Thread) : Thread :=
  mkThread (thread_id t) (thread_name t) (entry_point t) (priority t)
    (processor_id t) (stack_top t) (owner_process t) (thread_status t)
    r (tls_memory t).

Definition set_tls_memory (m : list Z) (t : Thread) : Thread :=
  mkThread (thread_id t) (thread_name t) (entry_point t) (priority t)
    (processor_id t) (stack_top t) (owner_process t) (thread_status t)
    (cpu_registers t) m.

(** Modelled from the spec: [Thread::ResumeFromWait] (thread.cpp is not
    part of the sources at hand) makes the thread runnable. *)
Definition ResumeFromWait (t : Thread) : Thread :=
  set_thread_status ThreadReady t.

(** Modelled from the spec: [Thread::Stop] (thread.cpp is not part of the
    sources at hand) forcibly stops the thread. *)
Definition Thread_Stop (t : Thread) : Thread :=
  set_thread_status Dead t.

(** ** Address space *)

(** Modelled from the spec: a mapping is identified by base address,
    size, backing storage and state tag (vm_manager.h is not part of the
    sources at hand).  The backing storage is a shared pointer: either
    the TLS memory of a thread (shared with that thread) or a vector only
    the mapping holds, given by its contents. *)
Inductive BackingBlock :=
| TLSMemoryOf (thread : ObjectId)
| OwnedBlock (bytes : list Z).

Record VirtualMemoryArea := mkVMA {
  vma_base : Z;
  vma_size : Z;
  vma_backing : BackingBlock;
  vma_offset : Z;
  vma_state : MemoryState
}.

(** Modelled from the spec: the address space of one process exposes the
    code-region base and the bounds of the thread-local/IO region, and
    holds the mapped regions. *)
Record VMManager := mkVMManager {
  address_space_type : ProgramAddressSpaceType;
  code_region_base : Z;
  tls_io_region_base : Z;
  tls_io_region_end : Z;
  vma_map : list VirtualMemoryArea
}.

Definition GetCodeRegionBaseAddress (vm : VMManager) : Z := code_region_base vm.
Definition GetTLSIORegionBaseAddress (vm : VMManager) : Z := tls_io_region_base vm.
Definition GetTLSIORegionEndAddress (vm : VMManager) : Z := tls_io_region_end vm.

Definition ranges_intersect (base1 size1 base2 size2 : Z) : bool :=
  (base1 <? base2 + size2) && (base2 <? base1 + size1).

Definition range_is_free (vm : VMManager) (target size : Z) : bool :=
  forallb (fun vma => negb (ranges_intersect target size (vma_base vma) (vma_size vma)))
          (vma_map vm).

(** Modelled from the spec: [VMManager::MapMemoryBlock] (vm_manager.cpp is
    not part of the sources at hand) maps a region given by base address,
    size, backing storage and state tag; a region whose range intersects
    a mapped one is rejected and the address space is left as it was. *)
Definition MapMemoryBlock (vm : VMManager) (target : Z) (block : BackingBlock)
    (offset size : Z) (state : MemoryState) : ResultVal VirtualMemoryArea * VMManager :=
  if range_is_free vm target size then
    let vma := mkVMA target size block offset state in
    (RvOk vma,
     mkVMManager (address_space_type vm) (code_region_base vm)
       (tls_io_region_base vm) (tls_io_region_end vm) (vma_map vm ++ [vma]))
  else (RvErr ERR_INVALID_ADDRESS_STATE, vm).

(** Modelled from the spec: [VMManager::RefreshMemoryBlockMappings] and
    [VMManager::LogLayout] (vm_manager.cpp is not part of the sources at
    hand) map and unmap nothing: the first renews the host pointers of
    the regions a block backs after the block has grown, the second
    writes the layout to the log. *)
Definition RefreshMemoryBlockMappings (vm : VMManager) (block : BackingBlock)
    : VMManager := vm.
Definition LogLayout (vm : VMManager) : unit := tt.

(** The bytes a mapping shows: [size] bytes of its block, from [offset]. *)
Definition window (block : list Z) (offset size : Z) : list Z :=
  take (Z.to_nat size) (drop (Z.to_nat offset) block).

(** ** Handle table *)

Definition Handle := Z.

(** Modelled from the spec: the handle table of a process
    (handle_table.h is not part of the sources at hand) holds the objects
    the process has handles for. *)
Record HandleTable := mkHandleTable {
  ht_objects : list ObjectId
}.

(** Modelled from the spec: [HandleTable::Create] (handle_table.cpp is not
    part of the sources at hand) stores the object and returns a fresh
    handle for it, which is never zero: the position of the new entry,
    counted from one. *)
Definition HandleTable_Create (ht : HandleTable) (obj : ObjectId)
    : ResultVal Handle * HandleTable :=
  (RvOk (Z.of_nat (length (ht_objects ht)) + 1),
   mkHandleTable (ht_objects ht ++ [obj])).

Definition HandleTable_Get (ht : HandleTable) (h : Handle) : option ObjectId :=
  if h <=? 0 then None else ht_objects ht !! Z.to_nat (h - 1).

(** ** Collaborators outside process.cpp

    What [Process] calls in the standard library and in parts of the
    kernel that are not among the sources at hand, and whose results no
    property below depends on, is a parameter: the random number engine
    and distribution of [<random>], the size of the entropy buffer
    (process.h), the capability parser (process_capability.cpp), the
    sizing of the handle table (handle_table.cpp) and the region layout
    the address space takes for each address-space type
    (vm_manager.cpp). *)
Class Externals := {
  RngState : Type;
  mt19937 : Z -> RngState;
  distribution : RngState -> Z * RngState;
  RANDOM_ENTROPY_SIZE : nat;
  ProcessCapabilities : Type;
  (** what the constructors of the members leave *)
  fresh_capabilities : ProcessCapabilities;
  fresh_vm_manager : VMManager;
  InitializeForMetadatalessProcess : ProcessCapabilities -> ProcessCapabilities;
  InitializeForUserProcess :
    list Z -> VMManager -> ProcessCapabilities -> ResultCode * ProcessCapabilities;
  GetHandleTableSize : ProcessCapabilities -> Z;
  HandleTable_SetSize : Z -> HandleTable -> ResultCode * HandleTable;
  (** code-region base, TLS/IO region base, TLS/IO region end *)
  region_layout : ProgramAddressSpaceType -> Z * Z * Z
}.

(** Modelled from the spec: program metadata as the loader supplies it
    (program_metadata.h is not part of the sources at hand): title ID,
    ideal core, bitness, address-space type, capability descriptors. *)
Record ProgramMetadata := mkProgramMetadata {
  GetTitleID : Z;
  GetMainThreadCore : Z;
  Is64BitProgram : bool;
  GetAddressSpaceType : ProgramAddressSpaceType;
  GetKernelCapabilities : list Z
}.

(** Modelled from the spec: the part of the kernel orchestrator that
    [Process::Create] uses (kernel.cpp is not part of the sources at
    hand): process IDs assigned monotonically, the system resource limit,
    the process table. *)
Record KernelCore := mkKernelCore {
  next_process_id : Z;
  system_resource_limit : ObjectId;
  process_list : list Z
}.

Section Model.
Context `{MC : MemoryConstants} `{EX : Externals}.

(** Modelled from the spec: [Common::AlignUp] (common/alignment.h is not
    part of the sources at hand) rounds an unsigned value up to the next
    multiple of the given size; the value is a [u64]. *)
Definition AlignUp (value size : Z) : Z :=
  wrap64 (value + (size - value mod size) mod size).

(** Modelled from the spec: [VMManager::Reset] (vm_manager.cpp is not part
    of the sources at hand) resets the address space to the layout of the
    given address-space type, with nothing mapped. *)
Definition VMManager_Reset (type : ProgramAddressSpaceType) : VMManager :=
  let '(code_base, tls_base, tls_end) := region_layout type in
  mkVMManager type code_base tls_base tls_end [].

(** ** The process object *)

Record Process := mkProcess {
  process_id : Z;
  name : string;
  resource_limit : ObjectId;
  status : ProcessStatus;
  is_signaled : bool;
  program_id : Z;
  ideal_core : Z;
  is_64bit_process : bool;
  random_entropy : list Z;
  capabilities : ProcessCapabilities;
  vm_manager : VMManager;
  handle_table : HandleTable;
  main_thread_stack_size : Z;
  tls_slots : list Bitset8.t;
  (** the [WaitObject] base (wait_object.h is not part of the sources at
      hand), from the spec: the threads blocked on this object *)
  waiting_threads : list ObjectId
}.

Definition set_status (v : ProcessStatus) (p : Process) : Process :=
  mkProcess (process_id p) (name p) (resource_limit p) v (is_signaled p)
    (program_id p) (ideal_core p) (is_64bit_process p) (random_entropy p)
    (capabilities p) (vm_manager p) (handle_table p)
    (main_thread_stack_size p) (tls_slots p) (waiting_threads p).

Definition set_is_signaled (v : bool) (p : Process) : Process :=
  mkProcess (process_id p) (name p) (resource_limit p) (status p) v
    (program_id p) (ideal_core p) (is_64bit_process p) (random_entropy p)
    (capabilities p) (vm_manager p) (handle_table p)
    (main_thread_stack_size p) (tls_slots p) (waiting_threads p).

Definition set_program_id (v : Z) (p : Process) : Process :=
  mkProcess (process_id p) (name p) (resource_limit p) (status p) (is_signaled p)
    v (ideal_core p) (is_64bit_process p) (random_entropy p)
    (capabilities p) (vm_manager p) (handle_table p)
    (main_thread_stack_size p) (tls_slots p) (waiting_threads p).

Definition set_ideal_core (v : Z) (p : Process) : Process :=
  mkProcess (process_id p) (name p) (resource_limit p) (status p) (is_signaled p)
    (program_id p) v (is_64bit_process p) (random_entropy p)
    (capabilities p) (vm_manager p) (handle_table p)
    (main_thread_stack_size p) (tls_slots p) (waiting_threads p).

Definition set_is_64bit_process (v : bool) (p : Process) : Process :=
  mkProcess (process_id p) (name p) (resource_limit p) (status p) (is_signaled p)
    (program_id p) (ideal_core p) v (random_entropy p)
    (capabilities p) (vm_manager p) (handle_table p)
    (main_thread_stack_size p) (tls_slots p) (waiting_threads p).

Definition set_capabilities (v : ProcessCapabilities) (p : Process) : Process :=
  mkProcess (process_id p) (name p) (resource_limit p) (status p) (is_signaled p)
    (program_id p) (ideal_core p) (is_64bit_process p) (random_entropy p)
    v (vm_manager p) (handle_table p)
    (main_thread_stack_size p) (tls_slots p) (waiting_threads p).

Definition set_vm_manager (v : VMManager) (p : Process) : Process :=
  mkProcess (process_id p) (name p) (resource_limit p) (status p) (is_signaled p)
    (program_id p) (ideal_core p) (is_64bit_process p) (random_entropy p)
    (capabilities p) v (handle_table p)
    (main_thread_stack_size p) (tls_slots p) (waiting_threads p).

Definition set_handle_table (v : HandleTable) (p : Process) : Process :=
  mkProcess (process_id p) (name p) (resource_limit p) (status p) (is_signaled p)
    (program_id p) (ideal_core p) (is_64bit_process p) (random_entropy p)
    (capabilities p) (vm_manager p) v
    (main_thread_stack_size p) (tls_slots p) (waiting_threads p).

Definition set_main_thread_stack_size (v : Z) (p : Process) : Process :=
  mkProcess (process_id p) (name p) (resource_limit p) (status p) (is_signaled p)
    (program_id p) (ideal_core p) (is_64bit_process p) (random_entropy p)
    (capabilities p) (vm_manager p) (handle_table p)
    v (tls_slots p) (waiting_threads p).

Definition set_tls_slots (v : list Bitset8.t) (p : Process) : Process :=
  mkProcess (process_id p) (name p) (resource_limit p) (status p) (is_signaled p)
    (program_id p) (ideal_core p) (is_64bit_process p) (random_entropy p)
    (capabilities p) (vm_manager p) (handle_table p)
    (main_thread_stack_size p) v (waiting_threads p).

Definition set_waiting_threads (v : list ObjectId) (p : Process) : Process :=
  mkProcess (process_id p) (name p) (resource_limit p) (status p) (is_signaled p)
    (program_id p) (ideal_core p) (is_64bit_process p) (random_entropy p)
    (capabilities p) (vm_manager p) (handle_table p)
    (main_thread_stack_size p) (tls_slots p) v.

Definition GetIdealCore (p : Process) : Z := ideal_core p.

(** The identity behind [this]: process IDs are unique. *)
Definition this_id (p : Process) : ObjectId := Z.to_nat (process_id p).

(** ** The machine and its monad *)

(** What a member function of [Process] can reach: the process itself,
    the flat thread list of the global scheduler, the thread running on
    the calling core's scheduler, and the next free object identity. *)
Record Machine := mkMachine {
  process : Process;
  thread_list : list Thread;
  current_thread : option ObjectId;
  next_object_id : ObjectId
}.

Definition set_process (p : Process) (m : Machine) : Machine :=
  mkMachine p (thread_list m) (current_thread m) (next_object_id m).

Definition set_thread_list (l : list Thread) (m : Machine) : Machine :=
  mkMachine (process m) l (current_thread m) (next_object_id m).

(** Why a call does not return: a failed [ASSERT]; [Unwrap] of an error
    result, which asserts; [operator[]] of a [std::vector] with an index
    past its end, which the source does not check (undefined behaviour:
    nothing is asserted and nothing is reported); [std::out_of_range]
    thrown by [std::bitset]. *)
Inductive Failure :=
| AssertionFailed (msg : string)
| UnwrapOfError (rc : ResultCode)
| UncheckedIndexPastEnd
| BitsetOutOfRange.

Inductive Outcome (A : Type) :=
| Done (a : A) (m : Machine)
| Failed (f : Failure) (m : Machine).
Arguments Done {A} a m.
Arguments Failed {A} f m.

Definition M (A : Type) : Type := Machine -> Outcome A.

Definition ret {A} (a : A) : M A := fun m => Done a m.

Definition bind {A B} (c : M A) (k : A -> M B) : M B :=
  fun m => match c m with
           | Done a m' => k a m'
           | Failed f m' => Failed f m'
           end.

Definition fail_with {A} (f : Failure) : M A := fun m => Failed f m.

Definition get_process : M Process := fun m => Done (process m) m.

Definition modify_process (f : Process -> Process) : M unit :=
  fun m => Done tt (set_process (f (process m)) m).

Definition modify_threads (f : list Thread -> list Thread) : M unit :=
  fun m => Done tt (set_thread_list (f (thread_list m)) m).

(** Modelled from the spec: [ASSERT_MSG(cond, msg)] (common/assert.h is
    not part of the sources at hand) is fatal when the condition fails:
    the call does not continue and no result is produced. *)
Definition ASSERT_MSG (cond : bool) (msg : string) : M unit :=
  if cond then ret tt else fail_with (AssertionFailed msg).

(** Modelled from the spec: [ResultVal::Unwrap] (core/hle/result.h is
    not part of the sources at hand) gives the value of a successful
    result and asserts on an error. *)
Definition Unwrap {A} (r : ResultVal A) : M A :=
  match r with
  | RvOk a => ret a
  | RvErr rc => fail_with (UnwrapOfError rc)
  end.

(** The machine an outcome ends in, and its result. *)
Definition final {A} (o : Outcome A) : Machine :=
  match o with Done _ m => m | Failed _ m => m end.

Definition returned {A} (o : Outcome A) : option A :=
  match o with Done a _ => Some a | Failed _ _ => None end.

End Model.

Arguments Done {EX A} a m.
Arguments Failed {EX A} f m.

Notation "x <- c1 ;; c2" := (bind c1 (fun x => c2))
  (at level 100, c1 at next level, right associativity).
Notation "c1 ;; c2" := (bind c1 (fun _ => c2))
  (at level 100, right associativity).

Section Operations.
Context `{MC : MemoryConstants} `{EX : Externals}.

(** ** Creation *)

Definition value_or {A} (o : option A) (d : A) : A :=
  match o with Some a => a | None => d end.

(** [std::generate] over the entropy array: one draw per element, in
    order, each from the engine state the previous draw left. *)
Fixpoint generate (n : nat) (rng : RngState) : list Z * RngState :=
  match n with
  | O => ([], rng)
  | S n' =>
      let '(v, rng1) := distribution rng in
      let '(vs, rng2) := generate n' rng1 in
      (v :: vs, rng2)
  end.

(** Modelled from the spec: [new Process(system)] leaves the members as
    their initialisers in process.h have them (the header is not part of
    the sources at hand): not signaled, no TLS page, nobody waiting, an
    empty handle table. *)
Definition Process_new : Process :=
  mkProcess 0 EmptyString 0%nat Created false 0 0 false
    (repeat 0 RANDOM_ENTROPY_SIZE) fresh_capabilities fresh_vm_manager
    (mkHandleTable []) 0 [] [].

(** [Process::Create]; [rng_seed] is [Settings::values.rng_seed]. *)
Definition Process_Create (rng_seed : option Z) (kernel : KernelCore) (name : string)
    : Process * KernelCore :=
  let process := Process_new in
  let process :=
    mkProcess
      (* process->process_id = kernel.CreateNewProcessID(); *)
      (next_process_id kernel)
      (* process->name = std::move(name); *)
      name
      (* process->resource_limit = kernel.GetSystemResourceLimit(); *)
      (system_resource_limit kernel)
      (* process->status = ProcessStatus::Created; *)
      Created
      (is_signaled process)
      (* process->program_id = 0; *)
      0
      (ideal_core process) (is_64bit_process process)
      (* std::mt19937 rng(Settings::values.rng_seed.value_or(0));
         std::generate(random_entropy.begin(), random_entropy.end(),
                       [&] { return distribution(rng); }); *)
      (fst (generate (length (random_entropy process)) (mt19937 (value_or rng_seed 0))))
      (* process->capabilities.InitializeForMetadatalessProcess(); *)
      (InitializeForMetadatalessProcess (capabilities process))
      (vm_manager process) (handle_table process)
      (main_thread_stack_size process) (tls_slots process)
      (waiting_threads process) in
  (* kernel.AppendNewProcess(process); *)
  (process,
   mkKernelCore (next_process_id kernel + 1) (system_resource_limit kernel)
     (process_list kernel ++ [process_id process])).

(** ** Signal state *)

Definition ClearSignalState : M ResultCode :=
  p <- get_process ;;
  if ProcessStatus_eqb (status p) Exited then
    ret ERR_INVALID_STATE
  else if negb (is_signaled p) then
    ret ERR_INVALID_STATE
  else
    modify_process (set_is_signaled false) ;;
    ret RESULT_SUCCESS.

Definition ShouldWait : M bool :=
  p <- get_process ;;
  ret (negb (is_signaled p)).

Definition Acquire : M unit :=
  should_wait <- ShouldWait ;;
  ASSERT_MSG (negb should_wait) "Object unavailable!".

Definition is_waiting (waiters : list ObjectId) (t : Thread) : bool :=
  existsb (Nat.eqb (thread_id t)) waiters.

(** Modelled from the spec: [WaitObject::WakeupAllWaitingThreads]
    (wait_object.cpp is not part of the sources at hand) wakes every
    thread blocked on the object, after which nobody waits on it. *)
Definition WakeupAllWaitingThreads : M unit :=
  p <- get_process ;;
  modify_threads
    (map (fun t => if is_waiting (waiting_threads p) t then ResumeFromWait t else t)) ;;
  modify_process (set_waiting_threads []).

Definition ChangeStatus (new_status : ProcessStatus) : M unit :=
  p <- get_process ;;
  if ProcessStatus_eqb (status p) new_status then
    ret tt
  else
    modify_process (set_status new_status) ;;
    modify_process (set_is_signaled true) ;;
    WakeupAllWaitingThreads.

(** ** Loading *)

Definition LoadFromMetadata (metadata : ProgramMetadata) : M ResultCode :=
  modify_process (set_program_id (GetTitleID metadata)) ;;
  modify_process (set_ideal_core (GetMainThreadCore metadata)) ;;
  modify_process (set_is_64bit_process (Is64BitProgram metadata)) ;;
  modify_process (set_vm_manager (VMManager_Reset (GetAddressSpaceType metadata))) ;;
  let caps := GetKernelCapabilities metadata in
  p <- get_process ;;
  let '(capability_init_result, capabilities1) :=
    InitializeForUserProcess caps (vm_manager p) (capabilities p) in
  modify_process (set_capabilities capabilities1) ;;
  if IsError capability_init_result then
    ret capability_init_result
  else
    let '(result, handle_table1) :=
      HandleTable_SetSize (GetHandleTableSize capabilities1) (handle_table p) in
    modify_process (set_handle_table handle_table1) ;;
    ret result.

(** ** Running *)

(** A thread object reached through a shared pointer is updated where it
    lives, in the scheduler's list. *)
Definition update_thread (id : ObjectId) (f : Thread -> Thread) (l : list Thread)
    : list Thread :=
  map (fun t => if Nat.eqb (thread_id t) id then f t else t) l.

(** Modelled from the spec: [Thread::Create] (thread.cpp is not part of
    the sources at hand) makes a new thread of the owner with the given
    entry point, priority, ideal core and stack top; the thread starts
    dormant and is tracked by the global scheduler's flat thread list.
    The result is the new thread's identity. *)
Definition Thread_Create (name : string) (entry_point priority arg processor_id
    stack_top : Z) (owner : ObjectId) : M (ResultVal ObjectId) :=
  fun m =>
    let id := next_object_id m in
    let thread :=
      mkThread id name entry_point priority processor_id stack_top owner
        Dormant (repeat 0 31) [] in
    Done (RvOk id)
      (mkMachine (process m) (thread_list m ++ [thread]) (current_thread m) (S id)).

Definition SetupMainThread (priority : Z) : M unit :=
  owner_process <- get_process ;;
  let vm_manager := vm_manager owner_process in
  let entry_point := GetCodeRegionBaseAddress vm_manager in
  let stack_top := GetTLSIORegionEndAddress vm_manager in
  thread_res <- Thread_Create "main" entry_point priority 0
                  (GetIdealCore owner_process) stack_top (this_id owner_process) ;;
  thread <- Unwrap thread_res ;;
  (* Register 1 must be a handle to the main thread *)
  let '(created, handle_table1) :=
    HandleTable_Create (handle_table owner_process) thread in
  modify_process (set_handle_table handle_table1) ;;
  thread_handle <- Unwrap created ;;
  modify_threads (update_thread thread
    (fun t => set_cpu_registers (<[1%nat := thread_handle]> (cpu_registers t)) t)) ;;
  (* Threads by default are dormant, wake up the main thread *)
  modify_threads (update_thread thread ResumeFromWait).

(** [s32 main_thread_priority] is passed on as [u32]. *)
Definition to_u32 (z : Z) : Z := z mod 2 ^ 32.

Definition Run (main_thread_priority stack_size : Z) : M unit :=
  (* The kernel always ensures that the given stack size is page aligned. *)
  modify_process (set_main_thread_stack_size (AlignUp stack_size PAGE_SIZE)) ;;
  p <- get_process ;;
  let mapping_address :=
    wrap64 (GetTLSIORegionEndAddress (vm_manager p) - main_thread_stack_size p) in
  let '(mapped, vm_manager1) :=
    MapMemoryBlock (vm_manager p) mapping_address
      (OwnedBlock (repeat 0 (Z.to_nat (main_thread_stack_size p))))
      0 (main_thread_stack_size p) MsStack in
  modify_process (set_vm_manager vm_manager1) ;;
  Unwrap mapped ;;
  let _ := LogLayout vm_manager1 in
  ChangeStatus Running ;;
  SetupMainThread (to_u32 main_thread_priority).

(** ** Termination *)

Definition is_current (current : option ObjectId) (t : Thread) : bool :=
  match current with
  | Some id => Nat.eqb (thread_id t) id
  | None => false
  end.

(** The [stop_threads] lambda: the threads as the loop leaves them, and
    whether every assertion held.  A failed assertion ends the loop with
    the threads after it untouched. *)
Fixpoint stop_threads (this : ObjectId) (current : option ObjectId)
    (thread_list : list Thread) : list Thread * bool :=
  match thread_list with
  | [] => ([], true)
  | thread :: rest =>
      if negb (Nat.eqb (owner_process thread) this) then
        let '(rest1, ok) := stop_threads this current rest in (thread :: rest1, ok)
      else if is_current current thread then
        let '(rest1, ok) := stop_threads this current rest in (thread :: rest1, ok)
      else if negb (ThreadStatus_eqb (thread_status thread) WaitSynch) then
        (thread :: rest, false)
      else
        let '(rest1, ok) := stop_threads this current rest in
        (Thread_Stop thread :: rest1, ok)
  end.

Definition PrepareForTermination : M unit :=
  ChangeStatus Exiting ;;
  this <- get_process ;;
  (fun m =>
     let '(threads1, ok) :=
       stop_threads (this_id this) (current_thread m) (thread_list m) in
     if ok then Done tt (set_thread_list threads1 m)
     else Failed (AssertionFailed
                   "Exiting processes with non-waiting threads is currently unimplemented")
                (set_thread_list threads1 m)) ;;
  ChangeStatus Exited.

(** ** Thread-local storage slots *)

Definition page_full (b : Bitset8.t) : Prop := Bitset8.all b = true.

(** The inner loop of [FindFreeThreadLocalSlot]: the first slot whose bit
    is clear.  [test] cannot throw here, the slot is below [size()]. *)
Definition first_clear_slot (page_tls_slots : Bitset8.t) : option nat :=
  find (fun slot => negb (Bitset8.bit page_tls_slots slot)) (seq 0 Bitset8.size).

(** The outer loop of [FindFreeThreadLocalSlot], from page index [page]
    on. *)
Fixpoint find_free_from (page : nat) (pages : list Bitset8.t) : nat * nat * bool :=
  match pages with
  | [] => (0%nat, 0%nat, true)
  | page_tls_slots :: rest =>
      if negb (Bitset8.all page_tls_slots) then
        match first_clear_slot page_tls_slots with
        | Some slot => (page, slot, false)
        | None => find_free_from (S page) rest
        end
      else find_free_from (S page) rest
  end.

Definition FindFreeThreadLocalSlot (tls_slots : list Bitset8.t) : nat * nat * bool :=
  find_free_from 0 tls_slots.

(** [tls_slots[page].set(slot)] and [tls_slots[page].reset(slot)]: the
    vector index is not checked by the source, the bit position is
    checked by [std::bitset]. *)
Definition tls_slots_update (op : Bitset8.t -> nat -> option Bitset8.t)
    (page slot : nat) : M unit :=
  p <- get_process ;;
  match tls_slots p !! page with
  | None => fail_with UncheckedIndexPastEnd
  | Some bits =>
      match op bits slot with
      | None => fail_with BitsetOutOfRange
      | Some bits1 => modify_process (set_tls_slots (<[page := bits1]> (tls_slots p)))
      end
  end.

(** The thread is the caller's object: it is passed in and handed back
    with its TLS memory as the call leaves it. *)
Definition MarkNextAvailableTLSSlotAsUsed (thread : Thread) : M (Z * Thread) :=
  p <- get_process ;;
  let '(available_page, available_slot, needs_allocation) :=
    FindFreeThreadLocalSlot (tls_slots p) in
  let tls_begin := GetTLSIORegionBaseAddress (vm_manager p) in
  found <-
    (if needs_allocation then
       (* The page is completely available at the start *)
       modify_process (set_tls_slots (tls_slots p ++ [Bitset8.empty])) ;;
       let available_page := (length (tls_slots p ++ [Bitset8.empty]) - 1)%nat in
       (* Allocate some memory from the end of the linear heap for this region. *)
       let thread :=
         set_tls_memory (tls_memory thread ++ repeat 0 (Z.to_nat PAGE_SIZE)) thread in
       let tls_memory := TLSMemoryOf (thread_id thread) in
       let vm_manager1 := RefreshMemoryBlockMappings (vm_manager p) tls_memory in
       modify_process (set_vm_manager
         (snd (MapMemoryBlock vm_manager1
                 (wrap64 (tls_begin + Z.of_nat available_page * PAGE_SIZE))
                 tls_memory 0 PAGE_SIZE MsThreadLocal))) ;;
       ret (available_page, 0%nat, thread)
     else ret (available_page, available_slot, thread)) ;;
  let '(available_page, available_slot, thread) := found in
  tls_slots_update Bitset8.set available_page available_slot ;;
  ret (wrap64 (tls_begin + Z.of_nat available_page * PAGE_SIZE
               + Z.of_nat available_slot * TLS_ENTRY_SIZE), thread).

Definition FreeTLSSlot (tls_address : Z) : M unit :=
  p <- get_process ;;
  let tls_base := wrap64 (tls_address - GetTLSIORegionBaseAddress (vm_manager p)) in
  let tls_page := tls_base / PAGE_SIZE in
  let tls_slot := (tls_base mod PAGE_SIZE) / TLS_ENTRY_SIZE in
  tls_slots_update Bitset8.reset (Z.to_nat tls_page) (Z.to_nat tls_slot).

(** The addresses [n] allocations in a row hand out, in order. *)
Fixpoint allocate_many (n : nat) (thread : Thread) (m : Machine) : list Z :=
  match n with
  | O => []
  | S n' =>
      match MarkNextAvailableTLSSlotAsUsed thread m with
      | Done (address, thread1) m1 => address :: allocate_many n' thread1 m1
      | Failed _ _ => []
      end
  end.

(** ** Sequences of operations on one process *)

Inductive Operation :=
| OpRun (main_thread_priority stack_size : Z)
| OpPrepareForTermination.

Definition apply_operation (op : Operation) : M unit :=
  match op with
  | OpRun main_thread_priority stack_size => Run main_thread_priority stack_size
  | OpPrepareForTermination => PrepareForTermination
  end.

(** *** The statuses a process takes

    To follow every status a process takes in the course of an
    operation, and not only the one it ends in, the operations are run
    with a log of the assignments to [status]: a computation gives its
    outcome and the statuses it has assigned, in order. *)
Definition Logged (A : Type) : Type := Machine -> Outcome A * list ProcessStatus.

Definition retL {A} (a : A) : Logged A := fun m => (Done a m, []).

Definition bindL {A B} (c : Logged A) (k : A -> Logged B) : Logged B :=
  fun m =>
    match c m with
    | (Done a m1, log1) => let '(o, log2) := k a m1 in (o, log1 ++ log2)
    | (Failed f m1, log1) => (Failed f m1, log1)
    end.

(** A computation in which no status is assigned. *)
Definition unlogged {A} (c : M A) : Logged A := fun m => (c m, []).

(** [status = new_status;] *)
Definition assign_status (new_status : ProcessStatus) : Logged unit :=
  fun m => (modify_process (set_status new_status) m, [new_status]).

Declare Scope logged_scope.
Delimit Scope logged_scope with logged.
Notation "x <- c1 ;; c2" := (bindL c1 (fun x => c2))
  (at level 100, c1 at next level, right associativity) : logged_scope.
Notation "c1 ;; c2" := (bindL c1 (fun _ => c2))
  (at level 100, right associativity) : logged_scope.

(** [Process::ChangeStatus], [Process::Run] and
    [Process::PrepareForTermination] once more, statement by statement,
    with the one assignment to [status] there is, in [ChangeStatus],
    logged. *)
Definition ChangeStatus_logged (new_status : ProcessStatus) : Logged unit :=
  (p <- unlogged get_process ;;
   if ProcessStatus_eqb (status p) new_status then
     retL tt
   else
     assign_status new_status ;;
     unlogged (modify_process (set_is_signaled true)) ;;
     unlogged WakeupAllWaitingThreads)%logged.

Definition Run_logged (main_thread_priority stack_size : Z) : Logged unit :=
  ((* The kernel always ensures that the given stack size is page aligned. *)
   unlogged (modify_process
               (set_main_thread_stack_size (AlignUp stack_size PAGE_SIZE))) ;;
   p <- unlogged get_process ;;
   let mapping_address :=
     wrap64 (GetTLSIORegionEndAddress (vm_manager p) - main_thread_stack_size p) in
   let '(mapped, vm_manager1) :=
     MapMemoryBlock (vm_manager p) mapping_address
       (OwnedBlock (repeat 0 (Z.to_nat (main_thread_stack_size p))))
       0 (main_thread_stack_size p) MsStack in
   unlogged (modify_process (set_vm_manager vm_manager1)) ;;
   unlogged (Unwrap mapped) ;;
   let _ := LogLayout vm_manager1 in
   ChangeStatus_logged Running ;;
   unlogged (SetupMainThread (to_u32 main_thread_priority)))%logged.

Definition PrepareForTermination_logged : Logged unit :=
  (ChangeStatus_logged Exiting ;;
   this <- unlogged get_process ;;
   unlogged
     (fun m =>
        let '(threads1, ok) :=
          stop_threads (this_id this) (current_thread m) (thread_list m) in
        if ok then Done tt (set_thread_list threads1 m)
        else Failed (AssertionFailed
                      "Exiting processes with non-waiting threads is currently unimplemented")
                   (set_thread_list threads1 m)) ;;
   ChangeStatus_logged Exited)%logged.

Definition apply_operation_logged (op : Operation) : Logged unit :=
  match op with
  | OpRun main_thread_priority stack_size =>
      Run_logged main_thread_priority stack_size
  | OpPrepareForTermination => PrepareForTermination_logged
  end.

(** The statuses the process takes in the course of one operation, in
    order: the statuses the run of the operation assigns. *)
Definition statuses_during (op : Operation) (m : Machine) : list ProcessStatus :=
  snd (apply_operation_logged op m).

(** The statuses over a sequence of operations; a failed operation ends
    the run. *)
Fixpoint status_trace (ops : list Operation) (m : Machine) : list ProcessStatus :=
  match ops with
  | [] => []
  | op :: rest =>
      statuses_during op m
      ++ match fst (apply_operation_logged op m) with
         | Done _ m1 => status_trace rest m1
         | Failed _ _ => []
         end
  end.

Definition status_rank (s : ProcessStatus) : nat :=
  match s with Created => 0 | Running => 1 | Exiting => 2 | Exited => 3 end.

(** One step in the order Created < Running < Exiting < Exited: the
    status moves to the next one. *)
Definition forward_step (a b : ProcessStatus) : bool :=
  Nat.eqb (status_rank b) (S (status_rank a)).

(** Every status of the trace is one step after the status before it. *)
Fixpoint forward_only (from : ProcessStatus) (trace : list ProcessStatus) : bool :=
  match trace with
  | [] => true
  | s :: rest => forward_step from s && forward_only s rest
  end.

(** The order of the life cycle: [Run] on a Created process,
    [PrepareForTermination] on a Running one. *)
Definition in_lifecycle_order (s : ProcessStatus) (op : Operation) : bool :=
  match op, s with
  | OpRun _ _, Created => true
  | OpPrepareForTermination, Running => true
  | _, _ => false
  end.

Fixpoint lifecycle_order (ops : list Operation) (m : Machine) : bool :=
  match ops with
  | [] => true
  | op :: rest =>
      in_lifecycle_order (status (process m)) op
      && match apply_operation op m with
         | Done _ m1 => lifecycle_order rest m1
         | Failed _ _ => true
         end
  end.

(** The threads [PrepareForTermination] is to stop: those of this
    process, except the one running on the calling core. *)
Definition to_be_stopped (this : ObjectId) (current : option ObjectId)
    (t : Thread) : bool :=
  Nat.eqb (owner_process t) this && negb (is_current current t).

End Operations.

(** ** Notions for the slot allocator *)

Section AllocatorNotions.
Context `{MC : MemoryConstants}.

(** The address of a slot, as [MarkNextAvailableTLSSlotAsUsed] computes
    it from the TLS region base. *)
Definition slot_address (tls_begin : Z) (page slot : nat) : Z :=
  wrap64 (tls_begin + Z.of_nat page * PAGE_SIZE + Z.of_nat slot * TLS_ENTRY_SIZE).

End AllocatorNotions.

(** A slot no thread holds: its bit is clear, or its page does not exist
    yet. *)
Definition slot_is_free (pages : list Bitset8.t) (page slot : nat) : Prop :=
  match pages !! page with
  | Some b => Bitset8.bit b slot = false
  | None => True
  end.


(** ** Thread registration

    [Process::thread_list] is a [std::list<const Thread*>]: the
    registration list of the process, apart from the scheduler's list of
    all threads.  [push_back] appends; [std::list::remove] erases every
    element equal to its argument. *)

Definition RegisterThread (thread : ObjectId) (registered : list ObjectId)
    : list ObjectId :=
  registered ++ [thread].

Definition UnregisterThread (thread : ObjectId) (registered : list ObjectId)
    : list ObjectId :=
  List.filter (fun t => negb (Nat.eqb t thread)) registered.

(** ** Code sets *)

(** Modelled from the spec: a prepared code image (code_set.h is not part
    of the sources at hand) is its memory and three segments of it, code,
    read-only data and read-write data, each with an offset into the
    memory, an address and a size. *)
Record Segment := mkSegment {
  seg_offset : Z;
  seg_addr : Z;
  seg_size : Z
}.

Record CodeSet := mkCodeSet {
  CodeSegment : Segment;
  RODataSegment : Segment;
  DataSegment : Segment;
  cs_memory : list Z
}.

(** The permissions [LoadModule] asks for. *)
Inductive VMAPermission := Read | ReadWrite | ReadExecute.

(** The region [MapSegment] asks for. *)
Definition segment_region (memory : list Z) (base_addr : Z) (segment : Segment)
    (memory_state : MemoryState) : VirtualMemoryArea :=
  mkVMA (wrap64 (seg_addr segment + base_addr)) (seg_size segment)
    (OwnedBlock memory) (seg_offset segment) memory_state.

Definition with_region (vm : VMManager) (vma : VirtualMemoryArea) : VMManager :=
  mkVMManager (address_space_type vm) (code_region_base vm)
    (tls_io_region_base vm) (tls_io_region_end vm) (vma_map vm ++ [vma]).

Section Loading.
Context `{MC : MemoryConstants} `{EX : Externals}.

(** The [MapSegment] lambda of [LoadModule].  [VMManager::Reprotect]
    (vm_manager.cpp) is not part of the sources at hand and regions carry
    no permissions here: the call is reported, as the region and the
    permissions it is made with. *)
Definition MapSegment (memory : BackingBlock) (base_addr : Z) (segment : Segment)
    (permissions : VMAPermission) (memory_state : MemoryState)
    : M (VirtualMemoryArea * VMAPermission) :=
  p <- get_process ;;
  let '(mapped, vm_manager1) :=
    MapMemoryBlock (vm_manager p) (wrap64 (seg_addr segment + base_addr)) memory
      (seg_offset segment) (seg_size segment) memory_state in
  modify_process (set_vm_manager vm_manager1) ;;
  vma <- Unwrap mapped ;;
  (* vm_manager.Reprotect(vma, permissions); *)
  ret (vma, permissions).

(** [code_memory_size] is a member of the process that nothing else here
    reads: it is passed in and the new value is returned, with the
    [Reprotect] calls made.  The module's memory is moved into the shared
    block first, and a [std::vector] that has been moved from by the move
    constructor is empty. *)
Definition LoadModule (module_ : CodeSet) (base_addr : Z) (code_memory_size : Z)
    : M (Z * list (VirtualMemoryArea * VMAPermission)) :=
  let memory := OwnedBlock (cs_memory module_) in
  let module_ :=
    mkCodeSet (CodeSegment module_) (RODataSegment module_) (DataSegment module_) [] in
  (* Map CodeSet segments *)
  code <- MapSegment memory base_addr (CodeSegment module_) ReadExecute MsCode ;;
  rodata <- MapSegment memory base_addr (RODataSegment module_) Read MsCodeData ;;
  data <- MapSegment memory base_addr (DataSegment module_) ReadWrite MsCodeData ;;
  ret (wrap64 (code_memory_size + Z.of_nat (length (cs_memory module_))),
       [code; rodata; data]).

(** [n] calls of [Acquire], by [n] threads. *)
Fixpoint acquire_many (n : nat) : M unit :=
  match n with
  | O => ret tt
  | S n' => Acquire ;; acquire_many n'
  end.

End Loading.

(** ** Applet data broker and applet manager (applets.cpp) *)

Module Applets.

(** A storage is the bytes it holds ([IStorage::GetData]). *)
Definition IStorage := list Z.

(** The four channels are [std::queue]s, the front first.  Each event is
    its signaled flag.  Modelled from the spec: signaling an event
    (writable_event.cpp is not part of the sources at hand) sets its
    flag. *)
Record AppletDataBroker := mkAppletDataBroker {
  in_channel : list IStorage;
  out_channel : list IStorage;
  in_interactive_channel : list IStorage;
  out_interactive_channel : list IStorage;
  state_changed_event : bool;
  pop_out_data_event : bool;
  pop_interactive_out_data_event : bool
}.

Definition set_in_channel (v : list IStorage) (b : AppletDataBroker) :=
  mkAppletDataBroker v (out_channel b) (in_interactive_channel b)
    (out_interactive_channel b) (state_changed_event b) (pop_out_data_event b)
    (pop_interactive_out_data_event b).

Definition set_out_channel (v : list IStorage) (b : AppletDataBroker) :=
  mkAppletDataBroker (in_channel b) v (in_interactive_channel b)
    (out_interactive_channel b) (state_changed_event b) (pop_out_data_event b)
    (pop_interactive_out_data_event b).

Definition set_in_interactive_channel (v : list IStorage) (b : AppletDataBroker) :=
  mkAppletDataBroker (in_channel b) (out_channel b) v
    (out_interactive_channel b) (state_changed_event b) (pop_out_data_event b)
    (pop_interactive_out_data_event b).

Definition set_out_interactive_channel (v : list IStorage) (b : AppletDataBroker) :=
  mkAppletDataBroker (in_channel b) (out_channel b) (in_interactive_channel b)
    v (state_changed_event b) (pop_out_data_event b)
    (pop_interactive_out_data_event b).

Definition Signal_state_changed_event (b : AppletDataBroker) :=
  mkAppletDataBroker (in_channel b) (out_channel b) (in_interactive_channel b)
    (out_interactive_channel b) true (pop_out_data_event b)
    (pop_interactive_out_data_event b).

Definition Signal_pop_out_data_event (b : AppletDataBroker) :=
  mkAppletDataBroker (in_channel b) (out_channel b) (in_interactive_channel b)
    (out_interactive_channel b) (state_changed_event b) true
    (pop_interactive_out_data_event b).

Definition Signal_pop_interactive_out_data_event (b : AppletDataBroker) :=
  mkAppletDataBroker (in_channel b) (out_channel b) (in_interactive_channel b)
    (out_interactive_channel b) (state_changed_event b) (pop_out_data_event b)
    true.

(** A null [unique_ptr] is [None]. *)
Definition PopNormalDataToGame (b : AppletDataBroker)
    : option IStorage * AppletDataBroker :=
  match out_channel b with
  | [] => (None, b)
  | out :: rest => (Some out, set_out_channel rest b)
  end.

Definition PopNormalDataToApplet (b : AppletDataBroker)
    : option IStorage * AppletDataBroker :=
  match in_channel b with
  | [] => (None, b)
  | out :: rest => (Some out, set_in_channel rest b)
  end.

Definition PopInteractiveDataToGame (b : AppletDataBroker)
    : option IStorage * AppletDataBroker :=
  match out_interactive_channel b with
  | [] => (None, b)
  | out :: rest => (Some out, set_out_interactive_channel rest b)
  end.

Definition PopInteractiveDataToApplet (b : AppletDataBroker)
    : option IStorage * AppletDataBroker :=
  match in_interactive_channel b with
  | [] => (None, b)
  | out :: rest => (Some out, set_in_interactive_channel rest b)
  end.

Definition PushNormalDataFromGame (storage : IStorage) (b : AppletDataBroker)
    : AppletDataBroker :=
  set_in_channel (in_channel b ++ [storage]) b.

Definition PushNormalDataFromApplet (storage : IStorage) (b : AppletDataBroker)
    : AppletDataBroker :=
  Signal_pop_out_data_event (set_out_channel (out_channel b ++ [storage]) b).

Definition PushInteractiveDataFromGame (storage : IStorage) (b : AppletDataBroker)
    : AppletDataBroker :=
  set_in_interactive_channel (in_interactive_channel b ++ [storage]) b.

Definition PushInteractiveDataFromApplet (storage : IStorage) (b : AppletDataBroker)
    : AppletDataBroker :=
  Signal_pop_interactive_out_data_event
    (set_out_interactive_channel (out_interactive_channel b ++ [storage]) b).

Definition SignalStateChanged (b : AppletDataBroker) : AppletDataBroker :=
  Signal_state_changed_event b.

Definition GetNormalDataEvent (b : AppletDataBroker) : bool := pop_out_data_event b.
Definition GetInteractiveDataEvent (b : AppletDataBroker) : bool :=
  pop_interactive_out_data_event b.
Definition GetStateChangedEvent (b : AppletDataBroker) : bool := state_changed_event b.

(** The signaled flags of the three events. *)
Definition events (b : AppletDataBroker) : bool * bool * bool :=
  (state_changed_event b, pop_out_data_event b, pop_interactive_out_data_event b).

(** [n] pops in a row with one of the four pop functions: what each
    returned, and the broker left. *)
Fixpoint pop_many (pop : AppletDataBroker -> option IStorage * AppletDataBroker)
    (n : nat) (b : AppletDataBroker) : list (option IStorage) * AppletDataBroker :=
  match n with
  | O => ([], b)
  | S n' =>
      let '(out, b1) := pop b in
      let '(outs, b2) := pop_many pop n' b1 in
      (out :: outs, b2)
  end.

(** Pushing a list of storages, the first one first. *)
Definition push_all (push : IStorage -> AppletDataBroker -> AppletDataBroker)
    (storages : list IStorage) (b : AppletDataBroker) : AppletDataBroker :=
  fold_left (fun b storage => push storage b) storages b.

(** *** Applet *)

(** [common_args] is the [CommonArguments] structure as the bytes
    [memcpy] writes into it. *)
Record Applet := mkApplet {
  broker : AppletDataBroker;
  common_args : list Z;
  initialized : bool
}.

(** [ASSERT] is fatal, like [ASSERT_MSG]: the applet as the failed
    assertion leaves it. *)
Inductive InitializeOutcome :=
| Initialized (a : Applet)
| AssertFailed (a : Applet).

Definition applet_after (o : InitializeOutcome) : Applet :=
  match o with Initialized a => a | AssertFailed a => a end.

Section Initialize.
(** [sizeof(CommonArguments)] (applets.h is not part of the sources at
    hand). *)
Variable sizeof_CommonArguments : nat.

Definition Initialize (a : Applet) : InitializeOutcome :=
  let '(common, broker1) := PopNormalDataToApplet (broker a) in
  let a1 := mkApplet broker1 (common_args a) (initialized a) in
  match common with
  | None => AssertFailed a1
  | Some common_data =>
      if (sizeof_CommonArguments <=? length common_data)%nat then
        Initialized (mkApplet broker1 (take sizeof_CommonArguments common_data) true)
      else AssertFailed a1
  end.

End Initialize.

(** *** Applet manager *)

(** What a frontend pointer points to: the default implementation of its
    kind, made by [std::make_unique], or an implementation the caller of
    [SetAppletFrontendSet] brought. *)
Inductive FrontendApplet :=
| DefaultApplet
| ProvidedApplet (impl : nat).

(** The five [unique_ptr]s; a null pointer is [None]. *)
Record AppletFrontendSet := mkAppletFrontendSet {
  error : option FrontendApplet;
  photo_viewer : option FrontendApplet;
  profile_select : option FrontendApplet;
  software_keyboard : option FrontendApplet;
  web_browser : option FrontendApplet
}.

Record AppletManager := mkAppletManager {
  frontend : AppletFrontendSet
}.

Definition GetAppletFrontendSet (am : AppletManager) : AppletFrontendSet :=
  frontend am.

(** [if (set.x != nullptr) frontend.x = std::move(set.x);] *)
Definition move_if_set (from to : option FrontendApplet) : option FrontendApplet :=
  match from with
  | Some applet => Some applet
  | None => to
  end.

Definition SetAppletFrontendSet (set : AppletFrontendSet) (am : AppletManager)
    : AppletManager :=
  let f := frontend am in
  mkAppletManager
    (mkAppletFrontendSet
       (move_if_set (error set) (error f))
       (move_if_set (photo_viewer set) (photo_viewer f))
       (move_if_set (profile_select set) (profile_select f))
       (move_if_set (software_keyboard set) (software_keyboard f))
       (move_if_set (web_browser set) (web_browser f))).

Definition SetDefaultAppletFrontendSet (am : AppletManager) : AppletManager :=
  mkAppletManager
    (mkAppletFrontendSet (Some DefaultApplet) (Some DefaultApplet)
       (Some DefaultApplet) (Some DefaultApplet) (Some DefaultApplet)).

(** [if (frontend.x == nullptr) frontend.x = std::make_unique<Default...>();] *)
Definition default_if_missing (p : option FrontendApplet) : option FrontendApplet :=
  match p with
  | None => Some DefaultApplet
  | Some applet => Some applet
  end.

Definition SetDefaultAppletsIfMissing (am : AppletManager) : AppletManager :=
  let f := frontend am in
  mkAppletManager
    (mkAppletFrontendSet
       (default_if_missing (error f))
       (default_if_missing (photo_viewer f))
       (default_if_missing (profile_select f))
       (default_if_missing (software_keyboard f))
       (default_if_missing (web_browser f))).

Definition ClearAll (am : AppletManager) : AppletManager :=
  mkAppletManager (mkAppletFrontendSet None None None None None).

(** The applet ids [GetApplet] names; every other id is [OtherApplet]
    with its number. *)
Inductive AppletId :=
| Error
| ProfileSelect
| SoftwareKeyboard
| PhotoViewer
| LibAppletOff
| OtherApplet (id : Z).

(** The backend classes [GetApplet] instantiates. *)
Inductive Backend :=
| ErrorBackend
| ProfileSelectBackend
| SoftwareKeyboardBackend
| PhotoViewerBackend
| WebBrowserBackend.

(** What [GetApplet] does: a backend made over the frontend its pointer
    points to; the dereference of a null pointer, which the source does
    not check; or, for an id without a backend, [UNIMPLEMENTED_MSG]
    followed by the stub applet. *)
Inductive GetAppletResult :=
| Made (backend : Backend) (frontend : FrontendApplet)
| NullDereference
| UnimplementedThenStub (id : Z).

Definition dereference (backend : Backend) (p : option FrontendApplet)
    : GetAppletResult :=
  match p with
  | Some applet => Made backend applet
  | None => NullDereference
  end.

Definition GetApplet (id : AppletId) (am : AppletManager) : GetAppletResult :=
  let f := frontend am in
  match id with
  | Error => dereference ErrorBackend (error f)
  | ProfileSelect => dereference ProfileSelectBackend (profile_select f)
  | SoftwareKeyboard => dereference SoftwareKeyboardBackend (software_keyboard f)
  | PhotoViewer => dereference PhotoViewerBackend (photo_viewer f)
  | LibAppletOff => dereference WebBrowserBackend (web_browser f)
  | OtherApplet n => UnimplementedThenStub n
  end.

(** The five pointers of a set, and the ids that reach them. *)
Definition pointers (f : AppletFrontendSet) : list (option FrontendApplet) :=
  [error f; photo_viewer f; profile_select f; software_keyboard f; web_browser f].

Definition has_backend (id : AppletId) : bool :=
  match id with OtherApplet _ => false | _ => true end.

End Applets.

(** ** Game files (core.cpp) *)

Module Core.

Section GameFiles.
(** What a [VirtualFile] points to. *)
Context {File : Type}.

(** The part of the virtual file system [GetGameFileFromPath] uses
    (vfs.h is not part of the sources at hand): a directory gives its
    name and looks files up by name, the file system opens directories
    and files by path.  A null pointer is [None]. *)
Record VfsDirectory := mkVfsDirectory {
  GetFile : string -> option File;
  GetName : string
}.

Record VfsFilesystem := mkVfsFilesystem {
  OpenDirectory : string -> option VfsDirectory;
  OpenFile : string -> option File
}.

(** The file handed to the loader: a file of the file system, or the
    concatenation [ConcatenatedVfsFile::MakeConcatenatedFile] makes of
    the collected parts under a name. *)
Inductive GameFile :=
| Opened (file : File)
| MakeConcatenatedFile (concat : list File) (name : string).

(** What the call does: it returns a file or a null pointer, or it
    calls a member function through a null pointer, the file system's or
    the directory's, which the source does not check. *)
Inductive GameFileResult :=
| Returned (file : option GameFile)
| NullPointerDereference.

(** [fmt::format] with [{:02X}] and [{:02x}] on a [u8]: two hexadecimal
    digits, upper or lower case. *)
Definition hex_digit (upper : bool) (d : nat) : string :=
  (match d with
   | 0 => "0" | 1 => "1" | 2 => "2" | 3 => "3" | 4 => "4"
   | 5 => "5" | 6 => "6" | 7 => "7" | 8 => "8" | 9 => "9"
   | 10 => if upper then "A" else "a"
   | 11 => if upper then "B" else "b"
   | 12 => if upper then "C" else "c"
   | 13 => if upper then "D" else "d"
   | 14 => if upper then "E" else "e"
   | _ => if upper then "F" else "f"
   end)%nat%string.

Definition format_02X (i : nat) : string :=
  String.append (hex_digit true (i / 16)) (hex_digit true (i mod 16)).

Definition format_02x (i : nat) : string :=
  String.append (hex_digit false (i / 16)) (hex_digit false (i mod 16)).

(** The body of the loop for the index [i]: the part named in upper
    case, else the part named in lower case, else none. *)
Definition next_part (dir : VfsDirectory) (i : nat) : option File :=
  match GetFile dir (format_02X i) with
  | Some next => Some next
  | None => GetFile dir (format_02x i)
  end.

(** The loop over the indices, which [break]s at the first index without
    a part. *)
Fixpoint collect_parts (dir : VfsDirectory) (indices : list nat) : list File :=
  match indices with
  | [] => []
  | i :: rest =>
      match next_part dir i with
      | Some next => next :: collect_parts dir rest
      | None => []
      end
  end.

Section WithHost.
(** [Common::SplitPath] (common/string_util.cpp) gives the directory
    and the file name of a path, and [FileUtil::IsDirectory]
    (common/file_util.cpp) asks the host; neither is part of the sources
    at hand. *)
Variable SplitPath : string -> string * string.
Variable IsDirectory : string -> bool.

(** [vfs] is a shared pointer, null or not. *)
Definition GetGameFileFromPath (vfs : option VfsFilesystem) (path : string)
    : GameFileResult :=
  (* To account for split 00+01+etc files. *)
  let '(dir_name, filename) := SplitPath path in
  if String.eqb filename "00" then
    match vfs with
    | None => NullPointerDereference
    | Some vfs =>
        match OpenDirectory vfs dir_name with
        | None => NullPointerDereference
        | Some dir =>
            let concat := collect_parts dir (seq 0 16) in
            match concat with
            | [] => Returned None
            | _ :: _ => Returned (Some (MakeConcatenatedFile concat (GetName dir)))
            end
        end
    end
  else if IsDirectory path then
    match vfs with
    | None => NullPointerDereference
    | Some vfs =>
        Returned (option_map Opened
                    (OpenFile vfs (String.append path (String.append "/" "main"))))
    end
  else
    match vfs with
    | None => NullPointerDereference
    | Some vfs => Returned (option_map Opened (OpenFile vfs path))
    end.

End WithHost.
End GameFiles.

Arguments VfsDirectory : clear implicits.
Arguments VfsFilesystem : clear implicits.
Arguments GameFile : clear implicits.
Arguments GameFileResult : clear implicits.

(** *** The system session ([System::Impl]) *)

(** The calls into parts of the emulator that are not among the sources
    at hand.  They are recorded in the order they are made. *)
Inductive Call :=
| core_timing_Initialize
| cpu_core_manager_Initialize
| kernel_Initialize
| Service_Init
| GDBStub_Init
| CreateRenderer
| renderer_Init
| CreateGPU
| GetAndResetPerfStats
| perf_stats_BeginSystemFrame
| telemetry_session_AddInitialInfo
| Process_Create_main
| app_loader_Load
| kernel_MakeCurrentProcess
| gpu_core_Start
| cpu_core_manager_StartThreads
| main_process_Run (main_thread_priority main_thread_stack_size : Z)
| telemetry_session_AddField (name : string)
| GDBStub_Shutdown
| Service_Shutdown
| cpu_core_manager_Shutdown
| kernel_Shutdown
| core_timing_Shutdown.

Section System.
Context {File AppLoader LoaderResult : Type}.

(** [System::ResultStatus], with the sum of [ErrorLoader] and the
    loader's result as the loader's result (core.h is not part of the
    sources at hand). *)
Inductive ResultStatus :=
| Success
| ErrorGetLoader
| ErrorVideoCore
| ErrorLoader_plus (load_result : LoaderResult).

(** The members of [System::Impl] that [Init], [Load] and [Shutdown]
    assign.  A smart pointer whose object is part of another subsystem
    is the flag that it is not null. *)
Record Impl := mkImpl {
  virtual_filesystem : option (VfsFilesystem File);
  content_provider : bool;
  app_loader : option AppLoader;
  renderer : bool;
  gpu_core : bool;
  is_powered_on : bool;
  cheat_engine : bool;
  applet_manager : Applets.AppletManager;
  service_manager : bool;
  telemetry_session : bool;
  status : ResultStatus;
  custom_rtc_differential : Z;
  calls : list Call
}.

(** A member function returns, or it calls a member function through a
    null pointer, which the source does not check. *)
Inductive Outcome (A : Type) :=
| Returns (a : A) (s : Impl)
| DereferencesNull (s : Impl).
Arguments Returns {A} a s.
Arguments DereferencesNull {A} s.

Definition call (c : Call) (s : Impl) : Impl :=
  mkImpl (virtual_filesystem s) (content_provider s) (app_loader s) (renderer s)
    (gpu_core s) (is_powered_on s) (cheat_engine s) (applet_manager s)
    (service_manager s) (telemetry_session s) (status s)
    (custom_rtc_differential s) (calls s ++ [c]).

(** No session is open: every pointer [Shutdown] resets is null and the
    system is not powered on. *)
Definition session_closed (s : Impl) : Prop :=
  app_loader s = None /\ renderer s = false /\ gpu_core s = false
  /\ is_powered_on s = false /\ cheat_engine s = false
  /\ service_manager s = false /\ telemetry_session s = false.

Section WithCollaborators.
Variable SplitPath : string -> string * string.
Variable IsDirectory : string -> bool.
(** The file system [std::make_shared<FileSys::RealVfsFilesystem>()]
    makes. *)
Variable RealVfsFilesystem : VfsFilesystem File.
(** [Loader::GetLoader], [AppLoader::Load] with the priority and stack
    size of the main thread it may give, and the comparison of its
    result with [Loader::ResultStatus::Success]. *)
Variable GetLoader : option (GameFile File) -> option AppLoader.
Variable AppLoader_Load : AppLoader -> LoaderResult * option (Z * Z).
Variable is_Success : LoaderResult -> bool.

(** [renderer_ok] is what [renderer->Init()] returns for the window;
    [custom_rtc] is the setting and [current_time] the system clock, in
    seconds. *)
Definition Init (renderer_ok : bool) (custom_rtc : option Z) (current_time : Z)
    (s : Impl) : ResultStatus * Impl :=
  let s := call core_timing_Initialize s in
  let s := call cpu_core_manager_Initialize s in
  let s := call kernel_Initialize s in
  let differential :=
    match custom_rtc with Some t => t | None => current_time end - current_time in
  (* Create a default fs if one doesn't already exist. *)
  let vfs :=
    match virtual_filesystem s with
    | None => Some RealVfsFilesystem
    | Some vfs => Some vfs
    end in
  (* Create default implementations of applets if one is not provided. *)
  let applets := Applets.SetDefaultAppletsIfMissing (applet_manager s) in
  let s :=
    mkImpl vfs true (app_loader s) (renderer s) (gpu_core s) (is_powered_on s)
      (cheat_engine s) applets true true (status s) differential (calls s) in
  let s := call Service_Init s in
  let s := call GDBStub_Init s in
  let s := call CreateRenderer s in
  let s :=
    mkImpl (virtual_filesystem s) (content_provider s) (app_loader s) true
      (gpu_core s) (is_powered_on s) (cheat_engine s) (applet_manager s)
      (service_manager s) (telemetry_session s) (status s)
      (custom_rtc_differential s) (calls s) in
  let s := call renderer_Init s in
  if negb renderer_ok then (ErrorVideoCore, s)
  else
    let s := call CreateGPU s in
    let s :=
      mkImpl (virtual_filesystem s) (content_provider s) (app_loader s)
        (renderer s) true true (cheat_engine s) (applet_manager s)
        (service_manager s) (telemetry_session s) (status s)
        (custom_rtc_differential s) (calls s) in
    (* Reset counters and set time origin to current frame *)
    let s := call GetAndResetPerfStats s in
    let s := call perf_stats_BeginSystemFrame s in
    (Success, s).

Definition Shutdown (s : Impl) : Outcome unit :=
  (* Log last frame performance stats *)
  let s := call GetAndResetPerfStats s in
  if negb (telemetry_session s) then DereferencesNull s
  else
    let s := call (telemetry_session_AddField "Shutdown_EmulationSpeed") s in
    let s := call (telemetry_session_AddField "Shutdown_Framerate") s in
    let s := call (telemetry_session_AddField "Shutdown_Frametime") s in
    (* Shutdown emulation session *)
    let s := call GDBStub_Shutdown s in
    let s := call Service_Shutdown s in
    (* Close all CPU/threading state *)
    let s := call cpu_core_manager_Shutdown s in
    (* Shutdown kernel and core timing *)
    let s := call kernel_Shutdown s in
    let s := call core_timing_Shutdown s in
    Returns tt
      (mkImpl (virtual_filesystem s) (content_provider s) None false false false
         false (Applets.ClearAll (applet_manager s)) false false (status s)
         (custom_rtc_differential s) (calls s)).

Definition set_app_loader (v : option AppLoader) (s : Impl) : Impl :=
  mkImpl (virtual_filesystem s) (content_provider s) v (renderer s)
    (gpu_core s) (is_powered_on s) (cheat_engine s) (applet_manager s)
    (service_manager s) (telemetry_session s) (status s)
    (custom_rtc_differential s) (calls s).

Definition set_status (v : ResultStatus) (s : Impl) : Impl :=
  mkImpl (virtual_filesystem s) (content_provider s) (app_loader s) (renderer s)
    (gpu_core s) (is_powered_on s) (cheat_engine s) (applet_manager s)
    (service_manager s) (telemetry_session s) v
    (custom_rtc_differential s) (calls s).

Definition Load (renderer_ok : bool) (custom_rtc : option Z) (current_time : Z)
    (filepath : string) (s : Impl) : Outcome ResultStatus :=
  match GetGameFileFromPath SplitPath IsDirectory (virtual_filesystem s) filepath with
  | NullPointerDereference => DereferencesNull s
  | Returned file =>
      let s := set_app_loader (GetLoader file) s in
      match app_loader s with
      | None => Returns ErrorGetLoader s
      | Some loader =>
          let '(init_result, s) := Init renderer_ok custom_rtc current_time s in
          match init_result with
          | Success =>
              let s := call telemetry_session_AddInitialInfo s in
              let s := call Process_Create_main s in
              let s := call app_loader_Load s in
              let '(load_result, load_parameters) := AppLoader_Load loader in
              if negb (is_Success load_result) then
                match Shutdown s with
                | Returns _ s => Returns (ErrorLoader_plus load_result) s
                | DereferencesNull s => DereferencesNull s
                end
              else
                let s := call kernel_MakeCurrentProcess s in
                (* Main process has been loaded and been made current.
                   Begin GPU and CPU execution. *)
                let s := call gpu_core_Start s in
                let s := call cpu_core_manager_StartThreads s in
                (* All threads are started, begin main process execution,
                   now that we're in the clear. *)
                match load_parameters with
                | None => DereferencesNull s
                | Some (main_thread_priority, main_thread_stack_size) =>
                    let s :=
                      call (main_process_Run main_thread_priority
                              main_thread_stack_size) s in
                    Returns Success (set_status Success s)
                end
          | _ =>
              match Shutdown s with
              | Returns _ s => Returns init_result s
              | DereferencesNull s => DereferencesNull s
              end
          end
      end
  end.

End WithCollaborators.
End System.

Arguments ResultStatus : clear implicits.
Arguments Impl : clear implicits.
Arguments Outcome : clear implicits.
Arguments session_closed {File AppLoader LoaderResult} s.
Arguments Returns {File AppLoader LoaderResult A} a s.
Arguments DereferencesNull {File AppLoader LoaderResult A} s.

End Core.

(** ** Concrete instances, to run the model *)

(** The values of core/memory.h: 4 KiB pages, 0x200-byte TLS entries. *)
Definition switch_memory : MemoryConstants :=
  {| PAGE_SIZE := 0x1000; TLS_ENTRY_SIZE := 0x200 |}.

(** Stand-ins for the collaborators: a counting engine, four words of
    entropy, a capability parser that rejects a negative
    descriptor, a handle table of any size, one region layout. *)
Definition demo_externals : Externals :=
  {| RngState := Z;
     mt19937 := fun seed => seed;
     distribution := fun s => (s, s + 1);
     RANDOM_ENTROPY_SIZE := 4;
     ProcessCapabilities := list Z;
     fresh_capabilities := [];
     fresh_vm_manager := mkVMManager Is39Bit 0x8000000 0x10000000 0x20000000 [];
     InitializeForMetadatalessProcess := fun _ => [];
     InitializeForUserProcess := fun caps _ old =>
       if forallb (fun c => 0 <=? c) caps then (RESULT_SUCCESS, caps)
       else (ERR_OTHER 14, old);
     GetHandleTableSize := fun c => Z.of_nat (length c);
     HandleTable_SetSize := fun _ ht => (RESULT_SUCCESS, ht);
     region_layout := fun _ => (0x8000000, 0x10000000, 0x20000000) |}.

Definition demo_kernel : KernelCore := mkKernelCore 81 0%nat [].

(** A machine holding a freshly created process and no thread yet; the
    calling core will run the first thread made. *)
Definition demo_machine : Machine (EX := demo_externals) :=
  mkMachine (fst (Process_Create (EX := demo_externals) None demo_kernel "main"))
            [] (Some 1%nat) 1%nat.

Definition demo_thread (id : ObjectId) (owner : ObjectId) (s : ThreadStatus) : Thread :=
  mkThread id "worker" 0x8000000 44 0 0x20000000 owner s (repeat 0 31) [].

(** The same machine with the given TLS page bitmaps. *)
Definition demo_machine_with_slots (slots : list Bitset8.t)
    : Machine (EX := demo_externals) :=
  set_process (set_tls_slots slots (process demo_machine)) demo_machine.

(** The same machine with the given threads in the scheduler's list, the
    given ones of them waiting on the process, and the given status. *)
Definition demo_machine_with_threads (threads : list Thread)
    (waiters : list ObjectId) (s : ProcessStatus) : Machine (EX := demo_externals) :=
  mkMachine
    (set_status s (set_waiting_threads waiters (process demo_machine)))
    threads (Some 1%nat) 10%nat.

(** ** More concrete instances *)

(** A code image with a two-page code segment and one page each of
    read-only and read-write data, and one whose read-only data starts
    inside the code segment. *)
Definition demo_code_set : CodeSet :=
  mkCodeSet (mkSegment 0 0 0x2000) (mkSegment 0x2000 0x2000 0x1000)
    (mkSegment 0x3000 0x3000 0x1000) [0x1f; 0x20; 0x03; 0xd5].

Definition demo_overlapping_code_set : CodeSet :=
  mkCodeSet (mkSegment 0 0 0x2000) (mkSegment 0x2000 0x1000 0x1000)
    (mkSegment 0x3000 0x3000 0x1000) [0x1f; 0x20; 0x03; 0xd5].

(** A broker with one storage waiting in each direction, and an applet
    over an empty broker. *)
Definition demo_broker : Applets.AppletDataBroker :=
  Applets.mkAppletDataBroker [[1; 2]] [[3]] [] [] false false false.

Definition demo_applet : Applets.Applet :=
  Applets.mkApplet (Applets.mkAppletDataBroker [] [[3]] [] [] false true false)
    [] false.

(** An applet manager with a software keyboard of the caller's. *)
Definition demo_applet_manager : Applets.AppletManager :=
  Applets.mkAppletManager
    (Applets.mkAppletFrontendSet None None None (Some (Applets.ProvidedApplet 1)) None).

(** A directory with the parts 00, 01 and 03 of a split file (02 is
    missing), a file system with that directory and one plain file, and
    a path splitter that knows the path of part 00. *)
Definition demo_directory : Core.VfsDirectory nat :=
  Core.mkVfsDirectory
    (fun name =>
       if String.eqb name "00" then Some 100%nat
       else if String.eqb name "01" then Some 101%nat
       else if String.eqb name "03" then Some 103%nat
       else None)
    "game".

Definition demo_filesystem : Core.VfsFilesystem nat :=
  Core.mkVfsFilesystem
    (fun dir_name => if String.eqb dir_name "/game/" then Some demo_directory else None)
    (fun path => if String.eqb path "/homebrew.nro" then Some 7%nat else None).

Definition demo_SplitPath (path : string) : string * string :=
  if String.eqb path "/game/00" then ("/game/"%string, "00"%string)
  else ("/"%string, path).

(** Loaders are numbered; the loader of a file that exists is loader 1,
    a missing file has none; every load fails with result 4, and result
    0 is success. *)
Definition demo_GetLoader (file : option (Core.GameFile nat)) : option nat :=
  match file with
  | Some _ => Some 1%nat
  | None => None
  end.

Definition demo_AppLoader_Load (loader : nat) : nat * option (Z * Z) := (4%nat, None).

(** A system with a file system and the caller's software keyboard set,
    before [Load]; and a system in a session. *)
Definition demo_system : Core.Impl nat nat nat :=
  Core.mkImpl (Some demo_filesystem) false None false false false false
    demo_applet_manager false false Core.Success 0 [].

Definition demo_running_system : Core.Impl nat nat nat :=
  Core.mkImpl (Some demo_filesystem) true (Some 1%nat) true true true false
    demo_applet_manager true true Core.Success 0 [].

(** * Properties *)

(** ** The slot scan *)

Section Proofs.
Context `{MC : MemoryConstants} `{EX : Externals}.

(** The inner loop: the first position of [seq a n] where [g] is false,
    with [g] true at every position before it. *)
Lemma find_first_false (g : nat -> bool) (n a : nat) :
  match find (fun x => negb (g x)) (seq a n) with
  | Some s => (a <= s < a + n)%nat /\ g s = false
              /\ forallb g (seq a (s - a)) = true
  | None => forallb g (seq a n) = true
  end.
Proof.
  revert a. induction n as [|n IH]; intros a; simpl.
  - reflexivity.
  - destruct (g a) eqn:Ga; simpl.
    + specialize (IH (S a)).
      destruct (find (fun x => negb (g x)) (seq (S a) n)) as [s|].
      * destruct IH as (Hr & Hs & Hall). repeat split; try lia; auto.
        replace (s - a)%nat with (S (s - S a)) by lia.
        simpl. rewrite Ga. exact Hall.
      * exact IH.
    + repeat split; try lia; auto.
      replace (a - a)%nat with 0%nat by lia. reflexivity.
Qed.

Lemma first_clear_slot_Some (b : Bitset8.t) (s : nat) :
  first_clear_slot b = Some s ->
  (s < 8)%nat /\ Bitset8.bit b s = false
  /\ forallb (Bitset8.bit b) (seq 0 s) = true.
Proof.
  unfold first_clear_slot. intros H.
  pose proof (find_first_false (Bitset8.bit b) Bitset8.size 0) as F.
  rewrite H in F. destruct F as (Hr & Hs & Hall).
  replace (s - 0)%nat with s in Hall by lia.
  unfold Bitset8.size in Hr. repeat split; auto; lia.
Qed.

Lemma first_clear_slot_None (b : Bitset8.t) :
  first_clear_slot b = None -> page_full b.
Proof.
  unfold first_clear_slot, page_full, Bitset8.all. intros H.
  pose proof (find_first_false (Bitset8.bit b) Bitset8.size 0) as F.
  rewrite H in F. exact F.
Qed.

(** The outer loop.  Either every page is full and the scan asks for an
    allocation, or it stops at the first page that is not full, on the
    first clear bit of that page. *)
Lemma find_free_from_spec (pages : list Bitset8.t) (k : nat) :
  match find_free_from k pages with
  | (page, slot, true) => page = 0%nat /\ slot = 0%nat /\ Forall page_full pages
  | (page, slot, false) =>
      exists i b, page = (k + i)%nat /\ pages !! i = Some b
        /\ Forall page_full (take i pages)
        /\ (slot < 8)%nat /\ Bitset8.bit b slot = false
        /\ forallb (Bitset8.bit b) (seq 0 slot) = true
  end.
Proof.
  revert k. induction pages as [|b rest IH]; intros k; simpl.
  - repeat split. constructor.
  - assert (Hnext : page_full b ->
      match find_free_from (S k) rest with
      | (page, slot, true) =>
          page = 0%nat /\ slot = 0%nat /\ Forall page_full (b :: rest)
      | (page, slot, false) =>
          exists i b0, page = (k + i)%nat /\ (b :: rest) !! i = Some b0
            /\ Forall page_full (take i (b :: rest))
            /\ (slot < 8)%nat /\ Bitset8.bit b0 slot = false
            /\ forallb (Bitset8.bit b0) (seq 0 slot) = true
      end).
    { intros Hb. specialize (IH (S k)).
      destruct (find_free_from (S k) rest) as [[page slot] [|]].
      - destruct IH as (-> & -> & Hall). repeat split. constructor; assumption.
      - destruct IH as (i & b0 & -> & Hl & Hfull & Hs & Hc & Hbefore).
        exists (S i), b0.
        repeat split; auto; try lia; simpl; try (constructor; assumption). }
    destruct (Bitset8.all b) eqn:Hall; simpl.
    + apply Hnext. exact Hall.
    + destruct (first_clear_slot b) as [slot|] eqn:Hslot.
      * apply first_clear_slot_Some in Hslot. destruct Hslot as (Hs & Hc & Hbefore).
        exists 0%nat, b. repeat split; auto.
      * apply Hnext. apply first_clear_slot_None. exact Hslot.
Qed.

(** ** Allocation of a slot *)

Lemma bit_set_same (b : Bitset8.t) (s : nat) :
  Bitset8.bit (Z.setbit b (Z.of_nat s)) s = true.
Proof. unfold Bitset8.bit. apply Z.setbit_eq. lia. Qed.

Lemma bit_set_other (b : Bitset8.t) (s s' : nat) :
  s <> s' -> Bitset8.bit (Z.setbit b (Z.of_nat s)) s' = Bitset8.bit b s'.
Proof. intros H. unfold Bitset8.bit. apply Z.setbit_neq; lia. Qed.

Lemma bit_clear_same (b : Bitset8.t) (s : nat) :
  Bitset8.bit (Z.clearbit b (Z.of_nat s)) s = false.
Proof. unfold Bitset8.bit. apply Z.clearbit_eq. Qed.

Lemma bit_clear_other (b : Bitset8.t) (s s' : nat) :
  s <> s' -> Bitset8.bit (Z.clearbit b (Z.of_nat s)) s' = Bitset8.bit b s'.
Proof. intros H. unfold Bitset8.bit. apply Z.clearbit_neq; lia. Qed.

Lemma wrap64_small (z : Z) : 0 <= z < 2 ^ 64 -> wrap64 z = z.
Proof. intros H. unfold wrap64. apply Z.mod_small. exact H. Qed.

Lemma set_in_range (b : Bitset8.t) (s : nat) :
  (s < 8)%nat -> Bitset8.set b s = Some (Z.setbit b (Z.of_nat s)).
Proof.
  intros H. unfold Bitset8.set, Bitset8.size.
  destruct (Nat.ltb_spec s 8); [reflexivity | lia].
Qed.

Lemma reset_in_range (b : Bitset8.t) (s : nat) :
  (s < 8)%nat -> Bitset8.reset b s = Some (Z.clearbit b (Z.of_nat s)).
Proof.
  intros H. unfold Bitset8.reset, Bitset8.size.
  destruct (Nat.ltb_spec s 8); [reflexivity | lia].
Qed.

Lemma all_bit (b : Bitset8.t) (s : nat) :
  page_full b -> (s < 8)%nat -> Bitset8.bit b s = true.
Proof.
  unfold page_full, Bitset8.all. intros Hall Hs.
  rewrite forallb_forall in Hall. apply Hall.
  apply in_seq. unfold Bitset8.size. lia.
Qed.

Lemma insert_at_end {A} (l : list A) (x y : A) :
  <[length l := x]> (l ++ [y]) = l ++ [x].
Proof.
  replace (length l) with (length l + 0)%nat by lia.
  rewrite insert_app_r. reflexivity.
Qed.

(** C1. [MarkNextAvailableTLSSlotAsUsed] never fails and returns the
    address [TLS region base + page * PAGE_SIZE + slot * TLS_ENTRY_SIZE]
    (a [u64] sum, equal to the plain sum whenever that fits in 64 bits) of
    a slot whose bit is set afterwards.  Either some page is not full:
    then [page] is the first such page, [slot] its first clear bit, and
    only that bit changes.  Or every page is full: then one page with
    only bit 0 set is appended, [page] is its index and [slot] is 0, the
    thread's TLS memory grows by [PAGE_SIZE] zero bytes, and the address
    space is asked to map that block at [base + page * PAGE_SIZE], offset
    0, size [PAGE_SIZE], state ThreadLocal; the region is added when its
    range is free, and it shows zero bytes when the thread's TLS memory
    was empty before. *)
Theorem MarkNextAvailableTLSSlotAsUsed_first_fit (m : Machine) (thread : Thread) :
  let p := process m in
  let tls_begin := GetTLSIORegionBaseAddress (vm_manager p) in
  exists (page slot : nat) (thread1 : Thread) (m1 : Machine),
    let address := tls_begin + Z.of_nat page * PAGE_SIZE
                   + Z.of_nat slot * TLS_ENTRY_SIZE in
    MarkNextAvailableTLSSlotAsUsed thread m = Done (wrap64 address, thread1) m1
    /\ (0 <= address < 2 ^ 64 -> wrap64 address = address)
    /\ (exists b1, tls_slots (process m1) !! page = Some b1
                   /\ Bitset8.bit b1 slot = true)
    /\ ((exists b,
           tls_slots p !! page = Some b
           /\ Forall page_full (take page (tls_slots p))
           /\ Bitset8.all b = false
           /\ (slot < 8)%nat
           /\ Bitset8.bit b slot = false
           /\ forallb (Bitset8.bit b) (seq 0 slot) = true
           /\ thread1 = thread
           /\ m1 = set_process
                     (set_tls_slots
                        (<[page := Z.setbit b (Z.of_nat slot)]> (tls_slots p)) p) m)
        \/
        (let target := wrap64 (tls_begin + Z.of_nat page * PAGE_SIZE) in
         let block := TLSMemoryOf (thread_id thread) in
         let mapped :=
           MapMemoryBlock (vm_manager p) target block 0 PAGE_SIZE MsThreadLocal in
         Forall page_full (tls_slots p)
         /\ page = length (tls_slots p) /\ slot = 0%nat
         /\ thread1 = set_tls_memory
                        (tls_memory thread ++ repeat 0 (Z.to_nat PAGE_SIZE)) thread
         /\ m1 = set_process
                   (set_tls_slots (tls_slots p ++ [Z.setbit Bitset8.empty 0])
                      (set_vm_manager (snd mapped) p)) m
         /\ (range_is_free (vm_manager p) target PAGE_SIZE = true ->
             vma_map (snd mapped)
             = vma_map (vm_manager p)
               ++ [mkVMA target PAGE_SIZE block 0 MsThreadLocal])
         /\ (tls_memory thread = [] ->
             window (tls_memory thread1) 0 PAGE_SIZE
             = repeat 0 (Z.to_nat PAGE_SIZE)))).
Proof.
  intros p tls_begin.
  unfold MarkNextAvailableTLSSlotAsUsed, FindFreeThreadLocalSlot.
  pose proof (find_free_from_spec (tls_slots (process m)) 0) as Hscan.
  unfold bind at 1. unfold get_process at 1.
  destruct (find_free_from 0 (tls_slots (process m))) as [[pg sl] [|]].
  - (* every page is full *)
    destruct Hscan as (_ & _ & Hfull).
    exists (length (tls_slots p)), 0%nat,
      (set_tls_memory (tls_memory thread ++ repeat 0 (Z.to_nat PAGE_SIZE)) thread),
      (set_process
         (set_tls_slots (tls_slots p ++ [Z.setbit Bitset8.empty 0])
            (set_vm_manager
               (snd (MapMemoryBlock (vm_manager p)
                       (wrap64 (tls_begin + Z.of_nat (length (tls_slots p)) * PAGE_SIZE))
                       (TLSMemoryOf (thread_id thread)) 0 PAGE_SIZE MsThreadLocal))
               p)) m).
    split; [|split; [|split]].
    + unfold bind, modify_process, ret, tls_slots_update, get_process. cbn.
      rewrite length_app, Nat.add_sub. cbn.
      rewrite lookup_app_r by lia. rewrite Nat.sub_diag. cbn.
      rewrite insert_at_end. reflexivity.
    + apply wrap64_small.
    + exists (Z.setbit Bitset8.empty 0). cbn.
      rewrite lookup_app_r by lia.
      rewrite Nat.sub_diag. split; [reflexivity|].
      apply (bit_set_same Bitset8.empty 0).
    + right. cbn zeta. repeat split; auto.
      * intros Hfree. unfold MapMemoryBlock. fold p tls_begin.
        rewrite Hfree. reflexivity.
      * intros Hempty. cbn. rewrite Hempty. unfold window.
        change (Z.to_nat 0) with 0%nat. rewrite drop_0. simpl app.
        apply firstn_all2. rewrite repeat_length. lia.
  - (* some page is not full *)
    destruct Hscan as (i & b & -> & Hl & Hfull & Hs & Hclear & Hbefore).
    simpl in *.
    exists i, sl, thread. eexists.
    split; [|split; [|split]].
    + unfold bind, ret, tls_slots_update, get_process. cbn.
      rewrite Hl. rewrite set_in_range by exact Hs. cbn. reflexivity.
    + apply wrap64_small.
    + exists (Z.setbit b (Z.of_nat sl)). cbn.
      split; [|apply bit_set_same].
      apply list_lookup_insert_eq. apply lookup_lt_Some in Hl. exact Hl.
    + left. exists b. repeat split; auto.
      destruct (Bitset8.all b) eqn:Hall; [|reflexivity].
      rewrite (all_bit b sl Hall Hs) in Hclear. discriminate.
Qed.

(** ** Freeing a slot *)

Lemma bits_below (b : Bitset8.t) (n s : nat) :
  forallb (Bitset8.bit b) (seq 0 n) = true -> (s < n)%nat -> Bitset8.bit b s = true.
Proof.
  intros Hall Hs. rewrite forallb_forall in Hall. apply Hall.
  apply in_seq. lia.
Qed.

(** The inner loop stops on [slot] when [slot] is the lowest clear bit. *)
Lemma first_clear_slot_lowest (b : Bitset8.t) (slot : nat) :
  (slot < 8)%nat -> Bitset8.bit b slot = false ->
  forallb (Bitset8.bit b) (seq 0 slot) = true ->
  first_clear_slot b = Some slot.
Proof.
  intros Hs Hclear Hbelow.
  destruct (first_clear_slot b) as [s|] eqn:Hfind.
  - apply first_clear_slot_Some in Hfind. destruct Hfind as (Hs' & Hc' & Hb').
    destruct (Nat.lt_trichotomy s slot) as [Hlt | [-> | Hgt]].
    + rewrite (bits_below b slot s Hbelow Hlt) in Hc'. discriminate.
    + reflexivity.
    + rewrite (bits_below b s slot Hb' Hgt) in Hclear. discriminate.
  - apply first_clear_slot_None in Hfind.
    rewrite (all_bit b slot Hfind Hs) in Hclear. discriminate.
Qed.

(** The scan is first fit: it stops on the page and slot before which
    nothing is free. *)
Lemma find_free_from_first_fit (pages : list Bitset8.t) (k page slot : nat)
    (b : Bitset8.t) :
  pages !! page = Some b ->
  Forall page_full (take page pages) ->
  (slot < 8)%nat -> Bitset8.bit b slot = false ->
  forallb (Bitset8.bit b) (seq 0 slot) = true ->
  find_free_from k pages = ((k + page)%nat, slot, false).
Proof.
  revert k page. induction pages as [|b0 rest IH]; intros k page Hl Hfull Hs Hc Hb.
  - discriminate.
  - destruct page as [|page]; simpl in Hl, Hfull |- *.
    + injection Hl as ->.
      assert (Hnot : Bitset8.all b = false).
      { destruct (Bitset8.all b) eqn:Hall; [|reflexivity].
        rewrite (all_bit b slot Hall Hs) in Hc. discriminate. }
      rewrite Hnot. simpl.
      rewrite (first_clear_slot_lowest b slot Hs Hc Hb).
      rewrite Nat.add_0_r. reflexivity.
    + inversion Hfull as [|? ? Hb0 Hrest]; subst.
      unfold page_full in Hb0. rewrite Hb0. simpl.
      rewrite (IH (S k) page Hl Hrest Hs Hc Hb).
      replace (k + S page)%nat with (S k + page)%nat by lia. reflexivity.
Qed.

Lemma setbit_clearbit (b n : Z) :
  0 <= n -> Z.testbit b n = true -> Z.setbit (Z.clearbit b n) n = b.
Proof.
  intros Hn Hb. apply Z.bits_inj'. intros k Hk.
  rewrite Z.setbit_eqb by exact Hn. rewrite Z.clearbit_eqb.
  destruct (Z.eqb_spec n k) as [->|Hne]; simpl.
  - symmetry. exact Hb.
  - rewrite andb_true_r. reflexivity.
Qed.

(** [FreeTLSSlot] recovers page and slot from the address of a slot. *)
Lemma decode_slot_address (base : Z) (page slot : nat) :
  MemoryConstantsOk -> (slot < 8)%nat ->
  Z.of_nat page * PAGE_SIZE + Z.of_nat slot * TLS_ENTRY_SIZE < 2 ^ 64 ->
  let tls_base :=
    wrap64 (wrap64 (base + Z.of_nat page * PAGE_SIZE
                    + Z.of_nat slot * TLS_ENTRY_SIZE) - base) in
  Z.to_nat (tls_base / PAGE_SIZE) = page
  /\ Z.to_nat ((tls_base mod PAGE_SIZE) / TLS_ENTRY_SIZE) = slot.
Proof.
  intros [Hpos Hfit Hu64] Hs Hrange tls_base.
  assert (Hslot : 0 <= Z.of_nat slot * TLS_ENTRY_SIZE < PAGE_SIZE) by nia.
  assert (Hbase : tls_base
                  = Z.of_nat page * PAGE_SIZE + Z.of_nat slot * TLS_ENTRY_SIZE).
  { unfold tls_base, wrap64. rewrite Zminus_mod_idemp_l.
    replace (base + Z.of_nat page * PAGE_SIZE + Z.of_nat slot * TLS_ENTRY_SIZE - base)
      with (Z.of_nat page * PAGE_SIZE + Z.of_nat slot * TLS_ENTRY_SIZE) by ring.
    apply Z.mod_small. nia. }
  rewrite Hbase. split.
  - rewrite Z.div_add_l by lia. rewrite Z.div_small by exact Hslot. lia.
  - rewrite Z.add_comm, Z_mod_plus_full. rewrite Z.mod_small by exact Hslot.
    rewrite Z.div_mul by lia. lia.
Qed.

Lemma restore_tls_slots (m : Machine) (l l' : list Bitset8.t) :
  l' = tls_slots (process m) ->
  set_process (set_tls_slots l' (set_tls_slots l (process m)))
    (set_process (set_tls_slots l (process m)) m) = m.
Proof.
  intros ->. destruct m as [p ths cur next]. destruct p. reflexivity.
Qed.

(** C8, as amended.  For the address [a] of an allocated slot,
    [FreeTLSSlot a] only clears that slot's bit: no page is removed and
    the address space is not touched.  When nothing is free before the
    slot (every earlier page is full and every lower slot of its page is
    in use), the next [MarkNextAvailableTLSSlotAsUsed] returns [a] again
    and the machine is as it was before the two calls. *)
Theorem FreeTLSSlot_then_allocate_lowest (m : Machine) (thread : Thread)
    (page slot : nat) (b : Bitset8.t) :
  MemoryConstantsOk ->
  let p := process m in
  let tls_begin := GetTLSIORegionBaseAddress (vm_manager p) in
  let a := wrap64 (tls_begin + Z.of_nat page * PAGE_SIZE
                   + Z.of_nat slot * TLS_ENTRY_SIZE) in
  tls_slots p !! page = Some b ->
  (slot < 8)%nat ->
  Bitset8.bit b slot = true ->
  Z.of_nat page * PAGE_SIZE + Z.of_nat slot * TLS_ENTRY_SIZE < 2 ^ 64 ->
  FreeTLSSlot a m
  = Done tt (set_process
               (set_tls_slots
                  (<[page := Z.clearbit b (Z.of_nat slot)]> (tls_slots p)) p) m)
  /\ (Forall page_full (take page (tls_slots p)) ->
      forallb (Bitset8.bit b) (seq 0 slot) = true ->
      (FreeTLSSlot a ;; MarkNextAvailableTLSSlotAsUsed thread) m
      = Done (a, thread) m).
Proof.
  intros Hok. cbv zeta. intros Hl Hs Hset Hrange.
  pose proof (decode_slot_address
                (GetTLSIORegionBaseAddress (vm_manager (process m)))
                page slot Hok Hs Hrange) as Hdecode.
  cbv zeta in Hdecode. destruct Hdecode as [Hpage Hslot].
  set (a := wrap64 (GetTLSIORegionBaseAddress (vm_manager (process m))
                    + Z.of_nat page * PAGE_SIZE
                    + Z.of_nat slot * TLS_ENTRY_SIZE)) in *.
  assert (Hfree : FreeTLSSlot a m
    = Done tt (set_process
                 (set_tls_slots
                    (<[page := Z.clearbit b (Z.of_nat slot)]>
                       (tls_slots (process m))) (process m)) m)).
  { unfold FreeTLSSlot, tls_slots_update, bind, get_process. cbv beta.
    rewrite Hpage, Hslot. rewrite Hl.
    rewrite reset_in_range by exact Hs. reflexivity. }
  split; [exact Hfree|].
  intros Hfull Hbelow.
  assert (Hlen : (page < length (tls_slots (process m)))%nat)
    by (apply lookup_lt_Some in Hl; exact Hl).
  assert (Hscan :
    find_free_from 0
      (<[page := Z.clearbit b (Z.of_nat slot)]> (tls_slots (process m)))
    = (page, slot, false)).
  { apply (find_free_from_first_fit _ 0 page slot (Z.clearbit b (Z.of_nat slot))).
    - apply list_lookup_insert_eq. exact Hlen.
    - rewrite take_insert_ge by lia. exact Hfull.
    - exact Hs.
    - apply bit_clear_same.
    - apply forallb_forall. intros s Hin. apply in_seq in Hin.
      rewrite bit_clear_other by lia. apply (bits_below b slot s Hbelow). lia. }
  unfold bind at 1. rewrite Hfree.
  unfold MarkNextAvailableTLSSlotAsUsed, FindFreeThreadLocalSlot.
  unfold bind at 1. unfold get_process at 1.
  cbn [process set_process set_tls_slots tls_slots vm_manager].
  rewrite Hscan.
  unfold tls_slots_update, bind, get_process, ret, modify_process.
  cbn [process set_process set_tls_slots tls_slots vm_manager].
  rewrite list_lookup_insert_eq by exact Hlen.
  rewrite set_in_range by exact Hs.
  cbn [process set_process set_tls_slots tls_slots vm_manager].
  rewrite list_insert_insert_eq.
  unfold Bitset8.bit in Hset.
  rewrite setbit_clearbit by (try lia; exact Hset).
  rewrite (list_insert_id _ _ _ Hl).
  fold a. f_equal.
  apply restore_tls_slots. reflexivity.
Qed.

(** C9, as amended.  [FreeTLSSlot] does not check the page index it
    computes from the address.  When that index is not less than the
    number of allocated pages the call indexes the page vector past its
    end: no assertion fires, no error is returned, and nothing has been
    written up to that point. *)
Theorem FreeTLSSlot_outside_is_unchecked (m : Machine) (tls_address : Z) :
  let p := process m in
  let tls_base :=
    wrap64 (tls_address - GetTLSIORegionBaseAddress (vm_manager p)) in
  (length (tls_slots p) <= Z.to_nat (tls_base / PAGE_SIZE))%nat ->
  FreeTLSSlot tls_address m = Failed UncheckedIndexPastEnd m.
Proof.
  intros p tls_base Hout.
  unfold FreeTLSSlot, tls_slots_update, bind, get_process. cbv beta.
  fold p. fold tls_base.
  rewrite (lookup_ge_None_2 _ _ Hout). reflexivity.
Qed.

(** ** Signal state *)

(** C2.  [ClearSignalState] returns the invalid-state error, and changes
    nothing, when the status is Exited or the process is not signaled;
    otherwise it clears [is_signaled] and returns success.  These are the
    only results it has, so the error is returned exactly in those two
    cases.  A freshly created process is not signaled, so the call fails
    on it; on an Exited process the call fails whatever the flag is, and
    leaves the process Exited. *)
Theorem ClearSignalState_invalid_state (m : Machine) :
  let p := process m in
  (status p = Exited \/ is_signaled p = false ->
   ClearSignalState m = Done ERR_INVALID_STATE m)
  /\ (status p <> Exited -> is_signaled p = true ->
      ClearSignalState m
      = Done RESULT_SUCCESS (set_process (set_is_signaled false p) m))
  /\ (returned (ClearSignalState m) = Some ERR_INVALID_STATE
      <-> status p = Exited \/ is_signaled p = false)
  /\ (forall rng_seed kernel name threads current next,
        let fresh :=
          mkMachine (fst (Process_Create rng_seed kernel name)) threads current next in
        ClearSignalState fresh = Done ERR_INVALID_STATE fresh)
  /\ (status p = Exited ->
      forall flag,
        let m' := set_process (set_is_signaled flag p) m in
        ClearSignalState m' = Done ERR_INVALID_STATE m'
        /\ status (process m') = Exited).
Proof.
  intros p.
  assert (Herr : status p = Exited \/ is_signaled p = false ->
                 ClearSignalState m = Done ERR_INVALID_STATE m).
  { intros H. unfold ClearSignalState, bind, get_process, ret. fold p.
    destruct H as [H|H].
    - rewrite H. reflexivity.
    - rewrite H. destruct (ProcessStatus_eqb (status p) Exited); reflexivity. }
  assert (Hok : status p <> Exited -> is_signaled p = true ->
                ClearSignalState m
                = Done RESULT_SUCCESS (set_process (set_is_signaled false p) m)).
  { intros Hs Hsig. unfold ClearSignalState, bind, get_process, ret, modify_process.
    fold p. rewrite Hsig.
    destruct (status p); try congruence; reflexivity. }
  split; [exact Herr|]. split; [exact Hok|]. split; [|split].
  - split.
    + intros Hret.
      destruct (status p) eqn:Hst; try (left; reflexivity);
        destruct (is_signaled p) eqn:Hsig; try (right; reflexivity);
        rewrite Hok in Hret by (rewrite ?Hst; congruence); discriminate.
    + intros H. rewrite (Herr H). reflexivity.
  - intros rng_seed kernel name threads current next fresh.
    unfold ClearSignalState, bind, get_process, ret. reflexivity.
  - intros Hexited flag m'. split.
    + unfold ClearSignalState, bind, get_process, ret. cbn.
      fold p. rewrite Hexited. reflexivity.
    + exact Hexited.
Qed.

(** ** Status changes *)

Lemma wake_nobody (l : list Thread) :
  map (fun t => if is_waiting [] t then ResumeFromWait t else t) l = l.
Proof.
  induction l as [|t l IH]; [reflexivity|].
  change (t :: map (fun t => if is_waiting [] t then ResumeFromWait t else t) l = t :: l).
  f_equal. exact IH.
Qed.

Lemma lookup_map {A B} (f : A -> B) (l : list A) (i : nat) :
  map f l !! i = option_map f (l !! i).
Proof.
  revert i. induction l as [|a l IH]; intros [|i]; simpl; auto.
Qed.

Lemma is_waiting_In (waiters : list ObjectId) (t : Thread) :
  is_waiting waiters t = true <-> In (thread_id t) waiters.
Proof.
  unfold is_waiting. rewrite existsb_exists. split.
  - intros (x & Hin & Heq). apply Nat.eqb_eq in Heq. subst. exact Hin.
  - intros Hin. exists (thread_id t). split; [exact Hin | apply Nat.eqb_refl].
Qed.

Lemma ProcessStatus_eqb_eq (a b : ProcessStatus) :
  ProcessStatus_eqb a b = true <-> a = b.
Proof. destruct a, b; simpl; split; intros H; congruence. Qed.

Lemma ProcessStatus_eqb_neq (a b : ProcessStatus) :
  a <> b -> ProcessStatus_eqb a b = false.
Proof.
  intros H. destruct (ProcessStatus_eqb a b) eqn:E; [|reflexivity].
  apply ProcessStatus_eqb_eq in E. contradiction.
Qed.

(** What [ChangeStatus] does when the status really changes. *)
Lemma ChangeStatus_changed (m : Machine) (new_status : ProcessStatus) :
  status (process m) <> new_status ->
  ChangeStatus new_status m
  = Done tt
      (mkMachine
         (set_waiting_threads []
            (set_is_signaled true (set_status new_status (process m))))
         (map (fun t => if is_waiting (waiting_threads (process m)) t
                        then ResumeFromWait t else t) (thread_list m))
         (current_thread m) (next_object_id m)).
Proof.
  intros Hne. unfold ChangeStatus, bind, get_process.
  rewrite (ProcessStatus_eqb_neq _ _ Hne). reflexivity.
Qed.

Lemma ChangeStatus_same (m : Machine) (new_status : ProcessStatus) :
  status (process m) = new_status -> ChangeStatus new_status m = Done tt m.
Proof.
  intros He. unfold ChangeStatus, bind, get_process.
  apply ProcessStatus_eqb_eq in He. rewrite He. reflexivity.
Qed.

(** C4.  A call of [ChangeStatus] that changes the status (to Running,
    to Exiting, to Exited) sets [is_signaled] and wakes every thread that
    waits on the process: each waiter is runnable afterwards, nobody is
    left waiting, and the threads that did not wait are as they were.  A
    call with the status the process already has changes nothing. *)
Theorem ChangeStatus_signals_and_wakes_all (m : Machine) (new_status : ProcessStatus) :
  (status (process m) <> new_status ->
   exists m1,
     ChangeStatus new_status m = Done tt m1
     /\ status (process m1) = new_status
     /\ is_signaled (process m1) = true
     /\ waiting_threads (process m1) = []
     /\ length (thread_list m1) = length (thread_list m)
     /\ (forall i t, thread_list m !! i = Some t ->
           In (thread_id t) (waiting_threads (process m)) ->
           thread_list m1 !! i = Some (ResumeFromWait t)
           /\ thread_status (ResumeFromWait t) = ThreadReady)
     /\ (forall i t, thread_list m !! i = Some t ->
           ~ In (thread_id t) (waiting_threads (process m)) ->
           thread_list m1 !! i = Some t))
  /\ (status (process m) = new_status -> ChangeStatus new_status m = Done tt m).
Proof.
  split; [|apply ChangeStatus_same].
  intros Hne. eexists. split; [apply ChangeStatus_changed; exact Hne|].
  cbn. split; [reflexivity|]. split; [reflexivity|]. split; [reflexivity|].
  split; [apply length_map|]. split.
  - intros i t Hl Hin. rewrite lookup_map. rewrite Hl. cbn.
    apply is_waiting_In in Hin. rewrite Hin. split; reflexivity.
  - intros i t Hl Hnot. rewrite lookup_map. rewrite Hl. cbn.
    destruct (is_waiting (waiting_threads (process m)) t) eqn:E; [|reflexivity].
    apply is_waiting_In in E. contradiction.
Qed.

(** ** Loading *)

Lemma VMManager_Reset_type (type : ProgramAddressSpaceType) :
  address_space_type (VMManager_Reset type) = type
  /\ vma_map (VMManager_Reset type) = [].
Proof.
  unfold VMManager_Reset. destruct (region_layout type) as [[c b] e].
  split; reflexivity.
Qed.

(** C10.  When the capability parser reports an error,
    [LoadFromMetadata] returns that error with the program ID, the ideal
    core and the 64-bit flag already taken from the metadata and the
    address space already reset to the metadata's address-space type.
    Nothing is rolled back; the handle table is not resized. *)
Theorem LoadFromMetadata_error_keeps_mutations (m : Machine)
    (metadata : ProgramMetadata) :
  let reset := VMManager_Reset (GetAddressSpaceType metadata) in
  let init :=
    InitializeForUserProcess (GetKernelCapabilities metadata) reset
      (capabilities (process m)) in
  IsError (fst init) = true ->
  exists m1,
    LoadFromMetadata metadata m = Done (fst init) m1
    /\ program_id (process m1) = GetTitleID metadata
    /\ ideal_core (process m1) = GetMainThreadCore metadata
    /\ is_64bit_process (process m1) = Is64BitProgram metadata
    /\ vm_manager (process m1) = reset
    /\ address_space_type (vm_manager (process m1)) = GetAddressSpaceType metadata
    /\ vma_map (vm_manager (process m1)) = []
    /\ capabilities (process m1) = snd init
    /\ handle_table (process m1) = handle_table (process m)
    /\ status (process m1) = status (process m).
Proof.
  intros reset init Herr.
  unfold LoadFromMetadata, bind, modify_process, get_process, ret. cbn.
  fold reset. fold init. destruct init as [rc caps1] eqn:Hinit.
  cbn in Herr |- *. rewrite Herr.
  eexists. split; [reflexivity|]. cbn.
  destruct (VMManager_Reset_type (GetAddressSpaceType metadata)) as [Ht Hm].
  repeat split; auto.
Qed.

(** ** Creation *)

Lemma Process_Create_entropy (rng_seed : option Z) (kernel : KernelCore) (name : string) :
  random_entropy (fst (Process_Create rng_seed kernel name))
  = fst (generate RANDOM_ENTROPY_SIZE (mt19937 (value_or rng_seed 0))).
Proof. unfold Process_Create. cbn. rewrite repeat_length. reflexivity. Qed.

(** C7, what the code does.  With a configured seed the entropy buffer
    is a function of that seed alone.  With no seed configured
    [Process::Create] seeds the engine with 0: the buffer is the one a
    configured seed of 0 gives, the same for every creation, and no
    random source is consulted.  The default configuration text says of
    this setting: "rng_seed will be ignored and randomly generated if
    rng_seed_enabled is false". *)
Theorem Process_Create_unseeded_is_seed_zero (kernel kernel' : KernelCore)
    (name name' : string) :
  (forall seed,
     random_entropy (fst (Process_Create (Some seed) kernel name))
     = random_entropy (fst (Process_Create (Some seed) kernel' name')))
  /\ random_entropy (fst (Process_Create None kernel name))
     = random_entropy (fst (Process_Create (Some 0) kernel' name'))
  /\ random_entropy (fst (Process_Create None kernel name))
     = fst (generate RANDOM_ENTROPY_SIZE (mt19937 0)).
Proof.
  repeat split; intros; rewrite !Process_Create_entropy; reflexivity.
Qed.

(** ** Running *)

(** [ChangeStatus] always returns, ends in the requested status, and
    touches nothing but the status, the signal, the waiters and the
    state of the threads it wakes. *)
Lemma ChangeStatus_frame (m : Machine) (new_status : ProcessStatus) :
  exists m1,
    ChangeStatus new_status m = Done tt m1
    /\ status (process m1) = new_status
    /\ vm_manager (process m1) = vm_manager (process m)
    /\ handle_table (process m1) = handle_table (process m)
    /\ main_thread_stack_size (process m1) = main_thread_stack_size (process m)
    /\ ideal_core (process m1) = ideal_core (process m)
    /\ process_id (process m1) = process_id (process m)
    /\ length (thread_list m1) = length (thread_list m)
    /\ current_thread m1 = current_thread m
    /\ next_object_id m1 = next_object_id m.
Proof.
  destruct (ProcessStatus_eqb (status (process m)) new_status) eqn:E.
  - apply ProcessStatus_eqb_eq in E. exists m.
    split; [apply ChangeStatus_same; exact E|]. repeat split; auto.
  - eexists. split.
    + apply ChangeStatus_changed. intros H. apply ProcessStatus_eqb_eq in H. congruence.
    + cbn. repeat split; auto. apply length_map.
Qed.

Lemma update_thread_last (id : ObjectId) (f : Thread -> Thread)
    (l : list Thread) (t : Thread) :
  thread_id t = id ->
  update_thread id f (l ++ [t]) = update_thread id f l ++ [f t].
Proof.
  intros Hid. unfold update_thread. rewrite map_app. cbn.
  rewrite Hid, Nat.eqb_refl. reflexivity.
Qed.

Lemma update_thread_length (id : ObjectId) (f : Thread -> Thread) (l : list Thread) :
  length (update_thread id f l) = length l.
Proof. apply length_map. Qed.

(** What [SetupMainThread] leaves: one more thread at the end of the
    scheduler's list, runnable, with register 1 holding the handle the
    process's handle table gave for it. *)
Lemma SetupMainThread_result (m : Machine) (priority : Z) :
  let p := process m in
  let thread_handle := Z.of_nat (length (ht_objects (handle_table p))) + 1 in
  let main :=
    mkThread (next_object_id m) "main"
      (GetCodeRegionBaseAddress (vm_manager p)) priority (ideal_core p)
      (GetTLSIORegionEndAddress (vm_manager p)) (this_id p) ThreadReady
      (<[1%nat := thread_handle]> (repeat 0 31)) [] in
  exists others,
    length others = length (thread_list m)
    /\ SetupMainThread priority m
       = Done tt
           (mkMachine
              (set_handle_table
                 (mkHandleTable (ht_objects (handle_table p) ++ [next_object_id m])) p)
              (others ++ [main]) (current_thread m) (S (next_object_id m))).
Proof.
  intros p thread_handle main.
  exists (update_thread (next_object_id m) ResumeFromWait
            (update_thread (next_object_id m)
               (fun t => set_cpu_registers
                           (<[1%nat := thread_handle]> (cpu_registers t)) t)
               (thread_list m))).
  split.
  - rewrite !update_thread_length. reflexivity.
  - unfold SetupMainThread, Thread_Create, bind, get_process, Unwrap, ret,
      modify_process, modify_threads, HandleTable_Create.
    cbn [process thread_list current_thread next_object_id set_process
         set_thread_list handle_table set_handle_table].
    rewrite !update_thread_last by reflexivity.
    reflexivity.
Qed.

(** [AlignUp] without wrap-around: the least multiple of [size] that is
    not below [value]. *)
Lemma AlignUp_rounds_up (value size : Z) :
  0 < size -> 0 <= value -> value + size <= 2 ^ 64 ->
  AlignUp value size mod size = 0
  /\ value <= AlignUp value size < value + size.
Proof.
  intros Hsize Hvalue Hfit. unfold AlignUp.
  pose proof (Z.mod_pos_bound value size Hsize) as Hr.
  pose proof (Z.mod_pos_bound (size - value mod size) size Hsize) as Hpad.
  rewrite wrap64_small by lia.
  split; [|lia].
  rewrite Zplus_mod_idemp_r.
  replace (value + (size - value mod size))
    with (value mod size + (size - value mod size) + size * (value / size)).
  - rewrite Z.mul_comm, Z_mod_plus_full.
    replace (value mod size + (size - value mod size)) with size by ring.
    apply Z_mod_same_full.
  - pose proof (Z.div_mod value size). lia.
Qed.

Lemma multiple_in_window (a v size : Z) :
  0 < size -> a mod size = 0 -> v mod size = 0 -> v - size < a < v + size -> a = v.
Proof.
  intros Hsize Ha Hv Hwin.
  apply Z.mod_divide in Ha; [|lia]. destruct Ha as [qa ->].
  apply Z.mod_divide in Hv; [|lia]. destruct Hv as [qv ->].
  assert (qa = qv) by nia. subst. reflexivity.
Qed.

(** With a page size that divides [2 ^ 64] the result is page aligned
    for every request, wrap-around included. *)
Lemma AlignUp_aligned (value size : Z) :
  0 < size -> 2 ^ 64 mod size = 0 -> AlignUp value size mod size = 0.
Proof.
  intros Hsize Hdiv. unfold AlignUp, wrap64.
  set (x := value + (size - value mod size) mod size).
  assert (Hx : x mod size = 0).
  { unfold x. rewrite Zplus_mod_idemp_r.
    replace (value + (size - value mod size))
      with (value mod size + (size - value mod size) + size * (value / size)).
    - rewrite Z.mul_comm, Z_mod_plus_full.
      replace (value mod size + (size - value mod size)) with size by ring.
      apply Z_mod_same_full.
    - pose proof (Z.div_mod value size). lia. }
  apply Z.mod_divide in Hx; [|lia]. apply Z.mod_divide in Hdiv; [|lia].
  apply Z.mod_divide; [lia|].
  rewrite Z.mod_eq by lia.
  apply Z.divide_sub_r; [exact Hx|].
  apply Z.divide_mul_l. exact Hdiv.
Qed.

Lemma HandleTable_Get_new (ht : HandleTable) (obj : ObjectId) :
  HandleTable_Get (mkHandleTable (ht_objects ht ++ [obj]))
    (Z.of_nat (length (ht_objects ht)) + 1) = Some obj.
Proof.
  unfold HandleTable_Get.
  destruct (Z.leb_spec (Z.of_nat (length (ht_objects ht)) + 1) 0); [lia|].
  cbn [ht_objects].
  replace (Z.to_nat (Z.of_nat (length (ht_objects ht)) + 1 - 1))
    with (length (ht_objects ht)) by lia.
  rewrite lookup_app_r by lia. rewrite Nat.sub_diag. reflexivity.
Qed.

(** What [Run] does with the machine: with the stack region taken by
    the address space, and with the region rejected. *)
Lemma Run_outcome (m : Machine) (main_thread_priority stack_size : Z) :
  let p := process m in
  let size := AlignUp stack_size PAGE_SIZE in
  let region_end := GetTLSIORegionEndAddress (vm_manager p) in
  let mapping_address := wrap64 (region_end - size) in
  let stack :=
    mkVMA mapping_address size (OwnedBlock (repeat 0 (Z.to_nat size))) 0 MsStack in
  let thread_handle := Z.of_nat (length (ht_objects (handle_table p))) + 1 in
  let main :=
    mkThread (next_object_id m) "main"
      (GetCodeRegionBaseAddress (vm_manager p)) (to_u32 main_thread_priority)
      (ideal_core p) region_end (this_id p) ThreadReady
      (<[1%nat := thread_handle]> (repeat 0 31)) [] in
  (range_is_free (vm_manager p) mapping_address size = true ->
      exists m1,
        Run main_thread_priority stack_size m = Done tt m1
        /\ main_thread_stack_size (process m1) = size
        /\ vma_map (vm_manager (process m1)) = vma_map (vm_manager p) ++ [stack]
        /\ status (process m1) = Running
        /\ length (thread_list m1) = S (length (thread_list m))
        /\ thread_list m1 !! length (thread_list m) = Some main
        /\ cpu_registers main !! 1%nat = Some thread_handle
        /\ thread_handle <> 0
        /\ HandleTable_Get (handle_table (process m1)) thread_handle
           = Some (thread_id main))
  /\ (range_is_free (vm_manager p) mapping_address size = false ->
      exists m1,
        Run main_thread_priority stack_size m
        = Failed (UnwrapOfError ERR_INVALID_ADDRESS_STATE) m1
        /\ status (process m1) = status p
        /\ vm_manager (process m1) = vm_manager p
        /\ thread_list m1 = thread_list m).
Proof.
  intros p size region_end mapping_address stack thread_handle main.
  split.
  - intros Hfree.
    unfold Run. unfold bind at 1. unfold modify_process at 1.
    unfold bind at 1. unfold get_process at 1.
    cbn [process set_process set_main_thread_stack_size main_thread_stack_size
         vm_manager].
    fold p size region_end mapping_address.
    unfold MapMemoryBlock. rewrite Hfree.
    unfold bind at 1. unfold modify_process at 1.
    unfold bind at 1. unfold Unwrap at 1. unfold ret at 1.
    unfold bind at 1.
    match goal with
    | |- context [ChangeStatus Running ?m0] =>
        destruct (ChangeStatus_frame m0 Running)
          as (m1 & Hcs & Hst & Hvm & Hht & Hss & Hic & Hpid & Hlen & Hcur & Hnext)
    end.
    rewrite Hcs.
    destruct (SetupMainThread_result m1 (to_u32 main_thread_priority))
      as (others & Hothers & Hsetup).
    cbv zeta in Hsetup. rewrite Hsetup.
    cbn in Hvm, Hht, Hss, Hic, Hpid, Hlen, Hcur, Hnext.
    eexists. split; [reflexivity|].
    cbn [process thread_list set_handle_table main_thread_stack_size vm_manager
         status handle_table].
    rewrite Hss, Hvm, Hst.
    split; [reflexivity|]. split; [reflexivity|]. split; [reflexivity|].
    split; [rewrite length_app; cbn; lia|].
    split.
    { rewrite lookup_app_r by lia.
      replace (length (thread_list m) - length others)%nat with 0%nat by lia.
      cbn [lookup list_lookup]. unfold main, thread_handle, this_id.
      rewrite Hht, Hic, Hpid, Hnext. reflexivity. }
    split; [reflexivity|].
    split; [unfold thread_handle; lia|].
    unfold thread_handle. rewrite Hht, Hnext. cbn [thread_id main].
    apply HandleTable_Get_new.
  - intros Hbusy.
    unfold Run. unfold bind at 1. unfold modify_process at 1.
    unfold bind at 1. unfold get_process at 1.
    cbn [process set_process set_main_thread_stack_size main_thread_stack_size
         vm_manager].
    fold p size region_end mapping_address.
    unfold MapMemoryBlock. rewrite Hbusy.
    eexists. split; [reflexivity|]. cbn. repeat split; reflexivity.
Qed.

(** C3.  [Run] stores [AlignUp stack_size PAGE_SIZE] as the stack size:
    a multiple of the page size for every request when the page size
    divides [2 ^ 64]; the least multiple not below the request when
    rounding stays within 64 bits; [PAGE_SIZE], [PAGE_SIZE] and
    [2 * PAGE_SIZE] for the requests 1, [PAGE_SIZE] and [PAGE_SIZE + 1].
    It asks the address space for a region of exactly that size, state
    Stack, at the TLS/IO region end minus that size.  When the address
    space takes the region, [Run] returns with the status Running and
    exactly one more thread: entry point at the code-region base,
    runnable, register 1 holding the handle under which the process's
    handle table now has this thread, which is not zero.  When the
    address space rejects the region, [Unwrap] stops [Run] before the
    status changes and before any thread is made. *)
Theorem Run_maps_stack_and_starts_main_thread (m : Machine)
    (main_thread_priority stack_size : Z) :
  let p := process m in
  let size := AlignUp stack_size PAGE_SIZE in
  let region_end := GetTLSIORegionEndAddress (vm_manager p) in
  let mapping_address := wrap64 (region_end - size) in
  let stack :=
    mkVMA mapping_address size (OwnedBlock (repeat 0 (Z.to_nat size))) 0 MsStack in
  let thread_handle := Z.of_nat (length (ht_objects (handle_table p))) + 1 in
  let main :=
    mkThread (next_object_id m) "main"
      (GetCodeRegionBaseAddress (vm_manager p)) (to_u32 main_thread_priority)
      (ideal_core p) region_end (this_id p) ThreadReady
      (<[1%nat := thread_handle]> (repeat 0 31)) [] in
  (0 < PAGE_SIZE -> 2 ^ 64 mod PAGE_SIZE = 0 -> size mod PAGE_SIZE = 0)
  /\ (0 < PAGE_SIZE -> 0 <= stack_size -> stack_size + PAGE_SIZE <= 2 ^ 64 ->
      size mod PAGE_SIZE = 0 /\ stack_size <= size < stack_size + PAGE_SIZE)
  /\ (1 < PAGE_SIZE -> 2 * PAGE_SIZE < 2 ^ 64 ->
      AlignUp 1 PAGE_SIZE = PAGE_SIZE
      /\ AlignUp PAGE_SIZE PAGE_SIZE = PAGE_SIZE
      /\ AlignUp (PAGE_SIZE + 1) PAGE_SIZE = 2 * PAGE_SIZE)
  /\ (range_is_free (vm_manager p) mapping_address size = true ->
      exists m1,
        Run main_thread_priority stack_size m = Done tt m1
        /\ main_thread_stack_size (process m1) = size
        /\ vma_map (vm_manager (process m1)) = vma_map (vm_manager p) ++ [stack]
        /\ status (process m1) = Running
        /\ length (thread_list m1) = S (length (thread_list m))
        /\ thread_list m1 !! length (thread_list m) = Some main
        /\ cpu_registers main !! 1%nat = Some thread_handle
        /\ thread_handle <> 0
        /\ HandleTable_Get (handle_table (process m1)) thread_handle
           = Some (thread_id main))
  /\ (range_is_free (vm_manager p) mapping_address size = false ->
      exists m1,
        Run main_thread_priority stack_size m
        = Failed (UnwrapOfError ERR_INVALID_ADDRESS_STATE) m1
        /\ status (process m1) = status p
        /\ vm_manager (process m1) = vm_manager p
        /\ thread_list m1 = thread_list m).
Proof.
  intros p size region_end mapping_address stack thread_handle main.
  split; [apply AlignUp_aligned|].
  split; [apply AlignUp_rounds_up|].
  split.
  { intros Hps Hfit.
    assert (Hpos : 0 < PAGE_SIZE) by lia.
    destruct (AlignUp_rounds_up 1 PAGE_SIZE Hpos) as [D1 B1]; [lia | lia |].
    destruct (AlignUp_rounds_up PAGE_SIZE PAGE_SIZE Hpos) as [D2 B2]; [lia | lia |].
    destruct (AlignUp_rounds_up (PAGE_SIZE + 1) PAGE_SIZE Hpos) as [D3 B3];
      [lia | lia |].
    assert (Hself : PAGE_SIZE mod PAGE_SIZE = 0) by apply Z_mod_same_full.
    assert (Htwice : (2 * PAGE_SIZE) mod PAGE_SIZE = 0) by apply Z_mod_mult.
    split; [|split].
    - apply (multiple_in_window _ _ PAGE_SIZE Hpos D1 Hself). lia.
    - apply (multiple_in_window _ _ PAGE_SIZE Hpos D2 Hself). lia.
    - apply (multiple_in_window _ _ PAGE_SIZE Hpos D3 Htwice). lia. }
  apply Run_outcome.
Qed.

(** ** Termination *)

Lemma ThreadStatus_eqb_eq (a b : ThreadStatus) :
  ThreadStatus_eqb a b = true <-> a = b.
Proof. destruct a, b; simpl; split; intros H; congruence. Qed.

(** The loop stops every thread it is to stop when each of them waits
    for synchronisation, and leaves the others alone. *)
Lemma stop_threads_all_waiting (this : ObjectId) (current : option ObjectId)
    (l : list Thread) :
  Forall (fun t => to_be_stopped this current t = true -> thread_status t = WaitSynch) l ->
  stop_threads this current l
  = (map (fun t => if to_be_stopped this current t then Thread_Stop t else t) l, true).
Proof.
  induction 1 as [|t l Ht Hl IH]; [reflexivity|].
  cbn [stop_threads map]. unfold to_be_stopped in *.
  destruct (Nat.eqb (owner_process t) this); cbn [negb andb].
  - destruct (is_current current t); cbn [negb].
    + rewrite IH. reflexivity.
    + rewrite (Ht eq_refl). cbn. rewrite IH. reflexivity.
  - rewrite IH. reflexivity.
Qed.

(** The assertion fails as soon as the loop meets a thread it is to stop
    that does not wait for synchronisation. *)
Lemma stop_threads_not_waiting (this : ObjectId) (current : option ObjectId)
    (l : list Thread) :
  Exists (fun t => to_be_stopped this current t = true
                   /\ thread_status t <> WaitSynch) l ->
  snd (stop_threads this current l) = false.
Proof.
  induction l as [|t l IH]; intros Hex; [inversion Hex|].
  cbn [stop_threads]. unfold to_be_stopped in *.
  destruct (Nat.eqb (owner_process t) this) eqn:Hown; cbn [negb andb].
  - destruct (is_current current t) eqn:Hcur; cbn [negb].
    + inversion Hex as [? ? [Hs _]|? ? Hrest]; subst.
      * rewrite Hown, Hcur in Hs. discriminate.
      * specialize (IH Hrest). destruct (stop_threads this current l). exact IH.
    + destruct (ThreadStatus_eqb (thread_status t) WaitSynch) eqn:Hw; cbn [negb].
      * inversion Hex as [? ? [_ Hn]|? ? Hrest]; subst.
        -- apply ThreadStatus_eqb_eq in Hw. contradiction.
        -- specialize (IH Hrest). destruct (stop_threads this current l). exact IH.
      * reflexivity.
  - inversion Hex as [? ? [Hs _]|? ? Hrest]; subst.
    + rewrite Hown in Hs. discriminate.
    + specialize (IH Hrest). destruct (stop_threads this current l). exact IH.
Qed.

(** C6.  [PrepareForTermination] first changes the status to Exiting.
    Then it goes through the global scheduler's thread list.  When every
    thread of this process other than the one running on the calling
    core waits for synchronisation, each of them is stopped, the threads
    of other processes and the running thread are left as they are, and
    the status becomes Exited.  When one of them does not wait for
    synchronisation, the assertion fails: the call does not return, no
    result code is produced, and the process is left in Exiting. *)
Theorem PrepareForTermination_stops_waiting_threads (m : Machine) :
  let this := this_id (process m) in
  let current := current_thread m in
  let stop := fun t => if to_be_stopped this current t then Thread_Stop t else t in
  exists m1,
    ChangeStatus Exiting m = Done tt m1
    /\ status (process m1) = Exiting
    /\ (Forall (fun t => to_be_stopped this current t = true ->
                         thread_status t = WaitSynch) (thread_list m1) ->
        PrepareForTermination m
        = ChangeStatus Exited (set_thread_list (map stop (thread_list m1)) m1)
        /\ (exists m2,
              PrepareForTermination m = Done tt m2
              /\ status (process m2) = Exited
              /\ (status (process m) <> Exiting ->
                  thread_list m2 = map stop (thread_list m1)))
        /\ (forall i t, thread_list m1 !! i = Some t ->
              to_be_stopped this current t = true ->
              map stop (thread_list m1) !! i = Some (Thread_Stop t)
              /\ thread_status (Thread_Stop t) = Dead)
        /\ (forall i t, thread_list m1 !! i = Some t ->
              owner_process t <> this \/ Some (thread_id t) = current ->
              map stop (thread_list m1) !! i = Some t))
    /\ (Exists (fun t => to_be_stopped this current t = true
                         /\ thread_status t <> WaitSynch) (thread_list m1) ->
        exists m2,
          PrepareForTermination m
          = Failed (AssertionFailed
                      "Exiting processes with non-waiting threads is currently unimplemented")
                   m2
          /\ status (process m2) = Exiting).
Proof.
  intros this current stop.
  destruct (ChangeStatus_frame m Exiting)
    as (m1 & Hcs & Hst & Hvm & Hht & Hss & Hic & Hpid & Hlen & Hcur & Hnext).
  exists m1. split; [exact Hcs|]. split; [exact Hst|].
  assert (Hthis : this_id (process m1) = this)
    by (unfold this, this_id; rewrite Hpid; reflexivity).
  split.
  - intros Hall.
    assert (Hrun : PrepareForTermination m
      = ChangeStatus Exited (set_thread_list (map stop (thread_list m1)) m1)).
    { unfold PrepareForTermination. unfold bind at 1. rewrite Hcs.
      unfold bind at 1. unfold get_process at 1.
      unfold bind at 1. rewrite Hthis, Hcur.
      fold current. rewrite (stop_threads_all_waiting this current _ Hall).
      reflexivity. }
    split; [exact Hrun|]. split; [|split].
    + destruct (ChangeStatus_frame
                  (set_thread_list (map stop (thread_list m1)) m1) Exited)
        as (m2 & Hcs2 & Hst2 & _).
      exists m2. rewrite Hrun. split; [exact Hcs2|]. split; [exact Hst2|].
      intros Hne.
      rewrite (ChangeStatus_changed m Exiting Hne) in Hcs.
      injection Hcs as <-.
      rewrite ChangeStatus_changed in Hcs2 by (cbn; discriminate).
      injection Hcs2 as <-. cbn. apply wake_nobody.
    + intros i t Hl Hstop. rewrite lookup_map, Hl. cbn. unfold stop.
      rewrite Hstop. split; reflexivity.
    + intros i t Hl Hother. rewrite lookup_map, Hl. cbn. unfold stop.
      replace (to_be_stopped this current t) with false; [reflexivity|].
      unfold to_be_stopped. destruct Hother as [Hown | Hrunning].
      * apply Nat.eqb_neq in Hown. rewrite Hown. reflexivity.
      * unfold is_current. rewrite <- Hrunning, Nat.eqb_refl.
        rewrite andb_false_r. reflexivity.
  - intros Hex.
    apply (stop_threads_not_waiting this current) in Hex.
    unfold PrepareForTermination. unfold bind at 1. rewrite Hcs.
    unfold bind at 1. unfold get_process at 1.
    unfold bind at 1. rewrite Hthis, Hcur. fold current.
    destruct (stop_threads this current (thread_list m1)) as [threads1 ok].
    cbn in Hex. subst ok.
    eexists. split; [reflexivity|]. exact Hst.
Qed.

(** ** The life cycle *)

Lemma Run_status (m : Machine) (main_thread_priority stack_size : Z) :
  match Run main_thread_priority stack_size m with
  | Done _ m1 => status (process m1) = Running
  | Failed _ m1 => status (process m1) = status (process m)
  end.
Proof.
  pose proof (Run_outcome m main_thread_priority stack_size) as Hrun.
  cbv zeta in Hrun. destruct Hrun as (Hfree & Hbusy).
  destruct (range_is_free (vm_manager (process m))
              (wrap64 (GetTLSIORegionEndAddress (vm_manager (process m))
                       - AlignUp stack_size PAGE_SIZE))
              (AlignUp stack_size PAGE_SIZE)).
  - destruct (Hfree eq_refl) as (m1 & -> & _ & _ & Hst & _). exact Hst.
  - destruct (Hbusy eq_refl) as (m1 & -> & Hst & _). exact Hst.
Qed.

Lemma PrepareForTermination_status (m : Machine) :
  status (process (final (ChangeStatus Exiting m))) = Exiting
  /\ match PrepareForTermination m with
     | Done _ m1 => status (process m1) = Exited
     | Failed _ m1 => status (process m1) = Exiting
     end.
Proof.
  destruct (ChangeStatus_frame m Exiting) as (m1 & Hcs & Hst & _).
  rewrite Hcs. split; [exact Hst|].
  unfold PrepareForTermination. unfold bind at 1. rewrite Hcs.
  unfold bind at 1. unfold get_process at 1. unfold bind at 1.
  destruct (stop_threads (this_id (process m1)) (current_thread m1) (thread_list m1))
    as [threads1 [|]].
  - destruct (ChangeStatus_frame (set_thread_list threads1 m1) Exited)
      as (m2 & Hcs2 & Hst2 & _).
    rewrite Hcs2. exact Hst2.
  - exact Hst.
Qed.

Lemma bindL_unlogged {A B} (c : M A) (k : A -> Logged B) (m : Machine) :
  bindL (unlogged c) k m
  = match c m with
    | Done a m1 => k a m1
    | Failed f m1 => (Failed f m1, [])
    end.
Proof.
  unfold bindL, unlogged. destruct (c m) as [a m1|f m1]; [|reflexivity].
  destruct (k a m1) as [o log2]. reflexivity.
Qed.

(** With the log left out, [ChangeStatus_logged] is [ChangeStatus]; the
    log is the new status when the status changes and empty when it does
    not. *)
Lemma ChangeStatus_logged_spec (new_status : ProcessStatus) (m : Machine) :
  ChangeStatus_logged new_status m
  = (ChangeStatus new_status m,
     if ProcessStatus_eqb (status (process m)) new_status then []
     else [new_status]).
Proof.
  unfold ChangeStatus_logged, ChangeStatus.
  rewrite bindL_unlogged. unfold get_process at 1 2. unfold bind at 1.
  destruct (ProcessStatus_eqb (status (process m)) new_status); [reflexivity|].
  unfold bindL at 1. unfold assign_status, modify_process at 1.
  rewrite bindL_unlogged. unfold modify_process at 1.
  unfold bind at 1. unfold modify_process at 1.
  unfold bind at 1. unfold modify_process at 1.
  unfold unlogged. reflexivity.
Qed.

Lemma bindL_ChangeStatus_logged {B} (new_status : ProcessStatus)
    (k : unit -> Logged B) (m : Machine) :
  bindL (ChangeStatus_logged new_status) k m
  = match ChangeStatus new_status m with
    | Done a m1 =>
        (fst (k a m1),
         (if ProcessStatus_eqb (status (process m)) new_status then []
          else [new_status]) ++ snd (k a m1))
    | Failed f m1 =>
        (Failed f m1,
         if ProcessStatus_eqb (status (process m)) new_status then []
         else [new_status])
    end.
Proof.
  unfold bindL. rewrite ChangeStatus_logged_spec.
  destruct (ChangeStatus new_status m) as [a m1|f m1]; [|reflexivity].
  destruct (k a m1) as [o log2]. reflexivity.
Qed.

(** With the log left out, [Run_logged] is [Run]; it logs Running when
    it returns from a process that was not Running, and nothing when the
    stack mapping is rejected. *)
Lemma Run_logged_spec (main_thread_priority stack_size : Z) (m : Machine) :
  Run_logged main_thread_priority stack_size m
  = (Run main_thread_priority stack_size m,
     match Run main_thread_priority stack_size m with
     | Done _ _ =>
         if ProcessStatus_eqb (status (process m)) Running then [] else [Running]
     | Failed _ _ => []
     end).
Proof.
  unfold Run_logged, Run.
  unfold bindL at 1 2 3 4 5. unfold unlogged at 1 2 3 4.
  unfold bind at 1 2 3 4 5 6 7 8 9 10.
  unfold modify_process, get_process.
  cbn [process set_process set_main_thread_stack_size main_thread_stack_size
       vm_manager].
  unfold MapMemoryBlock.
  destruct (range_is_free (vm_manager (process m))
              (wrap64 (GetTLSIORegionEndAddress (vm_manager (process m))
                       - AlignUp stack_size PAGE_SIZE))
              (AlignUp stack_size PAGE_SIZE));
    cbn [Unwrap ret fail_with]; unfold ret, fail_with; [|reflexivity].
  rewrite ChangeStatus_logged_spec.
  cbn [process set_process set_vm_manager status].
  match goal with
  | |- context [ChangeStatus Running ?m0] =>
      destruct (ChangeStatus_frame m0 Running) as (m1 & Hcs & _)
  end.
  rewrite Hcs. unfold unlogged.
  destruct (SetupMainThread_result m1 (to_u32 main_thread_priority))
    as (others & _ & Hsetup).
  cbv zeta in Hsetup. rewrite Hsetup.
  cbn [app set_main_thread_stack_size status]. rewrite app_nil_r. reflexivity.
Qed.

(** With the log left out, [PrepareForTermination_logged] is
    [PrepareForTermination]; it logs Exiting unless the process was
    Exiting, and then Exited when it returns. *)
Lemma PrepareForTermination_logged_spec (m : Machine) :
  PrepareForTermination_logged m
  = (PrepareForTermination m,
     (if ProcessStatus_eqb (status (process m)) Exiting then [] else [Exiting])
     ++ match PrepareForTermination m with
        | Done _ _ => [Exited]
        | Failed _ _ => []
        end).
Proof.
  unfold PrepareForTermination_logged, PrepareForTermination.
  unfold bindL at 1 2 3. rewrite ChangeStatus_logged_spec.
  unfold bind at 1 2 3 4 5 6.
  destruct (ChangeStatus_frame m Exiting) as (m1 & Hcs & Hst & _).
  rewrite Hcs. unfold unlogged, get_process.
  destruct (stop_threads (this_id (process m1)) (current_thread m1) (thread_list m1))
    as [threads1 [|]]; [|rewrite ?app_nil_r; reflexivity].
  rewrite ChangeStatus_logged_spec. cbn [process set_thread_list].
  rewrite Hst. cbn [ProcessStatus_eqb].
  destruct (ChangeStatus_frame (set_thread_list threads1 m1) Exited)
    as (m2 & Hcs2 & _).
  rewrite Hcs2. reflexivity.
Qed.

Lemma apply_operation_logged_outcome (op : Operation) (m : Machine) :
  fst (apply_operation_logged op m) = apply_operation op m.
Proof.
  destruct op as [prio stack_size|]; cbn [apply_operation_logged apply_operation].
  - rewrite Run_logged_spec. reflexivity.
  - rewrite PrepareForTermination_logged_spec. reflexivity.
Qed.

Lemma ProcessStatus_eqb_true (a b : ProcessStatus) :
  ProcessStatus_eqb a b = true -> a = b.
Proof. destruct a, b; cbn; intros H; try reflexivity; discriminate. Qed.

(** The log ends in the status the operation leaves. *)
Lemma statuses_during_last (op : Operation) (m : Machine) :
  List.last (statuses_during op m) (status (process m))
  = status (process (final (apply_operation op m))).
Proof.
  unfold statuses_during.
  destruct op as [prio stack_size|]; cbn [apply_operation_logged apply_operation].
  - rewrite Run_logged_spec. cbn [snd].
    pose proof (Run_status m prio stack_size) as Hrun.
    destruct (Run prio stack_size m) as [u m1|f m1]; cbn [final].
    + destruct (ProcessStatus_eqb (status (process m)) Running) eqn:Heq.
      * apply ProcessStatus_eqb_true in Heq. cbn. congruence.
      * cbn. congruence.
    + cbn. congruence.
  - rewrite PrepareForTermination_logged_spec. cbn [snd].
    destruct (PrepareForTermination_status m) as [_ Hend].
    destruct (PrepareForTermination m) as [u m1|f m1]; cbn [final].
    + rewrite last_last. congruence.
    + rewrite app_nil_r.
      destruct (ProcessStatus_eqb (status (process m)) Exiting) eqn:Heq.
      * apply ProcessStatus_eqb_true in Heq. cbn. congruence.
      * cbn. congruence.
Qed.

(** C5, as amended.  The statuses a process takes are the statuses the
    operations assign, in the order they assign them; the log of an
    operation ends in the status the operation leaves, and the run with
    the log is the run of the operation.  For every sequence of
    operations kept in the order of the life cycle ([Run] applied to a
    Created process, [PrepareForTermination] to a Running one), every
    status the process takes is the next one after the status before it
    in Created < Running < Exiting < Exited: nothing is reversed, nothing
    is skipped, and no status is entered twice. *)
Theorem lifecycle_order_moves_forward (ops : list Operation) (m : Machine) :
  lifecycle_order ops m = true ->
  forward_only (status (process m)) (status_trace ops m) = true
  /\ forall (op : Operation) (m1 : Machine),
       fst (apply_operation_logged op m1) = apply_operation op m1
       /\ List.last (statuses_during op m1) (status (process m1))
          = status (process (final (apply_operation op m1))).
Proof.
  intros Hvalid. split;
    [|intros op m1; split;
        [apply apply_operation_logged_outcome | apply statuses_during_last]].
  revert m Hvalid. induction ops as [|op rest IH]; intros m Hvalid; [reflexivity|].
  cbn [lifecycle_order] in Hvalid. apply andb_true_iff in Hvalid.
  destruct Hvalid as [Horder Hrest].
  cbn [status_trace]. unfold statuses_during.
  destruct op as [prio stack_size|].
  - (* Run *)
    destruct (status (process m)) eqn:Hst; try discriminate.
    cbn [apply_operation_logged apply_operation] in *.
    rewrite Run_logged_spec, Hst. cbn [fst snd ProcessStatus_eqb].
    pose proof (Run_status m prio stack_size) as Hrun.
    destruct (Run prio stack_size m) as [u m1|f m1]; [|reflexivity].
    cbn [app forward_only forward_step status_rank Nat.eqb andb].
    rewrite <- Hrun. apply IH. exact Hrest.
  - (* PrepareForTermination *)
    destruct (status (process m)) eqn:Hst; try discriminate.
    cbn [apply_operation_logged apply_operation] in *.
    rewrite PrepareForTermination_logged_spec, Hst. cbn [fst snd ProcessStatus_eqb].
    destruct (PrepareForTermination_status m) as [_ Hend].
    destruct (PrepareForTermination m) as [u m1|f m1]; [|reflexivity].
    cbn [app forward_only forward_step status_rank Nat.eqb andb].
    rewrite <- Hend. apply IH. exact Hrest.
Qed.

End Proofs.

(** * The properties on concrete machines *)

(** C1 at a machine whose first page is full and whose second page has
    slots 0 and 2 in use: the call returns the address of page 1, slot 1. *)
Lemma MarkNextAvailableTLSSlotAsUsed_first_fit_witness :
  exists thread1 m1,
    MarkNextAvailableTLSSlotAsUsed (MC := switch_memory)
      (demo_thread 7%nat 81%nat Dormant) (demo_machine_with_slots [255; 5])
    = Done (0x10001200, thread1) m1
    /\ exists b1, tls_slots (process m1) !! 1%nat = Some b1
                  /\ Bitset8.bit b1 1 = true.
Proof.
  destruct (MarkNextAvailableTLSSlotAsUsed_first_fit (MC := switch_memory)
              (demo_machine_with_slots [255; 5]) (demo_thread 7%nat 81%nat Dormant))
    as (page & slot & thread1 & m1 & Hrun & _ & Hbit & Hcases).
  assert (Hwhere : page = 1%nat /\ slot = 1%nat).
  { destruct Hcases as [(b & Hl & Hfull & _ & Hslot & Hclear & Hbelow & _)
                       | (Hfull & _)].
    - destruct page as [|[|page]]; cbn in Hl; [| |discriminate].
      + injection Hl as <-.
        do 8 (destruct slot as [|slot]; [discriminate|]). lia.
      + injection Hl as <-.
        destruct slot as [|[|slot]]; [discriminate | auto | discriminate].
    - cbn in Hfull. inversion Hfull as [|? ? _ Hrest]; subst.
      inversion Hrest as [|? ? Hfive _]; subst. discriminate. }
  destruct Hwhere as [-> ->].
  exists thread1, m1. split; [exact Hrun | exact Hbit].
Defined.

(** Nine allocations on a process without TLS pages: the eight slots of
    page 0 in order, then slot 0 of a second page. *)
Example nine_allocations_fill_page_0_first :
  allocate_many (MC := switch_memory) 9 (demo_thread 7%nat 81%nat Dormant) demo_machine
  = [0x10000000; 0x10000200; 0x10000400; 0x10000600; 0x10000800;
     0x10000a00; 0x10000c00; 0x10000e00; 0x10001000].
Proof. vm_compute. reflexivity. Qed.

(** C2 at a freshly created process, and at a signaled Running one. *)
Lemma ClearSignalState_invalid_state_witness :
  ClearSignalState demo_machine = Done ERR_INVALID_STATE demo_machine
  /\ returned (ClearSignalState
                 (set_process (set_is_signaled true
                                 (set_status Running (process demo_machine)))
                    demo_machine))
     = Some RESULT_SUCCESS.
Proof.
  split.
  - apply (proj1 (ClearSignalState_invalid_state demo_machine)).
    right. reflexivity.
  - destruct (ClearSignalState_invalid_state
                (set_process (set_is_signaled true
                                (set_status Running (process demo_machine)))
                   demo_machine)) as (_ & Hok & _).
    rewrite Hok; [reflexivity | discriminate | reflexivity].
Defined.

(** C3 at a freshly created process: [Run(1, 0x1000)] with 4 KiB pages. *)
Lemma Run_maps_stack_and_starts_main_thread_witness :
  (AlignUp 1 0x1000 = 0x1000 /\ AlignUp 0x1000 0x1000 = 0x1000
   /\ AlignUp 0x1001 0x1000 = 0x2000)
  /\ exists m1,
       Run (MC := switch_memory) 1 0x1000 demo_machine = Done tt m1
       /\ main_thread_stack_size (process m1) = 0x1000
       /\ status (process m1) = Running
       /\ length (thread_list m1) = 1%nat.
Proof.
  destruct (Run_maps_stack_and_starts_main_thread (MC := switch_memory)
              demo_machine 1 0x1000)
    as (_ & _ & Hsamples & Hfree & _).
  split.
  - apply Hsamples; cbn; lia.
  - destruct (Hfree eq_refl)
      as (m1 & Hrun & Hsize & _ & Hstatus & Hlen & _).
    exists m1. repeat split; assumption.
Defined.

(** C4 at a Created process with two of three threads waiting on it. *)
Lemma ChangeStatus_signals_and_wakes_all_witness :
  exists m1,
    ChangeStatus Running
      (demo_machine_with_threads
         [demo_thread 2%nat 81%nat WaitSynch; demo_thread 3%nat 81%nat WaitSleep;
          demo_thread 4%nat 99%nat WaitSynch] [2; 4]%nat Created)
    = Done tt m1
    /\ is_signaled (process m1) = true
    /\ waiting_threads (process m1) = []
    /\ thread_list m1 !! 0%nat = Some (demo_thread 2%nat 81%nat ThreadReady)
    /\ thread_list m1 !! 1%nat = Some (demo_thread 3%nat 81%nat WaitSleep)
    /\ thread_list m1 !! 2%nat = Some (demo_thread 4%nat 99%nat ThreadReady).
Proof.
  destruct (proj1 (ChangeStatus_signals_and_wakes_all
                     (demo_machine_with_threads
                        [demo_thread 2%nat 81%nat WaitSynch;
                         demo_thread 3%nat 81%nat WaitSleep;
                         demo_thread 4%nat 99%nat WaitSynch] [2; 4]%nat Created)
                     Running))
    as (m1 & Hrun & _ & Hsig & Hnobody & _ & Hwoken & Hkept); [discriminate|].
  exists m1. split; [exact Hrun|]. split; [exact Hsig|]. split; [exact Hnobody|].
  split; [|split].
  - apply (Hwoken 0%nat (demo_thread 2%nat 81%nat WaitSynch) eq_refl).
    cbn. auto.
  - apply (Hkept 1%nat (demo_thread 3%nat 81%nat WaitSleep) eq_refl).
    cbn. intros [H|[H|[]]]; discriminate.
  - apply (Hwoken 2%nat (demo_thread 4%nat 99%nat WaitSynch) eq_refl).
    cbn. auto.
Defined.

(** C5 as amended, at the life cycle of a process: [Run], then
    [PrepareForTermination] called from the main thread. *)
Lemma lifecycle_order_moves_forward_witness :
  status_trace (MC := switch_memory)
    [OpRun 1 0x1000; OpPrepareForTermination] demo_machine
  = [Running; Exiting; Exited]
  /\ forward_only Created
       (status_trace (MC := switch_memory)
          [OpRun 1 0x1000; OpPrepareForTermination] demo_machine) = true.
Proof.
  split; [vm_compute; reflexivity|].
  apply (proj1 (lifecycle_order_moves_forward (MC := switch_memory)
                  [OpRun 1 0x1000; OpPrepareForTermination] demo_machine
                  ltac:(vm_compute; reflexivity))).
Defined.

(** C5 as stated fails: [PrepareForTermination] on a Created process
    skips Running, and [Run] after it takes the status from Exited back
    to Running. *)
Lemma status_order_counterexample :
  status_trace (MC := switch_memory)
    [OpPrepareForTermination; OpRun 1 0x1000] demo_machine
  = [Exiting; Exited; Running]
  /\ forward_only Created
       (status_trace (MC := switch_memory)
          [OpPrepareForTermination; OpRun 1 0x1000] demo_machine) = false.
Proof. split; vm_compute; reflexivity. Qed.

(** C6 at a Running process with a waiting thread of its own, the
    running thread, and a thread of another process. *)
Lemma PrepareForTermination_stops_waiting_threads_witness :
  exists m2,
    PrepareForTermination
      (demo_machine_with_threads
         [demo_thread 1%nat 81%nat ThreadRunning; demo_thread 2%nat 81%nat WaitSynch;
          demo_thread 3%nat 99%nat ThreadReady] [] Running)
    = Done tt m2
    /\ status (process m2) = Exited
    /\ map thread_status (thread_list m2) = [ThreadRunning; Dead; ThreadReady].
Proof.
  destruct (PrepareForTermination_stops_waiting_threads
              (demo_machine_with_threads
                 [demo_thread 1%nat 81%nat ThreadRunning;
                  demo_thread 2%nat 81%nat WaitSynch;
                  demo_thread 3%nat 99%nat ThreadReady] [] Running))
    as (m1 & Hfirst & _ & Hstop & _).
  rewrite ChangeStatus_changed in Hfirst by discriminate.
  injection Hfirst as <-.
  destruct Hstop as (_ & (m2 & Hrun & Hstatus & Hthreads) & _).
  { repeat constructor; cbn; intros H; try reflexivity; discriminate. }
  exists m2. split; [exact Hrun|]. split; [exact Hstatus|].
  rewrite Hthreads; [reflexivity | discriminate].
Defined.

(** C8 as amended, at a page with slots 0, 1 and 2 in use: freeing slot
    2 and allocating again gives slot 2 back. *)
Lemma FreeTLSSlot_then_allocate_lowest_witness :
  (FreeTLSSlot (MC := switch_memory) 0x10000400 ;;
   MarkNextAvailableTLSSlotAsUsed (MC := switch_memory) (demo_thread 7%nat 81%nat Dormant))
    (demo_machine_with_slots [7])
  = Done (0x10000400, demo_thread 7%nat 81%nat Dormant) (demo_machine_with_slots [7]).
Proof.
  apply (proj2 (FreeTLSSlot_then_allocate_lowest (MC := switch_memory)
                  (demo_machine_with_slots [7]) (demo_thread 7%nat 81%nat Dormant)
                  0%nat 2%nat 7
                  ltac:(constructor; cbn; lia)
                  eq_refl ltac:(lia) eq_refl ltac:(cbn; lia))).
  - constructor.
  - reflexivity.
Defined.

(** C8 as stated fails.  Two slots are allocated and slot 0 is freed;
    slot 1, at [0x10000200], is then still allocated.  Freeing it and
    allocating again returns slot 0, at [0x10000000]. *)
Lemma free_then_allocate_counterexample :
  let thread := demo_thread 7%nat 81%nat Dormant in
  let allocate := MarkNextAvailableTLSSlotAsUsed (MC := switch_memory) thread in
  let reached :=
    final (FreeTLSSlot (MC := switch_memory) 0x10000000
             (final (allocate (final (allocate demo_machine))))) in
  tls_slots (process reached) = [2]
  /\ Bitset8.bit 2 1 = true
  /\ option_map fst
       (returned ((FreeTLSSlot (MC := switch_memory) 0x10000200 ;; allocate) reached))
     = Some 0x10000000.
Proof. repeat split; vm_compute; reflexivity. Qed.

(** C9 as amended, at a process with one TLS page and an address in what
    would be page 5. *)
Lemma FreeTLSSlot_outside_is_unchecked_witness :
  FreeTLSSlot (MC := switch_memory) 0x10005000 (demo_machine_with_slots [1])
  = Failed UncheckedIndexPastEnd (demo_machine_with_slots [1]).
Proof.
  apply (FreeTLSSlot_outside_is_unchecked (MC := switch_memory)
           (demo_machine_with_slots [1]) 0x10005000).
  vm_compute. lia.
Defined.

(** C9 as stated fails: with an address outside every allocated page
    the call ends in the unchecked access, and in no assertion. *)
Lemma free_outside_counterexample :
  FreeTLSSlot (MC := switch_memory) 0x10005000 (demo_machine_with_slots [1])
  = Failed UncheckedIndexPastEnd (demo_machine_with_slots [1])
  /\ forall msg m1,
       FreeTLSSlot (MC := switch_memory) 0x10005000 (demo_machine_with_slots [1])
       <> Failed (AssertionFailed msg) m1.
Proof.
  assert (H : FreeTLSSlot (MC := switch_memory) 0x10005000 (demo_machine_with_slots [1])
              = Failed UncheckedIndexPastEnd (demo_machine_with_slots [1]))
    by reflexivity.
  split; [exact H|]. intros msg m1. rewrite H. discriminate.
Qed.

(** C10 at metadata whose capability descriptors the parser rejects. *)
Lemma LoadFromMetadata_error_keeps_mutations_witness :
  exists m1,
    LoadFromMetadata (mkProgramMetadata 0x0100000000010000 2 true Is36Bit [-1])
      demo_machine
    = Done (ERR_OTHER 14) m1
    /\ program_id (process m1) = 0x0100000000010000
    /\ ideal_core (process m1) = 2
    /\ is_64bit_process (process m1) = true
    /\ address_space_type (vm_manager (process m1)) = Is36Bit.
Proof.
  destruct (LoadFromMetadata_error_keeps_mutations demo_machine
              (mkProgramMetadata 0x0100000000010000 2 true Is36Bit [-1]) eq_refl)
    as (m1 & Hrun & Hid & Hcore & H64 & _ & Htype & _).
  exists m1. repeat split; assumption.
Defined.

(** * Further properties *)

(** ** The slot allocator *)

Section AllocatorProofs.
Context `{MC : MemoryConstants} `{EX : Externals}.


Lemma MapMemoryBlock_layout (vm : VMManager) (target : Z) (block : BackingBlock)
    (offset size : Z) (state : MemoryState) :
  tls_io_region_base (snd (MapMemoryBlock vm target block offset size state))
  = tls_io_region_base vm.
Proof.
  unfold MapMemoryBlock. destruct (range_is_free vm target size); reflexivity.
Qed.

(** The call when the scan stops on a slot. *)
Lemma MarkNext_found (m : Machine) (thread : Thread) (page slot : nat)
    (b : Bitset8.t) :
  find_free_from 0 (tls_slots (process m)) = (page, slot, false) ->
  tls_slots (process m) !! page = Some b ->
  (slot < 8)%nat ->
  MarkNextAvailableTLSSlotAsUsed thread m
  = Done (slot_address (GetTLSIORegionBaseAddress (vm_manager (process m))) page slot,
          thread)
      (set_process
         (set_tls_slots (<[page := Z.setbit b (Z.of_nat slot)]> (tls_slots (process m)))
            (process m)) m).
Proof.
  intros Hscan Hl Hs.
  unfold MarkNextAvailableTLSSlotAsUsed, FindFreeThreadLocalSlot.
  unfold bind at 1. unfold get_process at 1. rewrite Hscan.
  unfold tls_slots_update, bind, ret, get_process, modify_process.
  cbn [process]. rewrite Hl. rewrite set_in_range by exact Hs. reflexivity.
Qed.

(** The call when the scan asks for a new page. *)
Lemma MarkNext_new_page (m : Machine) (thread : Thread) (pg sl : nat) :
  find_free_from 0 (tls_slots (process m)) = (pg, sl, true) ->
  let p := process m in
  let tls_begin := GetTLSIORegionBaseAddress (vm_manager p) in
  let page := length (tls_slots p) in
  MarkNextAvailableTLSSlotAsUsed thread m
  = Done (slot_address tls_begin page 0,
          set_tls_memory (tls_memory thread ++ repeat 0 (Z.to_nat PAGE_SIZE)) thread)
      (set_process
         (set_tls_slots (tls_slots p ++ [Z.setbit Bitset8.empty 0])
            (set_vm_manager
               (snd (MapMemoryBlock (vm_manager p)
                       (wrap64 (tls_begin + Z.of_nat page * PAGE_SIZE))
                       (TLSMemoryOf (thread_id thread)) 0 PAGE_SIZE MsThreadLocal))
               p)) m).
Proof.
  intros Hscan p tls_begin page.
  unfold MarkNextAvailableTLSSlotAsUsed, FindFreeThreadLocalSlot.
  unfold bind at 1. unfold get_process at 1. rewrite Hscan.
  unfold tls_slots_update, bind, ret, get_process, modify_process.
  cbn [process set_process set_tls_slots tls_slots set_vm_manager vm_manager].
  rewrite length_app, Nat.add_sub. cbn [length].
  rewrite lookup_app_r by lia. rewrite Nat.sub_diag.
  cbn [lookup list_lookup]. rewrite set_in_range by lia.
  cbn [process set_process set_tls_slots tls_slots set_vm_manager vm_manager
       thread_id set_tls_memory].
  rewrite insert_at_end. reflexivity.
Qed.

(** *** The order in which an empty table fills *)







(** *** Decoding an address *)

(** [FreeTLSSlot] recovers the page from any address inside the page, and
    the slot from the offset in the page. *)
Lemma decode_offset (base : Z) (page : nat) (r : Z) :
  0 < PAGE_SIZE -> 0 <= r < PAGE_SIZE ->
  Z.of_nat page * PAGE_SIZE + r < 2 ^ 64 ->
  let tls_base := wrap64 (wrap64 (base + Z.of_nat page * PAGE_SIZE + r) - base) in
  Z.to_nat (tls_base / PAGE_SIZE) = page /\ tls_base mod PAGE_SIZE = r.
Proof.
  intros Hps Hr Hrange tls_base.
  assert (Hbase : tls_base = Z.of_nat page * PAGE_SIZE + r).
  { unfold tls_base, wrap64. rewrite Zminus_mod_idemp_l.
    replace (base + Z.of_nat page * PAGE_SIZE + r - base)
      with (Z.of_nat page * PAGE_SIZE + r) by ring.
    apply Z.mod_small. nia. }
  rewrite Hbase. split.
  - rewrite Z.div_add_l by lia. rewrite Z.div_small by exact Hr. lia.
  - rewrite Z.add_comm, Z_mod_plus_full. apply Z.mod_small. exact Hr.
Qed.

Lemma identity_update (m : Machine) (l : list Bitset8.t) :
  l = tls_slots (process m) ->
  set_process (set_tls_slots l (process m)) m = m.
Proof. intros ->. destruct m as [p ths cur next]. destruct p. reflexivity. Qed.

Lemma clearbit_clear (b n : Z) :
  Z.testbit b n = false -> Z.clearbit b n = b.
Proof.
  intros Hb. apply Z.bits_inj'. intros k Hk. rewrite Z.clearbit_eqb.
  destruct (Z.eqb_spec n k) as [->|Hne]; simpl;
    rewrite ?Hb, ?andb_true_r, ?andb_false_r; reflexivity.
Qed.

Lemma clearbit_setbit (b n : Z) :
  0 <= n -> Z.testbit b n = false -> Z.clearbit (Z.setbit b n) n = b.
Proof.
  intros Hn Hb. apply Z.bits_inj'. intros k Hk.
  rewrite Z.clearbit_eqb. rewrite Z.setbit_eqb by exact Hn.
  destruct (Z.eqb_spec n k) as [->|Hne]; simpl;
    rewrite ?Hb, ?andb_true_r, ?andb_false_r; reflexivity.
Qed.

(** [FreeTLSSlot] on an address whose page exists and whose slot index is
    below 8. *)
Lemma FreeTLSSlot_decoded (m : Machine) (tls_address : Z) (page slot : nat)
    (b : Bitset8.t) :
  let tls_base :=
    wrap64 (tls_address - GetTLSIORegionBaseAddress (vm_manager (process m))) in
  Z.to_nat (tls_base / PAGE_SIZE) = page ->
  Z.to_nat ((tls_base mod PAGE_SIZE) / TLS_ENTRY_SIZE) = slot ->
  tls_slots (process m) !! page = Some b ->
  (slot < 8)%nat ->
  FreeTLSSlot tls_address m
  = Done tt (set_process
               (set_tls_slots
                  (<[page := Z.clearbit b (Z.of_nat slot)]> (tls_slots (process m)))
                  (process m)) m).
Proof.
  intros tls_base Hpage Hslot Hl Hs.
  unfold FreeTLSSlot, tls_slots_update, bind, get_process. cbv beta.
  fold tls_base. rewrite Hpage, Hslot, Hl.
  rewrite reset_in_range by exact Hs. reflexivity.
Qed.

Lemma FreeTLSSlot_unfold (m : Machine) (tls_address : Z) :
  let tls_base :=
    wrap64 (tls_address - GetTLSIORegionBaseAddress (vm_manager (process m))) in
  FreeTLSSlot tls_address m
  = tls_slots_update Bitset8.reset (Z.to_nat (tls_base / PAGE_SIZE))
      (Z.to_nat ((tls_base mod PAGE_SIZE) / TLS_ENTRY_SIZE)) m.
Proof. reflexivity. Qed.

Lemma slot_offset_bounds (slot : nat) (delta : Z) :
  MemoryConstantsOk -> (slot < 8)%nat -> 0 <= delta < TLS_ENTRY_SIZE ->
  0 < PAGE_SIZE
  /\ 0 <= Z.of_nat slot * TLS_ENTRY_SIZE + delta < PAGE_SIZE
  /\ (Z.of_nat slot * TLS_ENTRY_SIZE + delta) / TLS_ENTRY_SIZE = Z.of_nat slot.
Proof.
  intros [Hpos Hfit Hu64] Hs Hd. split; [lia|]. split; [nia|].
  rewrite Z.div_add_l by lia. rewrite Z.div_small by exact Hd. lia.
Qed.

(** X4.  [FreeTLSSlot] does not look at the alignment of the address: an
    address anywhere inside a slot has the same effect as the address of
    the slot itself. *)
Theorem FreeTLSSlot_ignores_offset_in_slot (m : Machine) (page slot : nat)
    (delta : Z) :
  MemoryConstantsOk ->
  (slot < 8)%nat ->
  0 <= delta < TLS_ENTRY_SIZE ->
  Z.of_nat page * PAGE_SIZE + Z.of_nat slot * TLS_ENTRY_SIZE + delta < 2 ^ 64 ->
  let tls_begin := GetTLSIORegionBaseAddress (vm_manager (process m)) in
  FreeTLSSlot (wrap64 (tls_begin + Z.of_nat page * PAGE_SIZE
                       + Z.of_nat slot * TLS_ENTRY_SIZE + delta)) m
  = FreeTLSSlot (slot_address tls_begin page slot) m.
Proof.
  intros Hok Hs Hd Hrange tls_begin.
  destruct (slot_offset_bounds slot delta Hok Hs Hd) as (Hps & Hin & Hdiv).
  destruct (slot_offset_bounds slot 0 Hok Hs) as (_ & Hin0 & Hdiv0);
    [destruct Hok; lia|].
  rewrite Z.add_0_r in Hin0, Hdiv0.
  destruct (decode_offset tls_begin page (Z.of_nat slot * TLS_ENTRY_SIZE + delta)
              Hps Hin) as [Hp1 Hr1]; [lia|].
  destruct (decode_offset tls_begin page (Z.of_nat slot * TLS_ENTRY_SIZE)
              Hps Hin0) as [Hp2 Hr2]; [lia|].
  unfold slot_address. rewrite !FreeTLSSlot_unfold. cbv zeta. fold tls_begin.
  replace (tls_begin + Z.of_nat page * PAGE_SIZE + Z.of_nat slot * TLS_ENTRY_SIZE
           + delta)
    with (tls_begin + Z.of_nat page * PAGE_SIZE
          + (Z.of_nat slot * TLS_ENTRY_SIZE + delta)) by ring.
  rewrite Hp1, Hr1, Hp2, Hr2, Hdiv, Hdiv0. reflexivity.
Qed.

(** X3.  A double free is not detected.  [FreeTLSSlot] on the address of
    a slot that is not in use, in a page that exists, returns normally
    and leaves the machine exactly as it was. *)
Theorem FreeTLSSlot_of_free_slot_is_silent (m : Machine) (page slot : nat)
    (b : Bitset8.t) :
  MemoryConstantsOk ->
  tls_slots (process m) !! page = Some b ->
  (slot < 8)%nat ->
  Bitset8.bit b slot = false ->
  Z.of_nat page * PAGE_SIZE + Z.of_nat slot * TLS_ENTRY_SIZE < 2 ^ 64 ->
  FreeTLSSlot
    (slot_address (GetTLSIORegionBaseAddress (vm_manager (process m))) page slot) m
  = Done tt m.
Proof.
  intros Hok Hl Hs Hclear Hrange.
  destruct (decode_slot_address
              (GetTLSIORegionBaseAddress (vm_manager (process m)))
              page slot Hok Hs Hrange) as [Hpage Hslot].
  unfold slot_address.
  rewrite (FreeTLSSlot_decoded m _ page slot b Hpage Hslot Hl Hs).
  f_equal. apply identity_update.
  unfold Bitset8.bit in Hclear. rewrite (clearbit_clear _ _ Hclear).
  apply list_insert_id. exact Hl.
Qed.

Lemma offset_in_region (page slot pages : nat) :
  MemoryConstantsOk -> (slot < 8)%nat -> (page < pages)%nat ->
  Z.of_nat pages * PAGE_SIZE <= 2 ^ 64 ->
  Z.of_nat page * PAGE_SIZE + Z.of_nat slot * TLS_ENTRY_SIZE < 2 ^ 64.
Proof.
  intros [Hpos Hfit Hu64] Hs Hp Hregion.
  assert (Hslot : Z.of_nat slot * TLS_ENTRY_SIZE < PAGE_SIZE) by nia.
  assert (Hnext : (Z.of_nat page + 1) * PAGE_SIZE <= Z.of_nat pages * PAGE_SIZE)
    by (apply Z.mul_le_mono_nonneg_r; lia).
  lia.
Qed.

(** X5.  Allocating a slot and freeing the address just returned undoes
    the allocation when a page had room: the machine is as it was.  When
    a page had to be created, the page stays, with no slot in use, and so
    does its mapping: pages are never given back. *)
Theorem allocate_then_free_keeps_created_page (m : Machine) (thread : Thread) :
  MemoryConstantsOk ->
  Z.of_nat (S (length (tls_slots (process m)))) * PAGE_SIZE <= 2 ^ 64 ->
  let p := process m in
  let tls_begin := GetTLSIORegionBaseAddress (vm_manager p) in
  let allocate_then_free :=
    (r <- MarkNextAvailableTLSSlotAsUsed thread ;; FreeTLSSlot (fst r)) in
  (~ Forall page_full (tls_slots p) -> allocate_then_free m = Done tt m)
  /\ (Forall page_full (tls_slots p) ->
      allocate_then_free m
      = Done tt
          (set_process
             (set_tls_slots (tls_slots p ++ [Bitset8.empty])
                (set_vm_manager
                   (snd (MapMemoryBlock (vm_manager p)
                           (wrap64 (tls_begin
                                    + Z.of_nat (length (tls_slots p)) * PAGE_SIZE))
                           (TLSMemoryOf (thread_id thread)) 0 PAGE_SIZE
                           MsThreadLocal))
                   p)) m)).
Proof.
  intros Hok Hrange p tls_begin allocate_then_free.
  pose proof Hok as [Hpos Hfit Hu64].
  pose proof (find_free_from_spec (tls_slots (process m)) 0) as Hscan.
  destruct (find_free_from 0 (tls_slots (process m))) as [[pg sl] [|]] eqn:Hfind.
  - (* a page is created *)
    destruct Hscan as (_ & _ & Hfull).
    split; [intros Hnot; contradiction|]. intros _.
    unfold allocate_then_free. unfold bind at 1.
    pose proof (MarkNext_new_page m thread pg sl Hfind) as Hrun.
    cbv zeta in Hrun. rewrite Hrun. cbn [fst].
    match goal with
    | |- FreeTLSSlot _ ?m1 = _ =>
        assert (Hbase : GetTLSIORegionBaseAddress (vm_manager (process m1))
                        = GetTLSIORegionBaseAddress (vm_manager (process m)))
          by (cbn; apply MapMemoryBlock_layout);
        pose proof (decode_slot_address
                      (GetTLSIORegionBaseAddress (vm_manager (process m1)))
                      (length (tls_slots (process m))) 0 Hok (Nat.lt_0_succ 7))
          as Hdecode
    end.
    cbv zeta in Hdecode. destruct Hdecode as [Hpage Hslot]; [lia|].
    rewrite Hbase in Hpage, Hslot.
    unfold slot_address.
    erewrite FreeTLSSlot_decoded;
      [ | rewrite Hbase; exact Hpage | rewrite Hbase; exact Hslot
        | cbn; rewrite lookup_app_r by lia; rewrite Nat.sub_diag; reflexivity
        | lia ].
    cbn [process set_process set_tls_slots tls_slots].
    rewrite insert_at_end. reflexivity.
  - (* a page has room *)
    destruct Hscan as (i & b & Hpg & Hl & Hfull & Hs & Hclear & Hbelow).
    cbn in Hpg. subst pg.
    assert (Hlen : (i < length (tls_slots (process m)))%nat)
      by (apply lookup_lt_Some in Hl; exact Hl).
    split.
    + intros _. unfold allocate_then_free. unfold bind at 1.
      rewrite (MarkNext_found m thread i sl b Hfind Hl Hs). cbn [fst].
      pose proof (decode_slot_address
                    (GetTLSIORegionBaseAddress (vm_manager (process m)))
                    i sl Hok Hs) as Hdecode.
      cbv zeta in Hdecode. destruct Hdecode as [Hpage Hslot].
      { apply (offset_in_region i sl (S (length (tls_slots (process m)))) Hok Hs);
          [lia | exact Hrange]. }
      unfold slot_address.
      erewrite FreeTLSSlot_decoded;
        [ | exact Hpage | exact Hslot
          | cbn; apply list_lookup_insert_eq; exact Hlen
          | exact Hs ].
      cbn [process set_process set_tls_slots tls_slots].
      f_equal. apply restore_tls_slots.
      rewrite list_insert_insert_eq.
      unfold Bitset8.bit in Hclear.
      rewrite clearbit_setbit by (try lia; exact Hclear).
      apply list_insert_id. exact Hl.
    + intros Hallfull. exfalso.
      apply list_elem_of_lookup_2 in Hl.
      rewrite Forall_forall in Hallfull. specialize (Hallfull b Hl).
      rewrite (all_bit b sl Hallfull Hs) in Hclear. discriminate.
Qed.

(** X6.  With eight entries filling a page exactly, [FreeTLSSlot] accepts
    every address whose page exists, whatever the address is inside the
    page: it returns normally, changes only the bitmap of that page, and
    [std::bitset] never throws.  The only way it does not return is the
    unchecked index past the last page. *)
Theorem FreeTLSSlot_accepts_every_address_in_a_page (m : Machine)
    (tls_address : Z) :
  0 < TLS_ENTRY_SIZE ->
  PAGE_SIZE = 8 * TLS_ENTRY_SIZE ->
  let p := process m in
  let tls_base :=
    wrap64 (tls_address - GetTLSIORegionBaseAddress (vm_manager p)) in
  let page := Z.to_nat (tls_base / PAGE_SIZE) in
  ((page < length (tls_slots p))%nat ->
   exists b1,
     FreeTLSSlot tls_address m
     = Done tt (set_process (set_tls_slots (<[page := b1]> (tls_slots p)) p) m))
  /\ ((length (tls_slots p) <= page)%nat ->
      FreeTLSSlot tls_address m = Failed UncheckedIndexPastEnd m)
  /\ (forall m1, FreeTLSSlot tls_address m <> Failed BitsetOutOfRange m1).
Proof.
  intros Hpos Hsize p tls_base page.
  assert (Hslot : (Z.to_nat ((tls_base mod PAGE_SIZE) / TLS_ENTRY_SIZE) < 8)%nat).
  { assert (Hps : 0 < PAGE_SIZE) by lia.
    pose proof (Z.mod_pos_bound tls_base PAGE_SIZE Hps) as Hr.
    assert (0 <= (tls_base mod PAGE_SIZE) / TLS_ENTRY_SIZE < 8).
    { split; [apply Z.div_pos; lia|].
      apply Z.div_lt_upper_bound; lia. }
    lia. }
  rewrite FreeTLSSlot_unfold. cbv zeta. fold p tls_base page.
  unfold tls_slots_update, bind, get_process. cbv beta. fold p.
  destruct (tls_slots p !! page) as [b|] eqn:Hl.
  - rewrite reset_in_range by exact Hslot.
    split; [|split].
    + intros _. eexists. reflexivity.
    + intros Hout. apply lookup_lt_Some in Hl. lia.
    + intros m1. discriminate.
  - split; [|split].
    + intros Hin. apply lookup_ge_None_1 in Hl. lia.
    + intros _. reflexivity.
    + intros m1. discriminate.
Qed.

(** *** No slot is handed out twice *)

Lemma slot_address_injective (base : Z) (page slot page' slot' : nat) :
  MemoryConstantsOk ->
  (slot < 8)%nat -> (slot' < 8)%nat ->
  Z.of_nat page * PAGE_SIZE + Z.of_nat slot * TLS_ENTRY_SIZE < 2 ^ 64 ->
  Z.of_nat page' * PAGE_SIZE + Z.of_nat slot' * TLS_ENTRY_SIZE < 2 ^ 64 ->
  slot_address base page slot = slot_address base page' slot' ->
  page = page' /\ slot = slot'.
Proof.
  intros Hok Hs Hs' Hr Hr' Heq.
  destruct (decode_slot_address base page slot Hok Hs Hr) as [Hp Hsl].
  destruct (decode_slot_address base page' slot' Hok Hs' Hr') as [Hp' Hsl'].
  unfold slot_address in Heq. rewrite Heq in Hp, Hsl.
  split; congruence.
Qed.

(** One allocation takes a slot that was free, and every slot that is
    free afterwards was free before and is another slot. *)
Lemma MarkNext_takes_a_free_slot (m : Machine) (thread : Thread) :
  exists page slot thread1 m1,
    MarkNextAvailableTLSSlotAsUsed thread m
    = Done (slot_address (GetTLSIORegionBaseAddress (vm_manager (process m)))
              page slot, thread1) m1
    /\ (slot < 8)%nat
    /\ (page <= length (tls_slots (process m)))%nat
    /\ (length (tls_slots (process m1)) <= S (length (tls_slots (process m))))%nat
    /\ GetTLSIORegionBaseAddress (vm_manager (process m1))
       = GetTLSIORegionBaseAddress (vm_manager (process m))
    /\ slot_is_free (tls_slots (process m)) page slot
    /\ (forall pg sl, slot_is_free (tls_slots (process m1)) pg sl ->
          slot_is_free (tls_slots (process m)) pg sl
          /\ ~ (pg = page /\ sl = slot)).
Proof.
  pose proof (find_free_from_spec (tls_slots (process m)) 0) as Hscan.
  destruct (find_free_from 0 (tls_slots (process m))) as [[pg0 sl0] [|]] eqn:Hfind.
  - pose proof (MarkNext_new_page m thread pg0 sl0 Hfind) as Hrun.
    cbv zeta in Hrun.
    eexists. exists 0%nat. eexists. eexists.
    split; [exact Hrun|].
    cbn [process set_process set_tls_slots tls_slots set_vm_manager vm_manager].
    split; [lia|]. split; [lia|].
    split; [rewrite length_app; cbn; lia|].
    split; [apply MapMemoryBlock_layout|].
    split.
    + unfold slot_is_free. rewrite lookup_ge_None_2 by lia. exact I.
    + intros pg sl Hfree. unfold slot_is_free in *.
      destruct (Nat.lt_trichotomy pg (length (tls_slots (process m))))
        as [Hlt | [-> | Hgt]].
      * rewrite lookup_app_l in Hfree by exact Hlt. split; [exact Hfree|]. lia.
      * rewrite lookup_ge_None_2 by lia. split; [exact I|].
        intros [_ ->].
        rewrite lookup_app_r in Hfree by lia. rewrite Nat.sub_diag in Hfree.
        cbn in Hfree. discriminate.
      * rewrite lookup_ge_None_2 by lia. split; [exact I|]. lia.
  - destruct Hscan as (i & b & Hpg & Hl & Hfull & Hs & Hclear & Hbelow).
    cbn in Hpg. subst pg0.
    assert (Hlen : (i < length (tls_slots (process m)))%nat)
      by (apply lookup_lt_Some in Hl; exact Hl).
    exists i, sl0. eexists. eexists.
    split; [exact (MarkNext_found m thread i sl0 b Hfind Hl Hs)|].
    cbn [process set_process set_tls_slots tls_slots set_vm_manager vm_manager].
    split; [exact Hs|]. split; [lia|].
    split; [rewrite length_insert; lia|].
    split; [reflexivity|].
    split.
    + unfold slot_is_free. rewrite Hl. exact Hclear.
    + intros pg sl Hfree. unfold slot_is_free in *.
      destruct (Nat.eq_dec pg i) as [->|Hne].
      * rewrite list_lookup_insert_eq in Hfree by exact Hlen. rewrite Hl.
        destruct (Nat.eq_dec sl sl0) as [->|Hsne].
        -- rewrite bit_set_same in Hfree. discriminate.
        -- rewrite bit_set_other in Hfree by auto. split; [exact Hfree|]. lia.
      * rewrite list_lookup_insert_ne in Hfree by auto.
        split; [exact Hfree|]. lia.
Qed.

(** Every address a run of allocations returns is that of a slot that
    was free before the run. *)
Lemma allocate_many_takes_free_slots (n : nat) (m : Machine) (thread : Thread) :
  Forall (fun a =>
            exists page slot,
              a = slot_address (GetTLSIORegionBaseAddress (vm_manager (process m)))
                    page slot
              /\ (slot < 8)%nat
              /\ (page < length (tls_slots (process m)) + n)%nat
              /\ slot_is_free (tls_slots (process m)) page slot)
         (allocate_many n thread m).
Proof.
  revert m thread. induction n as [|n IH]; intros m thread; [constructor|].
  destruct (MarkNext_takes_a_free_slot m thread)
    as (page & slot & thread1 & m1 & Hrun & Hs & Hpage & Hlen & Hbase & Hfree & Hafter).
  cbn [allocate_many]. rewrite Hrun. constructor.
  - exists page, slot. repeat split; auto. lia.
  - specialize (IH m1 thread1). rewrite Forall_forall in IH |- *.
    intros a Hin. destruct (IH a Hin) as (pg & sl & -> & Hsl & Hpg & Hf).
    exists pg, sl. rewrite Hbase. repeat split; auto; [lia|].
    apply (Hafter pg sl Hf).
Qed.

(** X2.  While nothing is freed, no address is handed out twice: [n]
    allocations in a row, from any state of the bitmaps, never fail and
    return [n] different addresses. *)
Theorem allocations_return_distinct_addresses (n : nat) (m : Machine)
    (thread : Thread) :
  MemoryConstantsOk ->
  Z.of_nat (length (tls_slots (process m)) + n) * PAGE_SIZE <= 2 ^ 64 ->
  NoDup (allocate_many n thread m)
  /\ length (allocate_many n thread m) = n.
Proof.
  intros Hok. revert m thread. induction n as [|n IH]; intros m thread Hrange.
  - split; [constructor | reflexivity].
  - pose proof Hok as [Hpos Hfit Hu64].
    destruct (MarkNext_takes_a_free_slot m thread)
      as (page & slot & thread1 & m1 & Hrun & Hs & Hpage & Hlen & Hbase & Hfree & Hafter).
    assert (Hrange1 : Z.of_nat (length (tls_slots (process m1)) + n) * PAGE_SIZE
                      <= 2 ^ 64).
    { eapply Z.le_trans; [|exact Hrange].
      apply Z.mul_le_mono_nonneg_r; lia. }
    destruct (IH m1 thread1 Hrange1) as [Hnodup Hcount].
    pose proof (allocate_many_takes_free_slots n m1 thread1) as Hslots.
    cbn [allocate_many]. rewrite Hrun. split.
    + constructor; [|exact Hnodup].
      intros Hin. rewrite Forall_forall in Hslots.
      destruct (Hslots _ Hin) as (pg & sl & Heq & Hsl & Hpg & Hf).
      rewrite Hbase in Heq.
      assert (Hr : Z.of_nat page * PAGE_SIZE + Z.of_nat slot * TLS_ENTRY_SIZE
                   < 2 ^ 64).
      { apply (offset_in_region page slot
                 (length (tls_slots (process m)) + S n) Hok Hs);
          [lia | exact Hrange]. }
      assert (Hr' : Z.of_nat pg * PAGE_SIZE + Z.of_nat sl * TLS_ENTRY_SIZE
                    < 2 ^ 64).
      { apply (offset_in_region pg sl
                 (length (tls_slots (process m)) + S n) Hok Hsl);
          [lia | exact Hrange]. }
      destruct (slot_address_injective
                  (GetTLSIORegionBaseAddress (vm_manager (process m)))
                  page slot pg sl Hok Hs Hsl Hr Hr' Heq) as [Hp Hq].
      destruct (Hafter pg sl Hf) as [_ Hdiff]. apply Hdiff.
      split; congruence.
    + cbn [length]. rewrite Hcount. reflexivity.
Qed.

End AllocatorProofs.

(** ** Signal state, registration and loading *)

Section ProcessProofs.
Context `{MC : MemoryConstants} `{EX : Externals}.

Lemma ClearSignalState_cases (m : Machine) :
  ClearSignalState m
  = if ProcessStatus_eqb (status (process m)) Exited then Done ERR_INVALID_STATE m
    else if negb (is_signaled (process m)) then Done ERR_INVALID_STATE m
    else Done RESULT_SUCCESS (set_process (set_is_signaled false (process m)) m).
Proof.
  unfold ClearSignalState, bind, get_process.
  destruct (ProcessStatus_eqb (status (process m)) Exited); [reflexivity|].
  destruct (negb (is_signaled (process m))); reflexivity.
Qed.

(** X7.  The signal of a process is consumed by the first
    [ClearSignalState] that succeeds: whatever the first call returns,
    a second call right after it returns ERR_INVALID_STATE and changes
    nothing. *)
Theorem ClearSignalState_second_call_fails (m : Machine) :
  exists rc m1,
    ClearSignalState m = Done rc m1
    /\ ClearSignalState m1 = Done ERR_INVALID_STATE m1.
Proof.
  rewrite (ClearSignalState_cases m).
  destruct (ProcessStatus_eqb (status (process m)) Exited) eqn:Hexited.
  - exists ERR_INVALID_STATE, m. split; [reflexivity|].
    rewrite ClearSignalState_cases, Hexited. reflexivity.
  - destruct (is_signaled (process m)) eqn:Hsig; cbn [negb].
    + eexists. eexists. split; [reflexivity|].
      rewrite ClearSignalState_cases.
      cbn [process set_process set_is_signaled status is_signaled negb].
      rewrite Hexited. reflexivity.
    + exists ERR_INVALID_STATE, m. split; [reflexivity|].
      rewrite ClearSignalState_cases, Hexited, Hsig. reflexivity.
Qed.

Lemma acquire_many_signaled (n : nat) (m : Machine) :
  is_signaled (process m) = true -> acquire_many n m = Done tt m.
Proof.
  intros Hsig. induction n as [|n IH]; [reflexivity|].
  cbn [acquire_many]. unfold bind at 1.
  unfold Acquire, ShouldWait, bind, get_process, ret, ASSERT_MSG.
  rewrite Hsig. cbn [negb]. exact IH.
Qed.

(** X8.  [Acquire] succeeds exactly on a signaled process and never
    consumes the signal: any number of acquisitions in a row leave a
    signaled process as it is, and on a process that is not signaled the
    first one fails its assertion. *)
Theorem Acquire_never_consumes_the_signal (n : nat) (m : Machine) :
  acquire_many (S n) m
  = if is_signaled (process m) then Done tt m
    else Failed (AssertionFailed "Object unavailable!") m.
Proof.
  destruct (is_signaled (process m)) eqn:Hsig.
  - apply acquire_many_signaled. exact Hsig.
  - cbn [acquire_many]. unfold bind at 1.
    unfold Acquire, ShouldWait, bind, get_process, ret, ASSERT_MSG, fail_with.
    rewrite Hsig. reflexivity.
Qed.

(** X9.  A process that has reached Exited stays signaled for good:
    after [PrepareForTermination] has returned, the process is signaled,
    [ClearSignalState] is rejected with ERR_INVALID_STATE and leaves the
    flag set, nobody has to wait and every [Acquire] succeeds. *)
Theorem exited_process_stays_signaled (m m1 : Machine) :
  PrepareForTermination m = Done tt m1 ->
  status (process m1) = Exited
  /\ is_signaled (process m1) = true
  /\ ClearSignalState m1 = Done ERR_INVALID_STATE m1
  /\ ShouldWait m1 = Done false m1
  /\ forall n, acquire_many n m1 = Done tt m1.
Proof.
  intros Hrun.
  assert (Hstate : status (process m1) = Exited /\ is_signaled (process m1) = true).
  { unfold PrepareForTermination in Hrun. unfold bind at 1 in Hrun.
    destruct (ChangeStatus_frame m Exiting) as (m' & Hcs & Hst & _).
    rewrite Hcs in Hrun. unfold bind at 1 in Hrun. unfold get_process at 1 in Hrun.
    unfold bind at 1 in Hrun.
    destruct (stop_threads (this_id (process m')) (current_thread m') (thread_list m'))
      as [threads1 ok].
    destruct ok; [|discriminate].
    rewrite ChangeStatus_changed in Hrun
      by (cbn [process set_thread_list]; rewrite Hst; discriminate).
    injection Hrun as <-. split; reflexivity. }
  destruct Hstate as [Hst Hsig].
  split; [exact Hst|]. split; [exact Hsig|]. split; [|split].
  - rewrite ClearSignalState_cases, Hst. reflexivity.
  - unfold ShouldWait, bind, get_process, ret. rewrite Hsig. reflexivity.
  - intros n. apply acquire_many_signaled. exact Hsig.
Qed.

(** X10.  Only a change of status signals.  Once the signal of a
    transition has been cleared, asking for the same status again does
    not signal the process a second time: it stays unsignaled and a
    thread asking [ShouldWait] is told to wait. *)
Theorem repeated_status_change_does_not_signal (m : Machine) (s : ProcessStatus) :
  status (process m) <> s -> s <> Exited ->
  exists m1,
    (ChangeStatus s ;; rc <- ClearSignalState ;; ChangeStatus s ;; ret rc) m
    = Done RESULT_SUCCESS m1
    /\ status (process m1) = s
    /\ is_signaled (process m1) = false
    /\ ShouldWait m1 = Done true m1.
Proof.
  intros Hchange Hlive.
  unfold bind at 1. rewrite (ChangeStatus_changed m s Hchange).
  unfold bind at 1. rewrite ClearSignalState_cases.
  cbn [process status is_signaled set_waiting_threads set_is_signaled set_status negb].
  rewrite (ProcessStatus_eqb_neq s Exited Hlive).
  cbn [set_process process].
  unfold bind at 1.
  rewrite ChangeStatus_same by reflexivity.
  eexists. split; [reflexivity|].
  split; [reflexivity|]. split; [reflexivity|]. reflexivity.
Qed.

(** X11.  [RegisterThread] keeps no check for duplicates and
    [UnregisterThread] erases every entry of the thread: after it the
    thread is not registered however often it was registered before, and
    the entries of the other threads keep their order. *)
Theorem UnregisterThread_removes_every_registration (thread : ObjectId)
    (registered : list ObjectId) :
  ~ In thread (UnregisterThread thread registered)
  /\ UnregisterThread thread (RegisterThread thread (RegisterThread thread registered))
     = UnregisterThread thread registered
  /\ (forall other, other <> thread ->
        UnregisterThread thread (RegisterThread other registered)
        = RegisterThread other (UnregisterThread thread registered)).
Proof.
  unfold UnregisterThread, RegisterThread. split; [|split].
  - intros Hin. apply filter_In in Hin. destruct Hin as [_ Hne].
    rewrite Nat.eqb_refl in Hne. discriminate.
  - rewrite !List.filter_app. cbn [List.filter]. rewrite Nat.eqb_refl. cbn [negb].
    rewrite !app_nil_r. reflexivity.
  - intros other Hne. rewrite List.filter_app. cbn [List.filter].
    destruct (Nat.eqb_spec other thread) as [Heq|_]; [contradiction|]. reflexivity.
Qed.

Lemma set_vm_manager_same (p : Process) : set_vm_manager (vm_manager p) p = p.
Proof. destruct p. reflexivity. Qed.

Lemma set_process_same (m : Machine) : set_process (process m) m = m.
Proof. destruct m. reflexivity. Qed.

Lemma range_is_free_app (vm : VMManager) (vma : VirtualMemoryArea) (target size : Z) :
  range_is_free
    (mkVMManager (address_space_type vm) (code_region_base vm)
       (tls_io_region_base vm) (tls_io_region_end vm) (vma_map vm ++ [vma]))
    target size
  = range_is_free vm target size
    && negb (ranges_intersect target size (vma_base vma) (vma_size vma)).
Proof.
  unfold range_is_free. cbn [vma_map]. rewrite forallb_app. cbn [forallb].
  rewrite andb_true_r. reflexivity.
Qed.

Lemma MapSegment_outcome (memory : list Z) (base_addr : Z) (segment : Segment)
    (permissions : VMAPermission) (memory_state : MemoryState) (m : Machine) :
  let vm := vm_manager (process m) in
  let vma := segment_region memory base_addr segment memory_state in
  MapSegment (OwnedBlock memory) base_addr segment permissions memory_state m
  = if range_is_free vm (vma_base vma) (vma_size vma) then
      Done (vma, permissions)
        (set_process (set_vm_manager (with_region vm vma) (process m)) m)
    else Failed (UnwrapOfError ERR_INVALID_ADDRESS_STATE) m.
Proof.
  intros vm vma. unfold MapSegment, bind, get_process, MapMemoryBlock.
  fold vm. cbn [vma_base vma_size vma segment_region].
  destruct (range_is_free vm (wrap64 (seg_addr segment + base_addr)) (seg_size segment)).
  - reflexivity.
  - cbn. unfold vm. rewrite set_vm_manager_same, set_process_same. reflexivity.
Qed.

(** X12.  [LoadModule] adds nothing to the code memory size.  The
    module's memory has been moved into the shared block before its size
    is read, so the size added is that of an empty vector: whenever
    [LoadModule] returns, the code memory size is what it was, after
    three [Reprotect] calls; it stops only at the [Unwrap] of a rejected
    mapping. *)
Theorem LoadModule_adds_nothing_to_code_memory_size (module_ : CodeSet)
    (base_addr code_memory_size : Z) (m : Machine) :
  0 <= code_memory_size < 2 ^ 64 ->
  match LoadModule module_ base_addr code_memory_size m with
  | Done (size, calls) _ => size = code_memory_size /\ length calls = 3%nat
  | Failed f _ => f = UnwrapOfError ERR_INVALID_ADDRESS_STATE
  end.
Proof.
  intros Hrange. unfold LoadModule.
  cbn [CodeSegment RODataSegment DataSegment cs_memory length].
  unfold bind at 1. rewrite MapSegment_outcome. cbv zeta.
  match goal with |- context [if ?c then _ else _] => destruct c end;
    [|reflexivity].
  unfold bind at 1. rewrite MapSegment_outcome. cbv zeta.
  match goal with |- context [if ?c then _ else _] => destruct c end;
    [|reflexivity].
  unfold bind at 1. rewrite MapSegment_outcome. cbv zeta.
  match goal with |- context [if ?c then _ else _] => destruct c end;
    [|reflexivity].
  unfold ret. split; [|reflexivity].
  rewrite Z.add_0_r. apply wrap64_small. exact Hrange.
Qed.

(** X13.  With the three ranges free and apart from each other,
    [LoadModule] maps the code segment as Code and the two data segments
    as CodeData, each at its address plus the base address and of its
    size, all three backed by the module's memory at the segment's
    offset, after the regions already mapped; it asks for execute,
    read-only and read-write permissions in that order and touches
    nothing else. *)
Theorem LoadModule_maps_three_segments (module_ : CodeSet)
    (base_addr code_memory_size : Z) (m : Machine) :
  let vm := vm_manager (process m) in
  let memory := cs_memory module_ in
  let code := segment_region memory base_addr (CodeSegment module_) MsCode in
  let rodata := segment_region memory base_addr (RODataSegment module_) MsCodeData in
  let data := segment_region memory base_addr (DataSegment module_) MsCodeData in
  range_is_free vm (vma_base code) (vma_size code) = true ->
  range_is_free vm (vma_base rodata) (vma_size rodata) = true ->
  range_is_free vm (vma_base data) (vma_size data) = true ->
  ranges_intersect (vma_base rodata) (vma_size rodata)
    (vma_base code) (vma_size code) = false ->
  ranges_intersect (vma_base data) (vma_size data)
    (vma_base code) (vma_size code) = false ->
  ranges_intersect (vma_base data) (vma_size data)
    (vma_base rodata) (vma_size rodata) = false ->
  exists m1,
    LoadModule module_ base_addr code_memory_size m
    = Done (wrap64 code_memory_size,
            [(code, ReadExecute); (rodata, Read); (data, ReadWrite)]) m1
    /\ vma_map (vm_manager (process m1)) = vma_map vm ++ [code; rodata; data]
    /\ tls_slots (process m1) = tls_slots (process m)
    /\ status (process m1) = status (process m)
    /\ thread_list m1 = thread_list m.
Proof.
  intros vm memory code rodata data Hcode Hro Hdata Hro_code Hdata_code Hdata_ro.
  unfold LoadModule.
  cbn [CodeSegment RODataSegment DataSegment cs_memory length].
  fold memory.
  unfold bind at 1. rewrite MapSegment_outcome. cbv zeta.
  fold vm code. rewrite Hcode.
  unfold bind at 1. rewrite MapSegment_outcome. cbv zeta.
  cbn [process set_process vm_manager set_vm_manager].
  fold rodata. unfold with_region at 1. rewrite range_is_free_app.
  rewrite Hro, Hro_code. cbn [negb andb].
  unfold bind at 1. rewrite MapSegment_outcome. cbv zeta.
  cbn [process set_process vm_manager set_vm_manager].
  fold data. unfold with_region at 1. rewrite range_is_free_app.
  unfold with_region at 1. rewrite range_is_free_app.
  rewrite Hdata, Hdata_code, Hdata_ro. cbn [negb andb].
  unfold ret. rewrite Z.add_0_r.
  eexists. split; [reflexivity|].
  cbn [process set_process vm_manager set_vm_manager with_region vma_map
       tls_slots status thread_list].
  rewrite <- !app_assoc. repeat split; reflexivity.
Qed.

(** X14.  [LoadModule] is not undone when a later segment is rejected:
    when the code segment has been mapped and the range of the read-only
    data is taken, by a region mapped before or by the code segment
    itself, the call stops at [Unwrap] with the code segment mapped and
    nothing after it. *)
Theorem LoadModule_rejected_segment_keeps_earlier_ones (module_ : CodeSet)
    (base_addr code_memory_size : Z) (m : Machine) :
  let vm := vm_manager (process m) in
  let memory := cs_memory module_ in
  let code := segment_region memory base_addr (CodeSegment module_) MsCode in
  let rodata := segment_region memory base_addr (RODataSegment module_) MsCodeData in
  range_is_free vm (vma_base code) (vma_size code) = true ->
  range_is_free vm (vma_base rodata) (vma_size rodata) = false
  \/ ranges_intersect (vma_base rodata) (vma_size rodata)
       (vma_base code) (vma_size code) = true ->
  exists m1,
    LoadModule module_ base_addr code_memory_size m
    = Failed (UnwrapOfError ERR_INVALID_ADDRESS_STATE) m1
    /\ vma_map (vm_manager (process m1)) = vma_map vm ++ [code].
Proof.
  intros vm memory code rodata Hcode Htaken.
  unfold LoadModule.
  cbn [CodeSegment RODataSegment DataSegment cs_memory length].
  fold memory.
  unfold bind at 1. rewrite MapSegment_outcome. cbv zeta.
  fold vm code. rewrite Hcode.
  unfold bind at 1. rewrite MapSegment_outcome. cbv zeta.
  cbn [process set_process vm_manager set_vm_manager].
  fold rodata. unfold with_region at 1. rewrite range_is_free_app.
  assert (Hbusy : range_is_free vm (vma_base rodata) (vma_size rodata)
                  && negb (ranges_intersect (vma_base rodata) (vma_size rodata)
                             (vma_base code) (vma_size code)) = false).
  { destruct Htaken as [-> | ->]; [reflexivity|]. apply andb_false_r. }
  rewrite Hbusy.
  eexists. split; [reflexivity|]. reflexivity.
Qed.

(** X15.  [LoadFromMetadata] always returns a result code and keeps the
    life-cycle state: status, signal, waiters, process ID, entropy, stack
    size and every thread are as before, whatever the capability parser
    and the handle table report.  The address space is replaced by an
    empty one while the TLS bitmaps are kept: pages allocated before the
    call stay marked as allocated although nothing is mapped any more. *)
Theorem LoadFromMetadata_keeps_lifecycle_state (metadata : ProgramMetadata)
    (m : Machine) :
  exists rc m1,
    LoadFromMetadata metadata m = Done rc m1
    /\ status (process m1) = status (process m)
    /\ is_signaled (process m1) = is_signaled (process m)
    /\ waiting_threads (process m1) = waiting_threads (process m)
    /\ process_id (process m1) = process_id (process m)
    /\ random_entropy (process m1) = random_entropy (process m)
    /\ main_thread_stack_size (process m1) = main_thread_stack_size (process m)
    /\ tls_slots (process m1) = tls_slots (process m)
    /\ vma_map (vm_manager (process m1)) = []
    /\ thread_list m1 = thread_list m
    /\ current_thread m1 = current_thread m.
Proof.
  unfold LoadFromMetadata, bind, modify_process, get_process, ret.
  cbn [process set_process set_program_id set_ideal_core set_is_64bit_process
       set_vm_manager vm_manager capabilities handle_table].
  destruct (InitializeForUserProcess (GetKernelCapabilities metadata)
              (VMManager_Reset (GetAddressSpaceType metadata))
              (capabilities (process m))) as [capability_init_result capabilities1].
  destruct (VMManager_Reset_type (GetAddressSpaceType metadata)) as [_ Hempty].
  destruct (IsError capability_init_result).
  - eexists. eexists. split; [reflexivity|].
    cbn. repeat split; try reflexivity. exact Hempty.
  - destruct (HandleTable_SetSize (GetHandleTableSize capabilities1)
                (handle_table (process m))) as [result handle_table1].
    eexists. eexists. split; [reflexivity|].
    cbn. repeat split; try reflexivity. exact Hempty.
Qed.

Lemma range_is_free_with_region (vm : VMManager) (vma : VirtualMemoryArea)
    (target size : Z) :
  range_is_free (with_region vm vma) target size
  = range_is_free vm target size
    && negb (ranges_intersect target size (vma_base vma) (vma_size vma)).
Proof. apply range_is_free_app. Qed.

(** The address space a successful [Run] leaves. *)
Lemma Run_done_vm_manager (m m1 : Machine) (main_thread_priority stack_size : Z) :
  let vm := vm_manager (process m) in
  let size := AlignUp stack_size PAGE_SIZE in
  let mapping_address := wrap64 (GetTLSIORegionEndAddress vm - size) in
  let stack :=
    mkVMA mapping_address size (OwnedBlock (repeat 0 (Z.to_nat size))) 0 MsStack in
  Run main_thread_priority stack_size m = Done tt m1 ->
  vm_manager (process m1) = with_region vm stack
  /\ status (process m1) = Running.
Proof.
  intros vm size mapping_address stack Hrun.
  pose proof (Run_status m main_thread_priority stack_size) as Hstatus.
  rewrite Hrun in Hstatus. split; [|exact Hstatus].
  revert Hrun.
  unfold Run. unfold bind at 1. unfold modify_process at 1.
  unfold bind at 1. unfold get_process at 1.
  cbn [process set_process set_main_thread_stack_size main_thread_stack_size
       vm_manager].
  fold vm size mapping_address.
  unfold MapMemoryBlock.
  destruct (range_is_free vm mapping_address size).
  - unfold bind at 1. unfold modify_process at 1.
    unfold bind at 1. unfold Unwrap at 1. unfold ret at 1.
    unfold bind at 1.
    match goal with
    | |- context [ChangeStatus Running ?m0] =>
        destruct (ChangeStatus_frame m0 Running)
          as (m2 & Hcs & Hst & Hvm & _)
    end.
    rewrite Hcs.
    destruct (SetupMainThread_result m2 (to_u32 main_thread_priority))
      as (others & Hothers & Hsetup).
    cbv zeta in Hsetup. rewrite Hsetup.
    intros Hdone. injection Hdone as <-.
    cbn [process set_handle_table vm_manager]. rewrite Hvm. reflexivity.
  - unfold bind at 1. unfold modify_process at 1.
    unfold bind at 1. unfold Unwrap at 1. unfold fail_with. discriminate.
Qed.

(** X16.  [Run] cannot be repeated.  After a [Run] that returned, a
    second [Run] with the same stack size asks for the very range the
    first one mapped, is rejected by the address space and stops at
    [Unwrap]: no second stack, no second main thread, and the status
    stays Running. *)
Theorem Run_twice_is_rejected (m m1 : Machine)
    (main_thread_priority main_thread_priority' stack_size : Z) :
  0 < AlignUp stack_size PAGE_SIZE ->
  Run main_thread_priority stack_size m = Done tt m1 ->
  exists m2,
    Run main_thread_priority' stack_size m1
    = Failed (UnwrapOfError ERR_INVALID_ADDRESS_STATE) m2
    /\ status (process m2) = Running
    /\ vm_manager (process m2) = vm_manager (process m1)
    /\ thread_list m2 = thread_list m1.
Proof.
  intros Hsize Hrun.
  destruct (Run_done_vm_manager m m1 main_thread_priority stack_size Hrun)
    as [Hvm Hst].
  destruct (Run_outcome m1 main_thread_priority' stack_size) as [_ Hbusy].
  cbv zeta in Hbusy.
  destruct Hbusy as (m2 & Hfail & Hst2 & Hvm2 & Hthreads).
  - rewrite Hvm. rewrite range_is_free_with_region.
    unfold GetTLSIORegionEndAddress.
    cbn [vma_base vma_size with_region tls_io_region_end].
    replace (ranges_intersect
               (wrap64 (tls_io_region_end (vm_manager (process m))
                        - AlignUp stack_size PAGE_SIZE))
               (AlignUp stack_size PAGE_SIZE)
               (wrap64 (tls_io_region_end (vm_manager (process m))
                        - AlignUp stack_size PAGE_SIZE))
               (AlignUp stack_size PAGE_SIZE)) with true.
    + apply andb_false_r.
    + unfold ranges_intersect. symmetry. apply andb_true_intro.
      split; apply Z.ltb_lt; lia.
  - exists m2. split; [exact Hfail|]. split; [congruence|].
    split; [exact Hvm2 | exact Hthreads].
Qed.

(** X17.  A thread of the process that waits on the process itself
    makes [PrepareForTermination] fail.  The change to Exiting wakes
    every waiter, so a thread of this process that was waiting on it,
    other than the calling one, is runnable when the loop comes to it,
    and the assertion that it waits for synchronisation fails: the call
    stops with the process Exiting and signaled. *)
Theorem PrepareForTermination_fails_on_own_waiter (m : Machine) (t : Thread) :
  status (process m) <> Exiting ->
  In t (thread_list m) ->
  to_be_stopped (this_id (process m)) (current_thread m) t = true ->
  is_waiting (waiting_threads (process m)) t = true ->
  exists m1,
    PrepareForTermination m
    = Failed (AssertionFailed
                "Exiting processes with non-waiting threads is currently unimplemented")
        m1
    /\ status (process m1) = Exiting
    /\ is_signaled (process m1) = true.
Proof.
  intros Hstatus Hin Hstop Hwaits.
  unfold PrepareForTermination. unfold bind at 1.
  rewrite (ChangeStatus_changed m Exiting Hstatus).
  unfold bind at 1. unfold get_process at 1. unfold bind at 1.
  cbn [process thread_list current_thread].
  change (this_id (set_waiting_threads []
                     (set_is_signaled true (set_status Exiting (process m)))))
    with (this_id (process m)).
  pose proof (stop_threads_not_waiting (this_id (process m)) (current_thread m)
                (map (fun t0 => if is_waiting (waiting_threads (process m)) t0
                                then ResumeFromWait t0 else t0) (thread_list m)))
    as Hloop.
  destruct (stop_threads (this_id (process m)) (current_thread m)
              (map (fun t0 => if is_waiting (waiting_threads (process m)) t0
                              then ResumeFromWait t0 else t0) (thread_list m)))
    as [threads1 ok].
  cbn [snd] in Hloop. rewrite Hloop.
  - eexists. split; [reflexivity|]. split; reflexivity.
  - apply Exists_exists. exists (ResumeFromWait t). split.
    + apply list_elem_of_In. apply in_map_iff. exists t.
      rewrite Hwaits. split; [reflexivity | exact Hin].
    + split; [|discriminate].
      unfold to_be_stopped, is_current in *.
      destruct (current_thread m); exact Hstop.
Qed.

End ProcessProofs.

(** ** Applet data broker and applet manager *)

Section AppletProofs.
Import Applets.

Lemma pop_many_queue
    (pop : AppletDataBroker -> option IStorage * AppletDataBroker)
    (channel : AppletDataBroker -> list IStorage)
    (set_channel : list IStorage -> AppletDataBroker -> AppletDataBroker) :
  (forall b, pop b = match channel b with
                     | [] => (None, b)
                     | out :: rest => (Some out, set_channel rest b)
                     end) ->
  (forall v b, channel (set_channel v b) = v) ->
  forall (queue : list IStorage) (extra : nat) (b : AppletDataBroker),
    channel b = queue ->
    fst (pop_many pop (length queue + extra) b) = map Some queue ++ repeat None extra
    /\ channel (snd (pop_many pop (length queue + extra) b)) = [].
Proof.
  intros Hpop Hset queue. induction queue as [|s queue IH]; intros extra b Hb.
  - cbn [length Nat.add map app]. revert b Hb.
    induction extra as [|extra IHe]; intros b Hb; [split; [reflexivity|exact Hb]|].
    cbn [pop_many repeat]. rewrite Hpop, Hb.
    destruct (IHe b Hb) as [Houts Hleft].
    destruct (pop_many pop extra b) as [outs b2]. cbn [fst snd] in *.
    split; [rewrite Houts; reflexivity | exact Hleft].
  - cbn [length Nat.add map app pop_many]. rewrite Hpop, Hb.
    destruct (IH extra (set_channel queue b) (Hset queue b)) as [Houts Hleft].
    destruct (pop_many pop (length queue + extra) (set_channel queue b)) as [outs b2].
    cbn [fst snd] in *.
    split; [rewrite Houts; reflexivity | exact Hleft].
Qed.

Lemma push_all_queue
    (push : IStorage -> AppletDataBroker -> AppletDataBroker)
    (channel : AppletDataBroker -> list IStorage) :
  (forall s b, channel (push s b) = channel b ++ [s]) ->
  forall (storages : list IStorage) (b : AppletDataBroker),
    channel (push_all push storages b) = channel b ++ storages.
Proof.
  intros Hpush storages. unfold push_all.
  induction storages as [|s storages IH]; intros b.
  - cbn [fold_left]. rewrite app_nil_r. reflexivity.
  - cbn [fold_left]. rewrite IH, Hpush, <- app_assoc. reflexivity.
Qed.

Lemma channel_fifo
    (push : IStorage -> AppletDataBroker -> AppletDataBroker)
    (pop : AppletDataBroker -> option IStorage * AppletDataBroker)
    (channel : AppletDataBroker -> list IStorage)
    (set_channel : list IStorage -> AppletDataBroker -> AppletDataBroker) :
  (forall b, pop b = match channel b with
                     | [] => (None, b)
                     | out :: rest => (Some out, set_channel rest b)
                     end) ->
  (forall v b, channel (set_channel v b) = v) ->
  (forall s b, channel (push s b) = channel b ++ [s]) ->
  forall (storages : list IStorage) (extra : nat) (b : AppletDataBroker),
    fst (pop_many pop (length (channel b) + length storages + extra)
           (push_all push storages b))
    = map Some (channel b ++ storages) ++ repeat None extra.
Proof.
  intros Hpop Hset Hpush storages extra b.
  rewrite <- length_app.
  apply (pop_many_queue pop channel set_channel Hpop Hset).
  apply push_all_queue. exact Hpush.
Qed.

(** X18.  Each of the four channels of the broker is a queue of its own:
    storages pushed on a channel come out of the matching pop in the
    order they went in, after those that were already waiting, and once
    the channel is empty every further pop returns a null pointer. *)
Theorem channels_deliver_in_push_order (storages : list IStorage) (extra : nat)
    (b : AppletDataBroker) :
  fst (pop_many PopNormalDataToApplet
         (length (in_channel b) + length storages + extra)
         (push_all PushNormalDataFromGame storages b))
  = map Some (in_channel b ++ storages) ++ repeat None extra
  /\ fst (pop_many PopNormalDataToGame
            (length (out_channel b) + length storages + extra)
            (push_all PushNormalDataFromApplet storages b))
     = map Some (out_channel b ++ storages) ++ repeat None extra
  /\ fst (pop_many PopInteractiveDataToApplet
            (length (in_interactive_channel b) + length storages + extra)
            (push_all PushInteractiveDataFromGame storages b))
     = map Some (in_interactive_channel b ++ storages) ++ repeat None extra
  /\ fst (pop_many PopInteractiveDataToGame
            (length (out_interactive_channel b) + length storages + extra)
            (push_all PushInteractiveDataFromApplet storages b))
     = map Some (out_interactive_channel b ++ storages) ++ repeat None extra.
Proof.
  split; [|split; [|split]].
  - apply (channel_fifo PushNormalDataFromGame PopNormalDataToApplet
             in_channel set_in_channel); reflexivity.
  - apply (channel_fifo PushNormalDataFromApplet PopNormalDataToGame
             out_channel set_out_channel); reflexivity.
  - apply (channel_fifo PushInteractiveDataFromGame PopInteractiveDataToApplet
             in_interactive_channel set_in_interactive_channel); reflexivity.
  - apply (channel_fifo PushInteractiveDataFromApplet PopInteractiveDataToGame
             out_interactive_channel set_out_interactive_channel); reflexivity.
Qed.

Lemma pop_many_keeps
    (pop : AppletDataBroker -> option IStorage * AppletDataBroker)
    (A : Type) (observe : AppletDataBroker -> A) :
  (forall b, observe (snd (pop b)) = observe b) ->
  forall (n : nat) (b : AppletDataBroker),
    observe (snd (pop_many pop n b)) = observe b.
Proof.
  intros Hpop n. induction n as [|n IH]; intros b; [reflexivity|].
  cbn [pop_many]. specialize (Hpop b). destruct (pop b) as [out b1].
  specialize (IH b1). destruct (pop_many pop n b1) as [outs b2].
  cbn [snd] in *. congruence.
Qed.

Lemma PopNormalDataToGame_events (b : AppletDataBroker) :
  events (snd (PopNormalDataToGame b)) = events b.
Proof. unfold PopNormalDataToGame. destruct (out_channel b); reflexivity. Qed.

Lemma PopInteractiveDataToGame_events (b : AppletDataBroker) :
  events (snd (PopInteractiveDataToGame b)) = events b.
Proof.
  unfold PopInteractiveDataToGame. destruct (out_interactive_channel b); reflexivity.
Qed.

(** X19.  The data events are signaled by the pushes of the applet and
    reset by nothing in the broker: after the applet has pushed a
    storage, the event of that channel stays signaled through any number
    of pops by the game, also when the pops have emptied the channel. *)
Theorem data_event_outlives_the_data (storage : IStorage) (n : nat)
    (b : AppletDataBroker) :
  let normal :=
    snd (pop_many PopNormalDataToGame (length (out_channel b) + 1 + n)
           (PushNormalDataFromApplet storage b)) in
  let interactive :=
    snd (pop_many PopInteractiveDataToGame
           (length (out_interactive_channel b) + 1 + n)
           (PushInteractiveDataFromApplet storage b)) in
  (out_channel normal = [] /\ GetNormalDataEvent normal = true)
  /\ (out_interactive_channel interactive = []
      /\ GetInteractiveDataEvent interactive = true).
Proof.
  cbv zeta. split; split.
  - replace (length (out_channel b) + 1)%nat
      with (length (out_channel (PushNormalDataFromApplet storage b)))
      by (cbn; rewrite length_app; reflexivity).
    apply (pop_many_queue PopNormalDataToGame out_channel set_out_channel);
      reflexivity.
  - unfold GetNormalDataEvent.
    pose proof (pop_many_keeps PopNormalDataToGame _ events
                  PopNormalDataToGame_events
                  (length (out_channel b) + 1 + n)
                  (PushNormalDataFromApplet storage b)) as Hkeep.
    unfold events at 1 in Hkeep. injection Hkeep as _ Hevent _.
    rewrite Hevent. reflexivity.
  - replace (length (out_interactive_channel b) + 1)%nat
      with (length (out_interactive_channel
                      (PushInteractiveDataFromApplet storage b)))
      by (cbn; rewrite length_app; reflexivity).
    apply (pop_many_queue PopInteractiveDataToGame out_interactive_channel
             set_out_interactive_channel); reflexivity.
  - unfold GetInteractiveDataEvent.
    pose proof (pop_many_keeps PopInteractiveDataToGame _ events
                  PopInteractiveDataToGame_events
                  (length (out_interactive_channel b) + 1 + n)
                  (PushInteractiveDataFromApplet storage b)) as Hkeep.
    unfold events at 1 in Hkeep. injection Hkeep as _ _ Hevent.
    rewrite Hevent. reflexivity.
Qed.

(** X20.  [Applet::Initialize] takes a storage off the channel from the
    game before it knows whether it can use it.  After the game has
    pushed a storage on an empty channel, [Initialize] copies the first
    [sizeof(CommonArguments)] bytes of it into the arguments and sets
    the initialized flag, if the storage is that long; if it is
    shorter, the assertion on the size fails with the storage gone: the
    applet and its broker are exactly as they were before the push.
    Nothing looks at the initialized flag first. *)
Theorem Initialize_takes_the_pushed_storage (sizeof_CommonArguments : nat)
    (a : Applet) (storage : IStorage) :
  in_channel (broker a) = [] ->
  Initialize sizeof_CommonArguments
    (mkApplet (PushNormalDataFromGame storage (broker a))
       (common_args a) (initialized a))
  = if (sizeof_CommonArguments <=? length storage)%nat then
      Initialized (mkApplet (broker a) (take sizeof_CommonArguments storage) true)
    else AssertFailed a.
Proof.
  destruct a as [[inc outc inic outic sce pode piode] args init].
  cbn [broker in_channel]. intros ->.
  unfold Initialize, PopNormalDataToApplet, PushNormalDataFromGame.
  cbn [broker in_channel set_in_channel common_args initialized app
       out_channel in_interactive_channel out_interactive_channel
       state_changed_event pop_out_data_event pop_interactive_out_data_event].
  reflexivity.
Qed.

(** X21.  [SetDefaultAppletsIfMissing] leaves no frontend pointer null
    and replaces none that was set: every pointer that was not null is
    what it was, a second call changes nothing, and afterwards
    [GetApplet] dereferences no null pointer for any id. *)
Theorem SetDefaultAppletsIfMissing_fills_and_keeps (am : AppletManager) :
  let am1 := SetDefaultAppletsIfMissing am in
  Forall (fun p => p <> None) (pointers (frontend am1))
  /\ Forall2 (fun before after => before <> None -> after = before)
       (pointers (frontend am)) (pointers (frontend am1))
  /\ SetDefaultAppletsIfMissing am1 = am1
  /\ forall id, GetApplet id am1 <> NullDereference.
Proof.
  destruct am as [[e pv ps sk wb]]. cbv zeta.
  unfold SetDefaultAppletsIfMissing, pointers.
  cbn [frontend error photo_viewer profile_select software_keyboard web_browser].
  split; [|split; [|split]].
  - repeat constructor; match goal with |- default_if_missing ?p <> None =>
      destruct p; discriminate end.
  - repeat constructor; match goal with |- ?p <> None -> _ =>
      destruct p; [reflexivity | intros H; contradiction] end.
  - destruct e, pv, ps, sk, wb; reflexivity.
  - intros id. destruct id; cbn;
      match goal with
      | |- dereference _ (default_if_missing ?p) <> _ => destruct p; discriminate
      | |- _ => discriminate
      end.
Qed.

(** X22.  [SetAppletFrontendSet] merges: a pointer of the given set that
    is not null replaces the manager's, a null one leaves the manager's
    as it was, so no call can make a frontend missing.  With the
    defaults filled in afterwards, as [System::Init] does, [GetApplet]
    builds each backend over the frontend of the given set if there is
    one, else over the one the manager had, else over the default. *)
Theorem GetApplet_prefers_provided_frontends (set : AppletFrontendSet)
    (am : AppletManager) (id : AppletId) :
  GetApplet id (SetDefaultAppletsIfMissing (SetAppletFrontendSet set am))
  = match GetApplet id (mkAppletManager set) with
    | NullDereference =>
        match GetApplet id am with
        | NullDereference => GetApplet id (SetDefaultAppletFrontendSet am)
        | made => made
        end
    | made => made
    end.
Proof.
  destruct set as [e pv ps sk wb], am as [[e' pv' ps' sk' wb']].
  destruct id; cbn; try reflexivity;
    match goal with
    | |- dereference _ (default_if_missing (move_if_set ?p ?q)) = _ =>
        destruct p, q; reflexivity
    end.
Qed.

(** X23.  After [ClearAll], and in a manager nothing has been set in,
    the frontend pointers are null and [GetApplet] dereferences one for
    every id that has a backend; no call of [SetAppletFrontendSet] with
    an empty set mends that. *)
Theorem GetApplet_after_ClearAll_dereferences_null (am : AppletManager)
    (id : AppletId) :
  has_backend id = true ->
  GetApplet id (ClearAll am) = NullDereference
  /\ GetApplet id
       (SetAppletFrontendSet (mkAppletFrontendSet None None None None None)
          (ClearAll am)) = NullDereference.
Proof.
  intros Hid. destruct id; try discriminate; split; reflexivity.
Qed.

End AppletProofs.

(** ** Game files and the system session *)

Section CoreProofs.
Import Core.
Context {File AppLoader LoaderResult : Type}.

Lemma collect_parts_seq (dir : VfsDirectory File) (n start : nat) :
  let parts := collect_parts dir (seq start n) in
  (length parts <= n)%nat
  /\ (forall k, (k < length parts)%nat -> parts !! k = next_part dir (start + k))
  /\ ((length parts < n)%nat -> next_part dir (start + length parts) = None).
Proof.
  revert start. induction n as [|n IH]; intros start; cbn [seq collect_parts].
  - cbn. split; [lia|]. split; [intros k Hk; lia | intros Hn; lia].
  - destruct (next_part dir start) as [next|] eqn:Hnext.
    + destruct (IH (S start)) as (Hlen & Hparts & Hgap). cbv zeta in *.
      cbn [length]. split; [lia|]. split.
      * intros [|k] Hk.
        -- rewrite Nat.add_0_r, Hnext. reflexivity.
        -- cbn [lookup list_lookup]. fold (@lookup _ _ _ (@list_lookup File)).
           replace (start + S k)%nat with (S start + k)%nat by lia.
           apply Hparts. lia.
      * intros Hn. replace (start + S (length (collect_parts dir (seq (S start) n))))%nat
          with (S start + length (collect_parts dir (seq (S start) n)))%nat by lia.
        apply Hgap. lia.
    + cbn [length]. split; [lia|]. split; [intros k Hk; lia|].
      intros _. rewrite Nat.add_0_r. exact Hnext.
Qed.

(** X24.  The parts of a split game file are collected from 00 upwards
    and the collection stops at the first index for which the directory
    has neither the upper-case nor the lower-case name: the k-th part is
    the file the k-th index names, upper case first; a part behind a gap
    and a part beyond 0F are never taken, so there are at most sixteen. *)
Theorem split_parts_stop_at_the_first_gap (dir : VfsDirectory File) :
  let parts := collect_parts dir (seq 0 16) in
  (length parts <= 16)%nat
  /\ (forall k, (k < length parts)%nat -> parts !! k = next_part dir k)
  /\ ((length parts < 16)%nat -> next_part dir (length parts) = None)
  /\ (forall k, GetFile dir (format_02X k) <> None ->
        next_part dir k = GetFile dir (format_02X k)).
Proof.
  destruct (collect_parts_seq dir 16 0) as (Hlen & Hparts & Hgap).
  cbv zeta in *. split; [exact Hlen|]. split; [|split].
  - intros k Hk. apply (Hparts k Hk).
  - intros Hn. apply (Hgap Hn).
  - intros k Hupper. unfold next_part.
    destruct (GetFile dir (format_02X k)); [reflexivity | contradiction].
Qed.

Section WithHost.
Variable SplitPath : string -> string * string.
Variable IsDirectory : string -> bool.

(** X25.  For a path whose file name is 00 the result depends on part
    00 alone: without it the call returns a null pointer, whatever other
    parts the directory holds, and with it the call returns the
    concatenation of the collected parts under the directory's name.
    When the directory cannot be opened, [GetFile] is called through the
    null pointer. *)
Theorem GetGameFileFromPath_of_split_file (vfs : VfsFilesystem File)
    (path dir_name : string) :
  SplitPath path = (dir_name, "00"%string) ->
  GetGameFileFromPath SplitPath IsDirectory (Some vfs) path
  = match OpenDirectory vfs dir_name with
    | None => NullPointerDereference
    | Some dir =>
        match next_part dir 0 with
        | None => Returned None
        | Some first =>
            Returned
              (Some (MakeConcatenatedFile
                       (first :: collect_parts dir (seq 1 15)) (GetName dir)))
        end
    end.
Proof.
  intros Hsplit. unfold GetGameFileFromPath. rewrite Hsplit.
  cbn [String.eqb Ascii.eqb Bool.eqb]. cbn.
  destruct (OpenDirectory vfs dir_name) as [dir|]; [|reflexivity].
  destruct (next_part dir 0); reflexivity.
Qed.

Variable RealVfsFilesystem : VfsFilesystem File.
Variable GetLoader : option (GameFile File) -> option AppLoader.
Variable AppLoader_Load : AppLoader -> LoaderResult * option (Z * Z).
Variable is_Success : LoaderResult -> bool.

(** X26.  [Load] reads the game file through the file system pointer
    before [Init] has put the default file system in its place: on a
    system no file system has been set in, [Load] calls a member
    function through the null pointer for every path, before anything is
    initialized. *)
Theorem Load_needs_a_file_system (renderer_ok : bool) (custom_rtc : option Z)
    (current_time : Z) (filepath : string) (s : Impl File AppLoader LoaderResult) :
  virtual_filesystem s = None ->
  Load SplitPath IsDirectory RealVfsFilesystem GetLoader AppLoader_Load is_Success
    renderer_ok custom_rtc current_time filepath s
  = DereferencesNull s.
Proof.
  intros Hnull. unfold Load, GetGameFileFromPath. rewrite Hnull.
  destruct (SplitPath filepath) as [dir_name filename].
  destruct (String.eqb filename "00"); [reflexivity|].
  destruct (IsDirectory filepath); reflexivity.
Qed.

(** X27.  When no loader is found for the file, [Load] returns
    ErrorGetLoader at once: [Init] is not run and [Shutdown] is not
    either, no call is made into another part of the emulator, and apart
    from the loader pointer, now null, the system is as it was. *)
Theorem Load_without_loader_starts_nothing (renderer_ok : bool)
    (custom_rtc : option Z) (current_time : Z) (filepath : string)
    (file : option (GameFile File)) (s : Impl File AppLoader LoaderResult) :
  GetGameFileFromPath SplitPath IsDirectory (virtual_filesystem s) filepath
  = Returned file ->
  GetLoader file = None ->
  Load SplitPath IsDirectory RealVfsFilesystem GetLoader AppLoader_Load is_Success
    renderer_ok custom_rtc current_time filepath s
  = Returns ErrorGetLoader (set_app_loader None s)
  /\ calls (set_app_loader None s) = calls s
  /\ applet_manager (set_app_loader None s) = applet_manager s
  /\ is_powered_on (set_app_loader None s) = is_powered_on s.
Proof.
  intros Hfile Hloader. unfold Load. rewrite Hfile, Hloader.
  repeat split; reflexivity.
Qed.

Lemma Shutdown_of_live_session (s : Impl File AppLoader LoaderResult) :
  telemetry_session s = true ->
  exists s1,
    Shutdown s = Returns tt s1
    /\ session_closed s1
    /\ virtual_filesystem s1 = virtual_filesystem s
    /\ content_provider s1 = content_provider s
    /\ applet_manager s1 = Applets.ClearAll (applet_manager s)
    /\ status s1 = status s.
Proof.
  intros Hlive. unfold Shutdown.
  cbn [call telemetry_session]. rewrite Hlive. cbn [negb].
  eexists. split; [reflexivity|].
  unfold session_closed. cbn. repeat split; reflexivity.
Qed.

Lemma Init_opens_session (renderer_ok : bool) (custom_rtc : option Z)
    (current_time : Z) (s : Impl File AppLoader LoaderResult) :
  let r := Init RealVfsFilesystem renderer_ok custom_rtc current_time s in
  fst r = (if renderer_ok then Success else ErrorVideoCore)
  /\ telemetry_session (snd r) = true
  /\ virtual_filesystem (snd r) <> None
  /\ content_provider (snd r) = true
  /\ app_loader (snd r) = app_loader s
  /\ applet_manager (snd r) = Applets.SetDefaultAppletsIfMissing (applet_manager s).
Proof.
  unfold Init. destruct renderer_ok; cbn;
    (repeat split; try reflexivity);
    destruct (virtual_filesystem s); discriminate.
Qed.

(** X28.  A [Load] that fails after the loader was found, because the
    renderer cannot be initialized or because the loader reports an
    error, shuts the session down before it returns the error: every
    pointer of the session is null again and the system is not powered
    on.  The file system and the content provider stay.  The frontend
    applets do not: also those the caller had set before [Load] are
    gone, and [GetApplet] dereferences a null pointer for every id that
    has a backend. *)
Theorem failed_Load_closes_the_session (renderer_ok : bool)
    (custom_rtc : option Z) (current_time : Z) (filepath : string)
    (file : option (GameFile File)) (loader : AppLoader)
    (s : Impl File AppLoader LoaderResult) :
  GetGameFileFromPath SplitPath IsDirectory (virtual_filesystem s) filepath
  = Returned file ->
  GetLoader file = Some loader ->
  renderer_ok = false \/ is_Success (fst (AppLoader_Load loader)) = false ->
  exists s1,
    Load SplitPath IsDirectory RealVfsFilesystem GetLoader AppLoader_Load is_Success
      renderer_ok custom_rtc current_time filepath s
    = Returns (if renderer_ok then ErrorLoader_plus (fst (AppLoader_Load loader))
               else ErrorVideoCore) s1
    /\ session_closed s1
    /\ virtual_filesystem s1 <> None
    /\ content_provider s1 = true
    /\ forall id, Applets.has_backend id = true ->
         Applets.GetApplet id (applet_manager s1) = Applets.NullDereference.
Proof.
  intros Hfile Hloader Hfails. unfold Load. rewrite Hfile.
  cbn [app_loader set_app_loader]. rewrite Hloader.
  pose proof (Init_opens_session renderer_ok custom_rtc current_time
                (set_app_loader (Some loader) s)) as Hinit.
  cbv zeta in Hinit.
  destruct (Init RealVfsFilesystem renderer_ok custom_rtc current_time
              (set_app_loader (Some loader) s)) as [init_result s0].
  cbn [fst snd] in Hinit.
  destruct Hinit as (Hresult & Hlive & Hvfs & Hprovider & _ & _).
  assert (Hclosed : forall s' : Impl File AppLoader LoaderResult,
            telemetry_session s' = true ->
            virtual_filesystem s' = virtual_filesystem s0 ->
            content_provider s' = content_provider s0 ->
            exists s1,
              Shutdown s' = Returns tt s1
              /\ session_closed s1
              /\ virtual_filesystem s1 <> None
              /\ content_provider s1 = true
              /\ forall id, Applets.has_backend id = true ->
                   Applets.GetApplet id (applet_manager s1)
                   = Applets.NullDereference).
  { intros s' Hlive' Hvfs' Hprovider'.
    destruct (Shutdown_of_live_session s' Hlive')
      as (s1 & Hshut & Hcl & Hv & Hp & Ha & _).
    exists s1. split; [exact Hshut|]. split; [exact Hcl|].
    split; [congruence|]. split; [congruence|].
    intros id Hid. rewrite Ha. destruct id; try discriminate; reflexivity. }
  destruct renderer_ok; subst init_result.
  - destruct Hfails as [Hno | Hload]; [discriminate|].
    destruct (AppLoader_Load loader) as [load_result load_parameters].
    cbn [fst] in Hload |- *. rewrite Hload. cbn [negb].
    match goal with
    | |- context [Shutdown ?s'] =>
        destruct (Hclosed s') as (s1 & Hshut & Hrest);
          [exact Hlive | reflexivity | reflexivity |]
    end.
    rewrite Hshut. exists s1. split; [reflexivity | exact Hrest].
  - destruct (Hclosed s0 Hlive eq_refl eq_refl) as (s1 & Hshut & Hrest).
    rewrite Hshut. exists s1. split; [reflexivity | exact Hrest].
Qed.

(** X29.  [Shutdown] cannot be repeated: it resets the telemetry session
    and starts by using it, so after a [Shutdown] that returned, the
    next one calls a member function through the null pointer, after
    the performance counters have been read once more. *)
Theorem Shutdown_twice_dereferences_null (s s1 : Impl File AppLoader LoaderResult) :
  Shutdown s = Returns tt s1 ->
  Shutdown s1 = DereferencesNull (call GetAndResetPerfStats s1).
Proof.
  unfold Shutdown at 1. cbn [call telemetry_session].
  destruct (telemetry_session s); cbn [negb]; [|discriminate].
  intros Hdone. injection Hdone as <-. reflexivity.
Qed.

End WithHost.
End CoreProofs.

(** * The further properties on concrete machines *)

(** ** Allocation and release of slots *)


Lemma switch_memory_ok : MemoryConstantsOk (H := switch_memory).
Proof. split; cbn; lia. Qed.

(** X2 with twenty allocations after page 0 was left with two slots in
    use. *)
Lemma allocations_return_distinct_addresses_witness :
  NoDup (allocate_many (MC := switch_memory) 20 (demo_thread 7%nat 81%nat Dormant)
           (demo_machine_with_slots [5]))
  /\ length (allocate_many (MC := switch_memory) 20 (demo_thread 7%nat 81%nat Dormant)
               (demo_machine_with_slots [5])) = 20%nat.
Proof.
  apply (allocations_return_distinct_addresses (MC := switch_memory) 20
           (demo_machine_with_slots [5]) (demo_thread 7%nat 81%nat Dormant)
           switch_memory_ok).
  cbn. lia.
Defined.

(** X3: slot 1 of a page with slots 0 and 2 in use is freed again. *)
Lemma FreeTLSSlot_of_free_slot_is_silent_witness :
  FreeTLSSlot (MC := switch_memory) 0x10000200 (demo_machine_with_slots [5])
  = Done tt (demo_machine_with_slots [5]).
Proof.
  apply (FreeTLSSlot_of_free_slot_is_silent (MC := switch_memory)
           (demo_machine_with_slots [5]) 0 1 5 switch_memory_ok).
  - reflexivity.
  - lia.
  - reflexivity.
  - cbn. lia.
Defined.

(** X4: an address in the middle of slot 2 of page 0. *)
Lemma FreeTLSSlot_ignores_offset_in_slot_witness :
  FreeTLSSlot (MC := switch_memory) 0x100004ff (demo_machine_with_slots [5])
  = FreeTLSSlot (MC := switch_memory) 0x10000400 (demo_machine_with_slots [5]).
Proof.
  apply (FreeTLSSlot_ignores_offset_in_slot (MC := switch_memory)
           (demo_machine_with_slots [5]) 0 2 0xff switch_memory_ok).
  - lia.
  - cbn. lia.
  - cbn. lia.
Defined.

(** X5: with room in page 0 the two calls cancel; with page 0 full they
    leave a second, empty page. *)
Lemma allocate_then_free_keeps_created_page_witness :
  (r <- MarkNextAvailableTLSSlotAsUsed (MC := switch_memory)
          (demo_thread 7%nat 81%nat Dormant) ;;
   FreeTLSSlot (MC := switch_memory) (fst r)) (demo_machine_with_slots [5])
  = Done tt (demo_machine_with_slots [5])
  /\ tls_slots
       (process
          (final
             ((r <- MarkNextAvailableTLSSlotAsUsed (MC := switch_memory)
                      (demo_thread 7%nat 81%nat Dormant) ;;
               FreeTLSSlot (MC := switch_memory) (fst r))
                (demo_machine_with_slots [255]))))
     = [255; 0].
Proof.
  split.
  - apply (proj1 (allocate_then_free_keeps_created_page (MC := switch_memory)
                    (demo_machine_with_slots [5]) (demo_thread 7%nat 81%nat Dormant)
                    switch_memory_ok ltac:(vm_compute; discriminate))).
    intros Hfull. inversion Hfull as [|? ? Hfive _]; subst. discriminate.
  - rewrite (proj2 (allocate_then_free_keeps_created_page (MC := switch_memory)
                      (demo_machine_with_slots [255])
                      (demo_thread 7%nat 81%nat Dormant)
                      switch_memory_ok ltac:(vm_compute; discriminate))).
    + reflexivity.
    + constructor; [reflexivity | constructor].
Defined.

(** X6: an address in the last slot of page 0, and one in a page that
    does not exist. *)
Lemma FreeTLSSlot_accepts_every_address_in_a_page_witness :
  (exists b1,
     FreeTLSSlot (MC := switch_memory) 0x10000fff (demo_machine_with_slots [255])
     = Done tt (demo_machine_with_slots [b1]))
  /\ FreeTLSSlot (MC := switch_memory) 0x10001000 (demo_machine_with_slots [255])
     = Failed UncheckedIndexPastEnd (demo_machine_with_slots [255]).
Proof.
  split.
  - destruct (FreeTLSSlot_accepts_every_address_in_a_page (MC := switch_memory)
                (demo_machine_with_slots [255]) 0x10000fff eq_refl eq_refl)
      as (Hin & _ & _).
    destruct (Hin ltac:(vm_compute; lia)) as (b1 & Hrun).
    exists b1. exact Hrun.
  - destruct (FreeTLSSlot_accepts_every_address_in_a_page (MC := switch_memory)
                (demo_machine_with_slots [255]) 0x10001000 eq_refl eq_refl)
      as (_ & Hout & _).
    apply Hout. vm_compute. lia.
Defined.

(** ** Signal state, registration and loading *)

(** X9 at a Running process with a thread that waits for something
    else, terminated from its thread 1. *)
Lemma exited_process_stays_signaled_witness :
  exists m1,
    PrepareForTermination
      (demo_machine_with_threads
         [demo_thread 1%nat 81%nat ThreadRunning; demo_thread 2%nat 81%nat WaitSynch]
         [] Running)
    = Done tt m1
    /\ is_signaled (process m1) = true
    /\ ClearSignalState m1 = Done ERR_INVALID_STATE m1
    /\ acquire_many 3 m1 = Done tt m1.
Proof.
  destruct (PrepareForTermination
              (demo_machine_with_threads
                 [demo_thread 1%nat 81%nat ThreadRunning;
                  demo_thread 2%nat 81%nat WaitSynch]
                 [] Running)) as [[] m1 | f m1] eqn:Hrun.
  - destruct (exited_process_stays_signaled _ m1 Hrun)
      as (_ & Hsignaled & Hclear & _ & Hacquire).
    exists m1. split; [reflexivity|].
    split; [exact Hsignaled|]. split; [exact Hclear | apply Hacquire].
  - exfalso. vm_compute in Hrun. discriminate Hrun.
Defined.

(** X10 at a freshly created process that is set Running twice. *)
Lemma repeated_status_change_does_not_signal_witness :
  exists m1,
    (ChangeStatus Running ;; rc <- ClearSignalState ;; ChangeStatus Running ;; ret rc)
      demo_machine
    = Done RESULT_SUCCESS m1
    /\ is_signaled (process m1) = false.
Proof.
  destruct (repeated_status_change_does_not_signal demo_machine Running)
    as (m1 & Hrun & _ & Hsignaled & _); [discriminate | discriminate |].
  exists m1. split; [exact Hrun | exact Hsignaled].
Defined.

(** X12 at a module of four bytes loaded into a process that has 0x5000
    bytes of code already. *)
Lemma LoadModule_adds_nothing_to_code_memory_size_witness :
  option_map fst (returned (LoadModule demo_code_set 0x8000000 0x5000 demo_machine))
  = Some 0x5000.
Proof.
  pose proof (LoadModule_adds_nothing_to_code_memory_size demo_code_set
                0x8000000 0x5000 demo_machine ltac:(lia)) as Hsize.
  destruct (LoadModule demo_code_set 0x8000000 0x5000 demo_machine)
    as [[size calls] m1 | f m1] eqn:Hrun.
  - destruct Hsize as [-> _]. reflexivity.
  - exfalso. vm_compute in Hrun. discriminate Hrun.
Defined.

(** X13 at the same module: three regions at 0x8000000, 0x8002000 and
    0x8003000. *)
Lemma LoadModule_maps_three_segments_witness :
  exists m1 calls,
    LoadModule demo_code_set 0x8000000 0 demo_machine = Done (0, calls) m1
    /\ map snd calls = [ReadExecute; Read; ReadWrite]
    /\ map (fun vma => (vma_base vma, vma_size vma, vma_offset vma, vma_state vma))
         (vma_map (vm_manager (process m1)))
       = [(0x8000000, 0x2000, 0, MsCode); (0x8002000, 0x1000, 0x2000, MsCodeData);
          (0x8003000, 0x1000, 0x3000, MsCodeData)].
Proof.
  destruct (LoadModule_maps_three_segments demo_code_set 0x8000000 0 demo_machine)
    as (m1 & Hrun & Hmap & _); try reflexivity.
  exists m1. eexists. split; [exact Hrun|].
  split; [reflexivity|]. rewrite Hmap. reflexivity.
Defined.

(** X14 at a module whose read-only data starts inside its code. *)
Lemma LoadModule_rejected_segment_keeps_earlier_ones_witness :
  exists m1,
    LoadModule demo_overlapping_code_set 0x8000000 0 demo_machine
    = Failed (UnwrapOfError ERR_INVALID_ADDRESS_STATE) m1
    /\ map (fun vma => (vma_base vma, vma_size vma, vma_state vma))
         (vma_map (vm_manager (process m1)))
       = [(0x8000000, 0x2000, MsCode)].
Proof.
  destruct (LoadModule_rejected_segment_keeps_earlier_ones
              demo_overlapping_code_set 0x8000000 0 demo_machine)
    as (m1 & Hrun & Hmap); [reflexivity | right; reflexivity |].
  exists m1. split; [exact Hrun|]. rewrite Hmap. reflexivity.
Defined.

(** X16 at a freshly created process: [Run(1, 0x1000)], then
    [Run(2, 0x1000)]. *)
Lemma Run_twice_is_rejected_witness :
  exists m1 m2,
    Run (MC := switch_memory) 1 0x1000 demo_machine = Done tt m1
    /\ Run (MC := switch_memory) 2 0x1000 m1
       = Failed (UnwrapOfError ERR_INVALID_ADDRESS_STATE) m2
    /\ status (process m2) = Running
    /\ thread_list m2 = thread_list m1.
Proof.
  destruct (Run_outcome (MC := switch_memory) demo_machine 1 0x1000) as [Hfree _].
  destruct (Hfree eq_refl) as (m1 & Hrun & _).
  destruct (Run_twice_is_rejected (MC := switch_memory) demo_machine m1 1 2 0x1000
              eq_refl Hrun)
    as (m2 & Hagain & Hstatus & _ & Hthreads).
  exists m1, m2. repeat split; assumption.
Defined.

(** X17 at a Running process whose thread 2 waits on the process. *)
Lemma PrepareForTermination_fails_on_own_waiter_witness :
  exists m1,
    PrepareForTermination
      (demo_machine_with_threads
         [demo_thread 1%nat 81%nat ThreadRunning; demo_thread 2%nat 81%nat WaitSynch]
         [2%nat] Running)
    = Failed (AssertionFailed
                "Exiting processes with non-waiting threads is currently unimplemented")
        m1
    /\ status (process m1) = Exiting.
Proof.
  destruct (PrepareForTermination_fails_on_own_waiter
              (demo_machine_with_threads
                 [demo_thread 1%nat 81%nat ThreadRunning;
                  demo_thread 2%nat 81%nat WaitSynch]
                 [2%nat] Running)
              (demo_thread 2%nat 81%nat WaitSynch))
    as (m1 & Hrun & Hstatus & _).
  - discriminate.
  - right. left. reflexivity.
  - reflexivity.
  - reflexivity.
  - exists m1. split; [exact Hrun | exact Hstatus].
Defined.

(** ** Applets and the system session *)

(** X20 with [CommonArguments] of 0x20 bytes: a storage of 0x28
    bytes initializes the applet, one of 8 bytes is lost. *)
Lemma Initialize_takes_the_pushed_storage_witness :
  Applets.Initialize 0x20
    (Applets.mkApplet
       (Applets.PushNormalDataFromGame (repeat 7 0x28) (Applets.broker demo_applet))
       [] false)
  = Applets.Initialized
      (Applets.mkApplet (Applets.broker demo_applet) (repeat 7 0x20) true)
  /\ Applets.Initialize 0x20
       (Applets.mkApplet
          (Applets.PushNormalDataFromGame (repeat 7 8) (Applets.broker demo_applet))
          [] false)
     = Applets.AssertFailed demo_applet.
Proof.
  split.
  - apply (Initialize_takes_the_pushed_storage 0x20 demo_applet (repeat 7 0x28)).
    reflexivity.
  - apply (Initialize_takes_the_pushed_storage 0x20 demo_applet (repeat 7 8)).
    reflexivity.
Defined.

(** X23: the software keyboard after [ClearAll], although one was set. *)
Lemma GetApplet_after_ClearAll_dereferences_null_witness :
  Applets.GetApplet Applets.SoftwareKeyboard demo_applet_manager
  = Applets.Made Applets.SoftwareKeyboardBackend (Applets.ProvidedApplet 1)
  /\ Applets.GetApplet Applets.SoftwareKeyboard (Applets.ClearAll demo_applet_manager)
     = Applets.NullDereference.
Proof.
  split; [reflexivity|].
  apply (GetApplet_after_ClearAll_dereferences_null demo_applet_manager
           Applets.SoftwareKeyboard).
  reflexivity.
Defined.

(** X25 at the split file of the demo directory: parts 00 and 01, not
    03. *)
Lemma GetGameFileFromPath_of_split_file_witness :
  Core.GetGameFileFromPath demo_SplitPath (fun _ => false) (Some demo_filesystem)
    "/game/00"
  = Core.Returned
      (Some (Core.MakeConcatenatedFile [100%nat; 101%nat] "game")).
Proof.
  rewrite (GetGameFileFromPath_of_split_file demo_SplitPath (fun _ => false)
             demo_filesystem "/game/00" "/game/" eq_refl).
  reflexivity.
Defined.

(** X26: [Load] on a system without a file system. *)
Lemma Load_needs_a_file_system_witness :
  Core.Load demo_SplitPath (fun _ => false) demo_filesystem demo_GetLoader
    demo_AppLoader_Load (Nat.eqb 0) true None 0 "/homebrew.nro"
    (Core.mkImpl None false None false false false false demo_applet_manager
       false false Core.Success 0 [])
  = Core.DereferencesNull
      (Core.mkImpl None false None false false false false demo_applet_manager
         false false Core.Success 0 []).
Proof.
  apply (Load_needs_a_file_system demo_SplitPath (fun _ => false) demo_filesystem
           demo_GetLoader demo_AppLoader_Load (Nat.eqb 0) true None 0
           "/homebrew.nro").
  reflexivity.
Defined.

(** X27: [Load] of a file that does not exist. *)
Lemma Load_without_loader_starts_nothing_witness :
  Core.Load demo_SplitPath (fun _ => false) demo_filesystem demo_GetLoader
    demo_AppLoader_Load (Nat.eqb 0) true None 0 "/missing.nro" demo_system
  = Core.Returns Core.ErrorGetLoader demo_system.
Proof.
  apply (Load_without_loader_starts_nothing demo_SplitPath (fun _ => false)
           demo_filesystem demo_GetLoader demo_AppLoader_Load (Nat.eqb 0)
           true None 0 "/missing.nro" None demo_system eq_refl eq_refl).
Defined.

(** X28: [Load] of a file whose loader fails, and with a renderer that
    cannot be initialized: the software keyboard set before is gone. *)
Lemma failed_Load_closes_the_session_witness :
  (exists s1,
     Core.Load demo_SplitPath (fun _ => false) demo_filesystem demo_GetLoader
       demo_AppLoader_Load (Nat.eqb 0) true None 0 "/homebrew.nro" demo_system
     = Core.Returns (Core.ErrorLoader_plus 4%nat) s1
     /\ Applets.GetApplet Applets.SoftwareKeyboard (Core.applet_manager s1)
        = Applets.NullDereference)
  /\ (exists s1,
        Core.Load demo_SplitPath (fun _ => false) demo_filesystem demo_GetLoader
          demo_AppLoader_Load (Nat.eqb 0) false None 0 "/homebrew.nro" demo_system
        = Core.Returns Core.ErrorVideoCore s1
        /\ Core.is_powered_on s1 = false).
Proof.
  split.
  - destruct (failed_Load_closes_the_session demo_SplitPath (fun _ => false)
                demo_filesystem demo_GetLoader demo_AppLoader_Load (Nat.eqb 0)
                true None 0 "/homebrew.nro" (Some (Core.Opened 7%nat)) 1%nat
                demo_system eq_refl eq_refl (or_intror eq_refl))
      as (s1 & Hload & _ & _ & _ & Hnull).
    exists s1. split; [exact Hload|]. apply Hnull. reflexivity.
  - destruct (failed_Load_closes_the_session demo_SplitPath (fun _ => false)
                demo_filesystem demo_GetLoader demo_AppLoader_Load (Nat.eqb 0)
                false None 0 "/homebrew.nro" (Some (Core.Opened 7%nat)) 1%nat
                demo_system eq_refl eq_refl (or_introl eq_refl))
      as (s1 & Hload & Hclosed & _).
    exists s1. split; [exact Hload|]. apply Hclosed.
Defined.

(** X29: [Shutdown] of a running session, twice. *)
Lemma Shutdown_twice_dereferences_null_witness :
  exists s1 s2,
    Core.Shutdown demo_running_system = Core.Returns tt s1
    /\ Core.Shutdown s1 = Core.DereferencesNull s2.
Proof.
  eexists. eexists. split; [reflexivity|].
  apply (Shutdown_twice_dereferences_null demo_running_system _ eq_refl).
Defined.
